(** * saltext-sap: [sap.get_system_data]

    A shallow embedding of the execution module
    [src/saltext/sap/_modules/sap.py] and the properties of its single
    function [get_system_data].

    Conventions of the embedding.
    - Python [str] is [string]; text is taken to be ASCII, so the
      whitespace of [str.strip] is the ASCII whitespace.
    - Python [int] is [Z].  [int(s)] on a string is the conversion of
      Python 3.11 with [sys.int_max_str_digits] at its default of 4300;
      the instance numbers the collaborators deliver are taken to be
      below that limit where they are formatted into text.
    - The dicts with a fixed set of keys ([system_data], the instance
      dicts) are records whose optional keys are [option] fields; the
      message-server dicts, whose values are all strings, are
      [gmap string string]; the parameter dict, which is iterated in
      insertion order, is an association list with the insertion
      semantics of a Python dict.
    - The instance dicts are objects the function changes in place and
      stores, by reference, in [system_data["instances"]]: they live in a
      store, a list of instances is a list of references into it, and a
      reference may occur more than once.
    - A collaborator is a function of the arguments it is called with;
      what it may raise itself is outside this module, the
      [RequestException] the function catches apart.
    - Exceptions, the log and the calls to the collaborators are explicit:
      a computation maps a state to a state and a result, the state
      survives a raise (nothing is rolled back), and every log record and
      collaborator call is appended to a trace.
    - Log messages that interpolate the [repr] of a dict or list are
      recorded by their fixed text only. *)

From Stdlib Require Import ZArith String Ascii List Bool Lia DecimalString.
From stdpp Require Import base option list strings gmap.
Import ListNotations.

Local Open Scope string_scope.
Local Open Scope Z_scope.

(** ** Python string operations *)

Module PyStr.

(** The characters [str.strip()] removes (ASCII range of [str.isspace]). *)
Definition is_space (c : ascii) : bool :=
  let n := nat_of_ascii c in
  ((9 <=? n)%nat && (n <=? 13)%nat) || ((28 <=? n)%nat && (n <=? 32)%nat).

Fixpoint lstrip (s : string) : string :=
  match s with
  | String c s' => if is_space c then lstrip s' else s
  | EmptyString => EmptyString
  end.

(** [rstrip] drops the trailing run of whitespace. *)
Fixpoint rstrip (s : string) : string :=
  match s with
  | EmptyString => EmptyString
  | String c s' =>
      match rstrip s' with
      | EmptyString => if is_space c then EmptyString else String c EmptyString
      | r => String c r
      end
  end.

(** [s.strip()] *)
Definition strip (s : string) : string := rstrip (lstrip s).

(** [c in s] for a one-character [c]. *)
Fixpoint contains_char (c : ascii) (s : string) : bool :=
  match s with
  | EmptyString => false
  | String d s' => if Ascii.eqb c d then true else contains_char c s'
  end.

(** [s.split(c)] for a one-character separator: never the empty list. *)
Fixpoint split (c : ascii) (s : string) : list string :=
  match s with
  | EmptyString => [EmptyString]
  | String d s' =>
      if Ascii.eqb c d then EmptyString :: split c s'
      else match split c s' with
           | w :: ws => String d w :: ws
           | [] => [String d EmptyString]
           end
  end.

(** [s.split(c, 1)]: [[s]] when [c] does not occur in [s], else the
    text before the first [c] and the text after it. *)
Fixpoint split1 (c : ascii) (s : string) : list string :=
  match s with
  | EmptyString => [EmptyString]
  | String d s' =>
      if Ascii.eqb c d then [EmptyString; s']
      else match split1 c s' with
           | k :: r => String d k :: r
           | [] => [String d EmptyString]
           end
  end.

(** [s.startswith(p)] *)
Definition startswith (p s : string) : bool := String.prefix p s.

Definition upper_char (c : ascii) : ascii :=
  let n := nat_of_ascii c in
  if ((97 <=? n)%nat && (n <=? 122)%nat) then ascii_of_nat (n - 32) else c.

(** [s.upper()] *)
Fixpoint upper (s : string) : string :=
  match s with
  | EmptyString => EmptyString
  | String c s' => String (upper_char c) (upper s')
  end.

(** [p in s] for strings: [p] occurs in [s]. *)
Fixpoint contains (p s : string) : bool :=
  String.prefix p s ||
  match s with
  | EmptyString => false
  | String _ s' => contains p s'
  end.

(** [str(n)] for an int. *)
Definition of_int (n : Z) : string := NilZero.string_of_int (Z.to_int n).

(** [f"{n:02d}"]: sign-aware zero padding to width two. *)
Definition format_02d (n : Z) : string :=
  if (0 <=? n) && (n <? 10) then "0" ++ of_int n else of_int n.

Definition digit_value (c : ascii) : option Z :=
  let n := nat_of_ascii c in
  if ((48 <=? n)%nat && (n <=? 57)%nat) then Some (Z.of_nat (n - 48)) else None.

(** The characters [int()] skips before and after the literal of an
    ASCII string: the whitespace of C, which is not all of the
    whitespace of [str.strip] (the separators 28-31 are left). *)
Definition is_c_space (c : ascii) : bool :=
  let n := nat_of_ascii c in
  ((9 <=? n)%nat && (n <=? 13)%nat) || (n =? 32)%nat.

Fixpoint skip_c_space (s : string) : string :=
  match s with
  | String c s' => if is_c_space c then skip_c_space s' else s
  | EmptyString => EmptyString
  end.

Definition hex_digit (n : nat) : ascii :=
  if (n <? 10)%nat then ascii_of_nat (48 + n) else ascii_of_nat (87 + n).

(** One character of [repr(s)] between the quotes [quote]. *)
Definition repr_char (quote c : ascii) : string :=
  let n := nat_of_ascii c in
  if Ascii.eqb c "\" then "\\"
  else if Ascii.eqb c quote then String "\" (String c EmptyString)
  else if (n =? 9)%nat then "\t"
  else if (n =? 10)%nat then "\n"
  else if (n =? 13)%nat then "\r"
  else if (n <? 32)%nat || (127 <=? n)%nat then
    String "\" (String "x" (String (hex_digit (n / 16))
                               (String (hex_digit (n mod 16)) EmptyString)))
  else String c EmptyString.

Fixpoint repr_chars (quote : ascii) (s : string) : string :=
  match s with
  | EmptyString => EmptyString
  | String c s' => repr_char quote c ++ repr_chars quote s'
  end.

(** [repr(s)]: in single quotes, unless [s] has a single quote and no
    double quote; control characters escaped (ASCII range). *)
Definition repr (s : string) : string :=
  let quote : ascii :=
    if contains_char "'" s && negb (contains_char "034" s) then "034"%char
    else "'"%char in
  String quote (repr_chars quote s ++ String quote EmptyString).

(** [sys.int_max_str_digits], at its default: [int()] refuses a literal
    of more digits. *)
Definition int_max_str_digits : N := 4300.

(** The run of digits and underscores an int literal starts with: its
    value, the number of its digits and the text after it; [None] when
    two underscores follow each other or the run ends in one.
    [underscore] tells whether the previous character was one. *)
Fixpoint scan_digits (acc : Z) (digits : N) (underscore : bool) (s : string)
  : option (Z * N * string) :=
  match s with
  | EmptyString => if underscore then None else Some (acc, digits, s)
  | String c s' =>
      match digit_value c with
      | Some d => scan_digits (10 * acc + d) (digits + 1) false s'
      | None =>
          if Ascii.eqb c "_" then
            if underscore then None else scan_digits acc digits true s'
          else if underscore then None else Some (acc, digits, s)
      end
  end.

(** [int(s)] for a string: the value, or the message of the
    [ValueError].  Whitespace is skipped, a sign is read, then the
    digits; the literal may not start with an underscore, the number of
    digits is checked against the limit before the rest of the text is
    looked at, and only whitespace may follow.  The message of an
    invalid literal shows the first 200 characters of [repr(s)]. *)
Definition to_int (s : string) : Z + string :=
  let invalid : Z + string :=
    inr ("invalid literal for int() with base 10: " ++ String.substring 0 200 (repr s)) in
  let unsigned := skip_c_space s in
  let '(sign, literal) :=
    match unsigned with
    | String "+" t => (1, t)
    | String "-" t => (-1, t)
    | _ => (1, unsigned)
    end in
  match literal with
  | String "_" _ => invalid
  | _ =>
      match scan_digits 0 0 false literal with
      | None => invalid
      | Some (value, digits, rest) =>
          if (int_max_str_digits <? digits)%N then
            inr ("Exceeds the limit (" ++ of_int (Z.of_N int_max_str_digits)
                 ++ " digits) for integer string conversion: value has "
                 ++ of_int (Z.of_N digits)
                 ++ " digits; use sys.set_int_max_str_digits() to increase the limit")
          else if (digits =? 0)%N then invalid
          else
            match skip_c_space rest with
            | EmptyString => inl (sign * value)
            | _ => invalid
            end
      end
  end.

End PyStr.


(** ** Python dicts kept in insertion order *)

Section Dict.
Context {K V : Type} `{EqDecision K}.

(** [d.get(k)] / [k in d] *)
Fixpoint dict_get (k : K) (d : list (K * V)) : option V :=
  match d with
  | [] => None
  | (k', v) :: d' => if decide (k = k') then Some v else dict_get k d'
  end.

(** [d[k] = v]: an existing key keeps its position, a new key goes last. *)
Fixpoint dict_set (k : K) (v : V) (d : list (K * V)) : list (K * V) :=
  match d with
  | [] => [(k, v)]
  | (k', v') :: d' =>
      if decide (k = k') then (k, v) :: d' else (k', v') :: dict_set k v d'
  end.
End Dict.

(** ** Data model *)

(** Exceptions the function can raise. *)
Inductive exn :=
| KeyError (key : string)
| IndexError
| TypeError (msg : string)
| ValueError (msg : string)
| UnboundLocalError (var : string)
| StopIteration
| Exception (msg : string).

Inductive result (A : Type) :=
| Ok (a : A)
| Raise (e : exn).
Arguments Ok {A} a.
Arguments Raise {A} e.

Inductive level := DEBUG | WARNING | ERROR | TRACE.

(** What the function does to the outside: log records and calls of the
    collaborators, with the arguments passed. *)
Inductive event :=
| Log (lvl : level) (msg : string)
| Call_list_instances (sid username password : string) (fallback : bool)
| Call_get_system_instance_list
    (instance_number : Z) (fqdn username password : string) (verify : bool)
| Call_parameter_value
    (instance_number : Z) (parameter fqdn username password : string) (verify : bool)
| Call_get_abap_component_list
    (instance_number : Z) (fqdn username password : string) (verify : bool)
| Call_file_grep (path pattern : string)
| Call_requests_get (url : string) (verify : bool)
| Call_get_instance_properties
    (instance_number : Z) (fqdn username password : string) (verify : bool).

(** One instance dict.  [hostname], [instance] and [features] come from
    the instance-detail collaborator; [instance] is [None] once
    [del instance["instance"]] has run; the other keys are the ones the
    function writes. *)
Record InstanceRecord := {
  i_hostname : string;
  i_instance : option Z;
  i_features : list string;
  i_fqdn : option string;
  i_type : option string;
  i_name : option string;
  i_httpport : option Z;
  i_httpsport : option Z
}.

(** The instance dicts are objects: a list of instances is a list of
    references (positions) into a store of objects. *)
Definition loc := nat.

(** An entry of the ABAP component list (opaque to this module). *)
Definition component := list (string * string).

(** The [system_data] dict; [{}] is [empty_system_data]. *)
Record SystemData := {
  sd_instances : option (list (Z * loc));
  sd_db_host : option string;
  sd_db_instance : option string;
  sd_software_components : option (list component);
  sd_message_servers : option (list (gmap string string));
  sd_logon_groups : option (list string)
}.

Definition empty_system_data : SystemData :=
  {| sd_instances := None; sd_db_host := None; sd_db_instance := None;
     sd_software_components := None; sd_message_servers := None;
     sd_logon_groups := None |}.

(** The list of instance dicts the instance-detail collaborator returns:
    the objects it built and the list itself, as references to them. *)
Record InstanceList := {
  objects : list InstanceRecord;
  items : list loc
}.

(** An HTTP response: [.ok] and [.text]. *)
Record Response := { ok : bool; text : string }.

(** The collaborators ([__salt__], [__grains__], [requests.get]), each a
    function of the arguments it is called with. *)
Record Salt := {
  sap_hostctrl_list_instances :
    string -> string -> string -> bool -> list (list (string * Z));
  sap_control_get_system_instance_list :
    Z -> string -> string -> string -> bool -> InstanceList;
  sap_control_parameter_value :
    Z -> string -> string -> string -> string -> bool -> bool * string;
  sap_control_get_abap_component_list :
    Z -> string -> string -> string -> bool -> bool * list component;
  (** [file.grep]: [retcode] and [stdout] *)
  file_grep : string -> string -> Z * string;
  sap_control_get_instance_properties :
    Z -> string -> string -> string -> bool -> list (string * string);
  (** [None] is a raised [RequestException] *)
  requests_get : string -> bool -> option Response;
  grains_fqdn : string;
  grains_domain : string
}.

(** The state a run works on.  [heap] is the store of instance objects,
    [cur] the object the loop variable [instance] refers to (meaningful
    inside the loop only), [parameters] the local variable of that name,
    [None] while it is unbound. *)
Record state := {
  heap : list InstanceRecord;
  cur : InstanceRecord;
  system_data : SystemData;
  parameters : option (list (string * string));
  trace : list event
}.

Definition no_instance : InstanceRecord :=
  {| i_hostname := ""; i_instance := None; i_features := []; i_fqdn := None;
     i_type := None; i_name := None; i_httpport := None; i_httpsport := None |}.

Definition initial_state : state :=
  {| heap := []; cur := no_instance; system_data := empty_system_data;
     parameters := None; trace := [] |}.

(** ** Computations: state, exceptions and the trace *)

Definition M (A : Type) : Type := state -> state * result A.

#[global] Instance M_ret : MRet M := fun A a st => (st, Ok a).

#[global] Instance M_bind : MBind M := fun A B f m st =>
  match m st with
  | (st', Ok a) => f a st'
  | (st', Raise e) => (st', Raise e)
  end.

Definition raise {A : Type} (e : exn) : M A := fun st => (st, Raise e).

Definition emit (e : event) : M unit := fun st =>
  ({| heap := heap st; cur := cur st; system_data := system_data st;
      parameters := parameters st; trace := trace st ++ [e] |}, Ok tt).

(** [log.debug(msg)], [log.warning(msg)], ... *)
Definition log (lvl : level) (msg : string) : M unit := emit (Log lvl msg).

(** A call of a collaborator: the call is recorded, the answer returned. *)
Definition call {A : Type} (e : event) (answer : A) : M A :=
  emit e ;; mret answer.

Definition get_cur : M InstanceRecord := fun st => (st, Ok (cur st)).

Definition modify_cur (f : InstanceRecord -> InstanceRecord) : M unit := fun st =>
  ({| heap := heap st; cur := f (cur st); system_data := system_data st;
      parameters := parameters st; trace := trace st |}, Ok tt).

Definition get_system_data_var : M SystemData := fun st => (st, Ok (system_data st)).

Definition modify_system_data (f : SystemData -> SystemData) : M unit := fun st =>
  ({| heap := heap st; cur := cur st; system_data := f (system_data st);
      parameters := parameters st; trace := trace st |}, Ok tt).

Definition set_heap (h : list InstanceRecord) : M unit := fun st =>
  ({| heap := h; cur := cur st; system_data := system_data st;
      parameters := parameters st; trace := trace st |}, Ok tt).

Definition set_parameters (p : option (list (string * string))) : M unit := fun st =>
  ({| heap := heap st; cur := cur st; system_data := system_data st;
      parameters := p; trace := trace st |}, Ok tt).

(** Reading the local variable [parameters]; unbound, it raises. *)
Definition get_parameters : M (list (string * string)) := fun st =>
  match parameters st with
  | Some p => (st, Ok p)
  | None => (st, Raise (UnboundLocalError "parameters"))
  end.

(** [for x in l: body x] *)
Fixpoint for_each {A : Type} (l : list A) (body : A -> M unit) : M unit :=
  match l with
  | [] => mret tt
  | x :: l' => body x ;; for_each l' body
  end.

(** [l[i]] on a list *)
Definition index {A : Type} (l : list A) (i : nat) : M A :=
  match l !! i with
  | Some x => mret x
  | None => raise IndexError
  end.

(** [d[k]] on a dict of strings *)
Definition getitem (d : gmap string string) (k : string) : M string :=
  match d !! k with
  | Some v => mret v
  | None => raise (KeyError k)
  end.

(** *** The instance dict the loop variable refers to *)

Definition set_fqdn (v : string) (i : InstanceRecord) : InstanceRecord :=
  {| i_hostname := i_hostname i; i_instance := i_instance i; i_features := i_features i;
     i_fqdn := Some v; i_type := i_type i; i_name := i_name i;
     i_httpport := i_httpport i; i_httpsport := i_httpsport i |}.

Definition set_type (v : string) (i : InstanceRecord) : InstanceRecord :=
  {| i_hostname := i_hostname i; i_instance := i_instance i; i_features := i_features i;
     i_fqdn := i_fqdn i; i_type := Some v; i_name := i_name i;
     i_httpport := i_httpport i; i_httpsport := i_httpsport i |}.

Definition set_name (v : string) (i : InstanceRecord) : InstanceRecord :=
  {| i_hostname := i_hostname i; i_instance := i_instance i; i_features := i_features i;
     i_fqdn := i_fqdn i; i_type := i_type i; i_name := Some v;
     i_httpport := i_httpport i; i_httpsport := i_httpsport i |}.

Definition set_httpport (v : Z) (i : InstanceRecord) : InstanceRecord :=
  {| i_hostname := i_hostname i; i_instance := i_instance i; i_features := i_features i;
     i_fqdn := i_fqdn i; i_type := i_type i; i_name := i_name i;
     i_httpport := Some v; i_httpsport := i_httpsport i |}.

Definition set_httpsport (v : Z) (i : InstanceRecord) : InstanceRecord :=
  {| i_hostname := i_hostname i; i_instance := i_instance i; i_features := i_features i;
     i_fqdn := i_fqdn i; i_type := i_type i; i_name := i_name i;
     i_httpport := i_httpport i; i_httpsport := Some v |}.

(** [del instance["instance"]] *)
Definition del_instance (i : InstanceRecord) : InstanceRecord :=
  {| i_hostname := i_hostname i; i_instance := None; i_features := i_features i;
     i_fqdn := i_fqdn i; i_type := i_type i; i_name := i_name i;
     i_httpport := i_httpport i; i_httpsport := i_httpsport i |}.

(** [instance["instance"]] *)
Definition instance_instance : M Z :=
  i ← get_cur;
  match i_instance i with
  | Some n => mret n
  | None => raise (KeyError "instance")
  end.

(** [instance["fqdn"]] *)
Definition instance_fqdn : M string :=
  i ← get_cur;
  match i_fqdn i with
  | Some v => mret v
  | None => raise (KeyError "fqdn")
  end.

(** *** The [system_data] dict *)

Definition set_sd_instances (v : list (Z * loc)) (d : SystemData) : SystemData :=
  {| sd_instances := Some v; sd_db_host := sd_db_host d;
     sd_db_instance := sd_db_instance d;
     sd_software_components := sd_software_components d;
     sd_message_servers := sd_message_servers d;
     sd_logon_groups := sd_logon_groups d |}.

Definition set_sd_db_host (v : string) (d : SystemData) : SystemData :=
  {| sd_instances := sd_instances d; sd_db_host := Some v;
     sd_db_instance := sd_db_instance d;
     sd_software_components := sd_software_components d;
     sd_message_servers := sd_message_servers d;
     sd_logon_groups := sd_logon_groups d |}.

Definition set_sd_db_instance (v : string) (d : SystemData) : SystemData :=
  {| sd_instances := sd_instances d; sd_db_host := sd_db_host d;
     sd_db_instance := Some v;
     sd_software_components := sd_software_components d;
     sd_message_servers := sd_message_servers d;
     sd_logon_groups := sd_logon_groups d |}.

Definition set_sd_software_components (v : list component) (d : SystemData) : SystemData :=
  {| sd_instances := sd_instances d; sd_db_host := sd_db_host d;
     sd_db_instance := sd_db_instance d;
     sd_software_components := Some v;
     sd_message_servers := sd_message_servers d;
     sd_logon_groups := sd_logon_groups d |}.

Definition set_sd_message_servers (v : list (gmap string string)) (d : SystemData)
  : SystemData :=
  {| sd_instances := sd_instances d; sd_db_host := sd_db_host d;
     sd_db_instance := sd_db_instance d;
     sd_software_components := sd_software_components d;
     sd_message_servers := Some v;
     sd_logon_groups := sd_logon_groups d |}.

Definition set_sd_logon_groups (v : list string) (d : SystemData) : SystemData :=
  {| sd_instances := sd_instances d; sd_db_host := sd_db_host d;
     sd_db_instance := sd_db_instance d;
     sd_software_components := sd_software_components d;
     sd_message_servers := sd_message_servers d;
     sd_logon_groups := Some v |}.

(** [system_data["instances"]] *)
Definition sd_get_instances : M (list (Z * loc)) :=
  d ← get_system_data_var;
  match sd_instances d with
  | Some v => mret v
  | None => raise (KeyError "instances")
  end.

(** [system_data["message_servers"]] *)
Definition sd_get_message_servers : M (list (gmap string string)) :=
  d ← get_system_data_var;
  match sd_message_servers d with
  | Some v => mret v
  | None => raise (KeyError "message_servers")
  end.

(** [system_data["logon_groups"]] *)
Definition sd_get_logon_groups : M (list string) :=
  d ← get_system_data_var;
  match sd_logon_groups d with
  | Some v => mret v
  | None => raise (KeyError "logon_groups")
  end.

(** ** The function [get_system_data] *)

Section GetSystemData.

Variable salt : Salt.
Variables sid username password : string.
Variable verify : bool.

(** Lines 128-137: the parameter dump is parsed only when the call
    succeeded; otherwise [parameters] is left as it was. *)
Definition parameter_line (line : string) : M unit :=
  if PyStr.contains_char "=" line then
    match PyStr.split1 "=" line with
    | [key; value] =>
        p ← get_parameters;
        set_parameters (Some (dict_set (PyStr.strip key) (PyStr.strip value) p))
    | _ => raise (ValueError "not enough values to unpack")
    end
  else if bool_decide (line <> "") then
    log WARNING ("Cannot determine key/value of parameter '" ++ line ++ "'")
  else mret tt.

Definition parse_parameters (success : bool) (parameters_str : string) : M unit :=
  if negb success then
    log WARNING "Could not retrieve parameters"
  else
    set_parameters (Some []) ;;
    for_each (PyStr.split "010" parameters_str) parameter_line.

(** Lines 181-191 (and 247-257): the sub-fields of one port value. *)
Fixpoint port_sub_fields (icm_k : string) (params : list string)
    (protocol port : option string) : M (option string * option string) :=
  match params with
  | [] => mret (protocol, port)
  | param :: params' =>
      log DEBUG ("Processing '" ++ param ++ "'") ;;
      let k_v := PyStr.split "=" param in
      k0 ← index k_v 0;
      let key := PyStr.strip k0 in
      k1 ← index k_v 1;
      let value := PyStr.strip k1 in
      if bool_decide (key = "PROT") then
        port_sub_fields icm_k params' (Some value) port
      else if bool_decide (key = "PORT") then
        port_sub_fields icm_k params' protocol (Some value)
      else
        log WARNING ("Unknown parameter " ++ key ++ "=" ++ value ++ " for " ++ icm_k) ;;
        port_sub_fields icm_k params' protocol port
  end.

(** [int(port)] where [port] is [None] or a string. *)
Definition int_of_port (port : option string) : M Z :=
  match port with
  | None =>
      raise (TypeError "int() argument must be a string, a bytes-like object or a real number, not 'NoneType'")
  | Some s =>
      match PyStr.to_int s with
      | inl n => mret n
      | inr msg => raise (ValueError msg)
      end
  end.

(** Lines 176-204 (and 242-270): one parameter of the dict.  The two
    loops of the source are the same text up to the key prefix and the
    word ICM or MS in two debug messages, [what] here. *)
Definition server_port (prefix what icm_k icm_v : string) : M unit :=
  if PyStr.startswith prefix icm_k then
    log DEBUG ("Got data for " ++ icm_k ++ ": " ++ icm_v) ;;
    let params := PyStr.split "," icm_v in
    '(protocol, port) ← port_sub_fields icm_k params None None;
    port ← int_of_port port;
    match protocol with
    | Some protocol =>
        if bool_decide (protocol = "") || (port =? 0) then
          log WARNING ("Protocol or port not defined for " ++ icm_k)
        else if bool_decide (PyStr.upper protocol = "HTTPS") then
          modify_cur (set_httpsport port) ;;
          log DEBUG ("Got " ++ what ++ " HTTPS port: " ++ PyStr.of_int port)
        else if bool_decide (PyStr.upper protocol = "HTTP") then
          modify_cur (set_httpport port) ;;
          log DEBUG ("Got " ++ what ++ " HTTP port: " ++ PyStr.of_int port)
        else
          log ERROR ("Unknown protocol '" ++ PyStr.upper protocol ++ "', skipping")
    | None =>
        log WARNING ("Protocol or port not defined for " ++ icm_k)
    end
  else mret tt.

(** [for icm_k, icm_v in parameters.items(): ...] *)
Definition server_ports (prefix what : string) : M unit :=
  p ← get_parameters;
  for_each p (fun kv => server_port prefix what kv.1 kv.2).

(** Lines 143-204. *)
Definition abap_extraction : M unit :=
  log DEBUG "Retrieving DB host" ;;
  p ← get_parameters;
  match dict_get "SAPDBHOST" p with
  | None => log WARNING "Parameter SAPDBHOST does not exist"
  | Some v =>
      log DEBUG ("Got DB host: " ++ v) ;;
      modify_system_data (set_sd_db_host v)
  end ;;
  log DEBUG "Retrieving DB name" ;;
  p ← get_parameters;
  match dict_get "rsdb/dbid" p with
  | None => log WARNING "Parameter rsdb/dbid does not exist"
  | Some v =>
      log DEBUG ("Got DB name: " ++ v) ;;
      modify_system_data (set_sd_db_instance v)
  end ;;
  log DEBUG "Retrieving ABAP component list" ;;
  n ← instance_instance;
  fq ← instance_fqdn;
  '(success, comps) ←
    call (Call_get_abap_component_list n fq username password verify)
         (sap_control_get_abap_component_list salt n fq username password verify);
  (if negb success then log WARNING "Could not retrieve ABAP component list"
   else if bool_decide (comps = []) then log WARNING "ABAP components does not exist"
   else
     log DEBUG "Got ABAP components" ;;
     modify_system_data (set_sd_software_components comps)) ;;
  log DEBUG "Retrieve ICM ports for instance" ;;
  server_ports "icm/server_port_" "ICM".

(** Lines 141-204. *)
Definition process_abap : M unit :=
  log DEBUG "Processing ABAP instance" ;;
  modify_cur (set_type "ABAP") ;;
  abap_extraction.

(** Lines 228-239: the message-server port, from the service-name
    database or by default. *)
Definition message_server_msport (message_server : gmap string string)
  : M (gmap string string) :=
  log DEBUG "Adding messageserver port" ;;
  etc_services ←
    call (Call_file_grep "/etc/services" ("sapms" ++ sid))
         (file_grep salt "/etc/services" ("sapms" ++ sid));
  if bool_decide (etc_services.1 = 0) then
    log DEBUG "Message server port definiton found in /etc/services" ;;
    f ← index (PyStr.split "009" etc_services.2) 1;
    msport ← index (PyStr.split "/" f) 0;
    log DEBUG ("Got messageserver port: " ++ msport) ;;
    mret (<[ "msport" := msport ]> message_server)
  else
    n ← instance_instance;
    let msport := "36" ++ PyStr.format_02d n in
    log DEBUG ("Could not find message server port in /etc/services, using default "
               ++ msport) ;;
    mret (<[ "msport" := msport ]> message_server).

(** Lines 271-277. *)
Definition message_server_httpport (message_server : gmap string string)
  : M (gmap string string) :=
  if bool_decide (message_server !! "httpport" = None) then
    n ← instance_instance;
    let httpport := "81" ++ PyStr.format_02d n in
    log WARNING ("Could not determine HTTP / HTTPS port of message server, "
                 ++ "setting to default " ++ httpport) ;;
    mret (<[ "httpport" := httpport ]> message_server)
  else mret message_server.

(** Lines 220-278: the message-server dict is built and appended. *)
Definition message_server_ports : M unit :=
  log DEBUG "Retrieving Ports" ;;
  d ← get_system_data_var;
  (if bool_decide (sd_message_servers d = None)
   then modify_system_data (set_sd_message_servers [])
   else mret tt) ;;
  fq ← instance_fqdn;
  message_server ← message_server_msport {[ "host" := fq ]};
  server_ports "ms/server_port_" "MS" ;;
  message_server ← message_server_httpport message_server;
  l ← sd_get_message_servers;
  modify_system_data (set_sd_message_servers (l ++ [message_server])).

Definition lglist_url (scheme host port : string) : string :=
  scheme ++ "://" ++ host ++ ":" ++ port ++ "/msgserver/text/lglist".

(** Lines 283-302: the candidates are tried in order; the result is the
    value of [response] after the loop.  ([requests.Session()] and the
    CA bundle set on it have no part in the request, which is made
    with [requests.get].) *)
Fixpoint probe_message_servers (l : list (gmap string string)) : M (option string) :=
  match l with
  | [] => mret None
  | message_server :: l' =>
      url ←
        (if verify && bool_decide (is_Some (message_server !! "httpsport")) then
           host ← getitem message_server "host";
           port ← getitem message_server "httpsport";
           mret (lglist_url "https" host port)
         else
           host ← getitem message_server "host";
           port ← getitem message_server "httpsport";
           mret (lglist_url "http" host port));
      res ← call (Call_requests_get url verify) (requests_get salt url verify);
      match res with
      | None =>
          host ← getitem message_server "host";
          log DEBUG ("Cannot reach message server " ++ host
                     ++ " to retrieve logon groups") ;;
          probe_message_servers l'
      | Some res =>
          if negb (ok res) then probe_message_servers l'
          else mret (Some (text res))
      end
  end.

(** Lines 310-313. *)
Definition logon_group_line (logon_group : string) : M unit :=
  if bool_decide (logon_group <> "") then
    g ← index (PyStr.split "009" logon_group) 0;
    l ← sd_get_logon_groups;
    modify_system_data (set_sd_logon_groups (l ++ [g]))
  else mret tt.

(** Lines 281-314. *)
Definition logon_groups : M unit :=
  log DEBUG "Retrieving Logon Groups" ;;
  l ← sd_get_message_servers;
  response ← probe_message_servers l;
  modify_system_data (set_sd_logon_groups []) ;;
  match response with
  | Some (String c r) =>
      for_each (tail (PyStr.split "010" (String c r))) logon_group_line
  | _ =>
      log WARNING ("Could not reach any message server to retrieve logon groups, "
                   ++ "adding default logon group SPACE") ;;
      modify_system_data (set_sd_logon_groups ["SPACE"])
  end ;;
  log DEBUG "Got logon groups: ".

(** Lines 220-314. *)
Definition messageserver_extraction : M unit :=
  message_server_ports ;;
  logon_groups.

(** Lines 218-314. *)
Definition process_messageserver : M unit :=
  log DEBUG "Processing MESSAGESERVER instance" ;;
  modify_cur (set_type "ASCS") ;;
  messageserver_extraction.

(** ["X" in instance["features"]] *)
Definition has_feature (f : string) (i : InstanceRecord) : bool :=
  bool_decide (f ∈ i_features i).

(** Lines 139-317. *)
Definition process_type : M unit :=
  log DEBUG "Determine instance type" ;;
  i ← get_cur;
  if has_feature "ABAP" i then process_abap
  else if has_feature "WEBDISP" i then
    log DEBUG "Processing WEBDISP instance" ;; modify_cur (set_type "WEBDISP")
  else if has_feature "J2EE" i then
    log DEBUG "Processing J2EE instance" ;; modify_cur (set_type "JAVA")
  else if has_feature "TREX" i then
    log DEBUG "Processing TREX instance" ;; modify_cur (set_type "TREX")
  else if has_feature "HDB" i then
    log DEBUG "Processing HDB instance" ;; modify_cur (set_type "HDB")
  else if has_feature "MESSAGESERVER" i then process_messageserver
  else modify_cur (set_type "UNKNOWN").

(** Lines 119-137. *)
Definition fetch_parameters : M unit :=
  log DEBUG "Retrieving all parameters for processing" ;;
  n ← instance_instance;
  fq ← instance_fqdn;
  '(success, parameters_str) ←
    call (Call_parameter_value n "" fq username password verify)
         (sap_control_parameter_value salt n "" fq username password verify);
  parse_parameters success parameters_str.

(** Lines 319-333; [this] is the reference the loop variable holds. *)
Definition register_instance (fqdn : string) (this : loc) : M unit :=
  log DEBUG "Retrieve instance properties" ;;
  n ← instance_instance;
  instance_properties ←
    call (Call_get_instance_properties n fqdn username password verify)
         (sap_control_get_instance_properties salt n fqdn username password verify);
  modify_cur (set_name (default "UNKOWN_INSTANCE_NAME"
                                (dict_get "INSTANCE_NAME" instance_properties))) ;;
  instance_name ← instance_instance;
  modify_cur del_instance ;;
  l ← sd_get_instances;
  modify_system_data (set_sd_instances (dict_set instance_name this l)) ;;
  log DEBUG ("Added instance " ++ PyStr.of_int instance_name ++ " with details").

(** The body of the loop, lines 115-333. *)
Definition loop_body (domain fqdn : string) (this : loc) : M unit :=
  log DEBUG "Current instance" ;;
  log DEBUG "Setting FQDN" ;;
  i ← get_cur;
  modify_cur (set_fqdn (i_hostname i ++ "." ++ domain)) ;;
  fetch_parameters ;;
  process_type ;;
  register_instance fqdn this.

(** One iteration: the loop variable is bound to the object at [this];
    what the body does to that object is done to the store, also when
    the body raises.  A reference outside the store cannot be in a
    list, and is an [IndexError] here. *)
Definition iteration (domain fqdn : string) (this : loc) : M unit := fun st =>
  match heap st !! this with
  | None => (st, Raise IndexError)
  | Some i =>
      let '(st', r) :=
        loop_body domain fqdn this
          {| heap := heap st; cur := i; system_data := system_data st;
             parameters := parameters st; trace := trace st |} in
      ({| heap := <[ this := cur st' ]> (heap st'); cur := cur st';
          system_data := system_data st'; parameters := parameters st';
          trace := trace st' |}, r)
  end.

(** Lines 114-333. *)
Definition loop_instances (domain fqdn : string) (l : list loc) : M unit :=
  for_each l (iteration domain fqdn).

(** Lines 78-336. *)
Definition get_system_data : M SystemData :=
  log DEBUG "Running function" ;;
  modify_system_data (fun _ => empty_system_data) ;;
  let fallback := negb verify in
  log DEBUG ("Getting instances for system " ++ sid) ;;
  instances ←
    call (Call_list_instances sid username password fallback)
         (sap_hostctrl_list_instances salt sid username password fallback);
  match instances with
  | [] =>
      let fqdn := grains_fqdn salt in
      let msg := "No instances found for " ++ sid ++ " on " ++ fqdn in
      log WARNING msg ;;
      get_system_data_var
  | instances_0 :: _ =>
      log DEBUG "Got instances" ;;
      modify_system_data (fun _ => set_sd_instances [] empty_system_data) ;;
      hostname ←
        match instances_0 with
        | (k, _) :: _ => mret k
        | [] => raise StopIteration
        end;
      log DEBUG ("Got Hostname: " ++ hostname) ;;
      let domain := grains_domain salt in
      let fqdn := hostname ++ "." ++ domain in
      log DEBUG ("Got FQDN: " ++ fqdn) ;;
      log DEBUG ("Getting instance details for system " ++ sid) ;;
      instance_number ←
        match dict_get hostname instances_0 with
        | Some n => mret n
        | None => raise (KeyError hostname)
        end;
      instances ←
        call (Call_get_system_instance_list instance_number fqdn username password verify)
             (sap_control_get_system_instance_list salt instance_number fqdn
                username password verify);
      match items instances with
      | [] =>
          let msg := "No instances found for " ++ sid ++ " on " ++ fqdn in
          log ERROR msg ;;
          raise (Exception msg)
      | _ =>
          set_heap (objects instances) ;;
          log DEBUG "Got instance details" ;;
          log DEBUG "Loop instances" ;;
          loop_instances domain fqdn (items instances) ;;
          log TRACE "system_data" ;;
          get_system_data_var
      end
  end.

End GetSystemData.

(** The instances of a returned [system_data], with the objects the
    references stand for. *)
Definition resolve_instances (st : state) (d : SystemData)
  : list (Z * option InstanceRecord) :=
  match sd_instances d with
  | Some l => (fun kr => (kr.1, heap st !! kr.2)) <$> l
  | None => []
  end.

(** ** The specification's side *)

(** The precedence of the classification, as the specification lists it:
    the feature looked for and the type it gives. *)
Definition precedence : list (string * string) :=
  [("ABAP", "ABAP"); ("WEBDISP", "WEBDISP"); ("J2EE", "JAVA");
   ("TREX", "TREX"); ("HDB", "HDB"); ("MESSAGESERVER", "ASCS")].

(** The first entry of the precedence list whose feature is among
    [features] decides; [UNKNOWN] when there is none. *)
Definition classify (features : list string) : string :=
  match List.find (fun p => bool_decide (p.1 ∈ features)) precedence with
  | Some p => p.2
  | None => "UNKNOWN"
  end.

(** The text before and after the first [c] of a line. *)
Fixpoint before_first (c : ascii) (s : string) : string :=
  match s with
  | EmptyString => EmptyString
  | String d s' => if Ascii.eqb c d then EmptyString else String d (before_first c s')
  end.

Fixpoint after_first (c : ascii) (s : string) : string :=
  match s with
  | EmptyString => EmptyString
  | String d s' => if Ascii.eqb c d then s' else after_first c s'
  end.

(** What one line of a dump adds to the parameter map, as the
    specification describes it: a line with a [=] binds the trimmed text
    before the first [=] to the trimmed text after it. *)
Definition bind_line (d : list (string * string)) (line : string) : list (string * string) :=
  if PyStr.contains_char "=" line
  then dict_set (PyStr.strip (before_first "=" line)) (PyStr.strip (after_first "=" line)) d
  else d.

(** The parameter map of a dump, line after line. *)
Definition spec_parameters (lines : list string) : list (string * string) :=
  fold_left bind_line lines [].

(** One warning for every non-empty line without a [=]. *)
Definition spec_warnings (lines : list string) : list event :=
  (fun line => Log WARNING ("Cannot determine key/value of parameter '" ++ line ++ "'"))
    <$> List.filter
          (fun line => negb (PyStr.contains_char "=" line) && bool_decide (line <> ""))
          lines.

(** The FQDN of the management host: the first hostname of the discovery
    with the domain grain (lines 93-96). *)
Definition management_fqdn (salt : Salt) (sid username password : string) (verify : bool)
  : option string :=
  match sap_hostctrl_list_instances salt sid username password (negb verify) with
  | ((hostname, _) :: _) :: _ => Some (hostname ++ "." ++ grains_domain salt)
  | _ => None
  end.

Definition is_properties_call (e : event) : bool :=
  match e with
  | Call_get_instance_properties _ _ _ _ _ => true
  | _ => false
  end.

(** An event that is not an instance-properties call, or is one with the
    FQDN [fq]. *)
Definition properties_called_with (fq : option string) (e : event) : Prop :=
  match e with
  | Call_get_instance_properties _ f _ _ _ => fq = Some f
  | _ => True
  end.

(** The references a [system_data] holds in [instances]. *)
Definition registered (st : state) : list (Z * loc) :=
  default [] (sd_instances (system_data st)).

(** ** Relations between the state before and after a computation *)

(** [follows R m]: whatever [m] does, raising or not, the state it leaves
    is [R]-related to the state it started from. *)
Definition follows (R : relation state) {A : Type} (m : M A) : Prop :=
  forall st, R st (m st).1.

(** Only the trace and the local [parameters] change. *)
Definition same_objects : relation state := fun st st' =>
  heap st' = heap st /\ cur st' = cur st /\ system_data st' = system_data st.

(** The type of the current instance, once [t], stays [t]. *)
Definition keeps_type (t : string) : relation state := fun st st' =>
  i_type (cur st) = Some t -> i_type (cur st') = Some t.

(** The store, the keys [hostname], [instance], [fqdn] and [features] of
    the current instance and [system_data["instances"]] are untouched. *)
Definition keeps_identity : relation state := fun st st' =>
  heap st' = heap st /\
  i_hostname (cur st') = i_hostname (cur st) /\
  i_instance (cur st') = i_instance (cur st) /\
  i_fqdn (cur st') = i_fqdn (cur st) /\
  i_features (cur st') = i_features (cur st) /\
  sd_instances (system_data st') = sd_instances (system_data st).

(** The keys [instance] and [fqdn] of the current instance, the local
    [parameters] and [system_data] are untouched. *)
Definition keeps_servers : relation state := fun st st' =>
  i_instance (cur st') = i_instance (cur st) /\
  i_fqdn (cur st') = i_fqdn (cur st) /\
  parameters st' = parameters st /\
  system_data st' = system_data st.

(** [system_data["message_servers"]] and [system_data["logon_groups"]]
    are untouched. *)
Definition keeps_groups : relation state := fun st st' =>
  sd_message_servers (system_data st') = sd_message_servers (system_data st) /\
  sd_logon_groups (system_data st') = sd_logon_groups (system_data st).

(** The instance number in two digits, [00] to [99]. *)
Definition two_digits (n : Z) : string :=
  String (ascii_of_nat (48 + Z.to_nat (n / 10)))
    (String (ascii_of_nat (48 + Z.to_nat (n mod 10))) EmptyString).

(** The trace is extended by events that satisfy [P]. *)
Definition emits (P : event -> Prop) : relation state := fun st st' =>
  exists evs, trace st' = (trace st ++ evs)%list /\ Forall P evs.

(** ** Collaborators used in the examples *)

Definition discovered (hostname : string) (n : Z) (features : list string)
  : InstanceRecord :=
  {| i_hostname := hostname; i_instance := Some n; i_features := features;
     i_fqdn := None; i_type := None; i_name := None;
     i_httpport := None; i_httpsport := None |}.

(** A system with an ABAP instance on [host1], a central-services
    instance on [host2] and a second ABAP instance on [host3]; [dump]
    gives the answer of the parameter call for an instance number, [l]
    is the list of instances, as references. *)
Definition example_salt (dump : Z -> bool * string) (l : list loc) : Salt :=
  {| sap_hostctrl_list_instances := fun _ _ _ _ => [[("host1", 0)]];
     sap_control_get_system_instance_list := fun _ _ _ _ _ =>
       {| objects := [discovered "host1" 0 ["ABAP"; "GATEWAY"];
                      discovered "host2" 1 ["MESSAGESERVER"; "ENQUE"];
                      discovered "host3" 2 ["ABAP"; "ICMAN"]];
          items := l |};
     sap_control_parameter_value := fun n _ _ _ _ _ => dump n;
     sap_control_get_abap_component_list := fun _ _ _ _ _ => (true, [[("name", "SAP_BASIS")]]);
     file_grep := fun _ _ => (1, "");
     sap_control_get_instance_properties := fun _ _ _ _ _ => [("INSTANCE_NAME", "D00")];
     requests_get := fun _ _ => None;
     grains_fqdn := "host1.example.org";
     grains_domain := "example.org" |}.

(** Every parameter call fails / gives the same dump. *)
Definition no_dump : Z -> bool * string := fun _ => (false, "").
Definition same_dump (dump : string) : Z -> bool * string := fun _ => (true, dump).

(** The parameter call succeeds for instance 0 only. *)
Definition first_dump (dump : string) : Z -> bool * string :=
  fun n => if bool_decide (n = 0) then (true, dump) else (false, "").

(** A host without the system: the discovery finds nothing. *)
Definition absent_salt : Salt :=
  {| sap_hostctrl_list_instances := fun _ _ _ _ => [];
     sap_control_get_system_instance_list := fun _ _ _ _ _ =>
       {| objects := []; items := [] |};
     sap_control_parameter_value := fun _ _ _ _ _ _ => (false, "");
     sap_control_get_abap_component_list := fun _ _ _ _ _ => (false, []);
     file_grep := fun _ _ => (1, "");
     sap_control_get_instance_properties := fun _ _ _ _ _ => [];
     requests_get := fun _ _ => None;
     grains_fqdn := "host1.example.org";
     grains_domain := "example.org" |}.

(** The state of a loop body that is at instance [i] with [parameters]
    bound to [p]. *)
Definition at_instance (i : InstanceRecord) (p : option (list (string * string))) : state :=
  {| heap := [i]; cur := i; system_data := set_sd_instances [] empty_system_data;
     parameters := p; trace := [] |}.

(** The loop body at the central-services instance 1 of [host2], with
    an empty parameter dict. *)
Definition ascs_state : state :=
  at_instance (set_fqdn "host2.example.org" (discovered "host2" 1 ["MESSAGESERVER"]))
              (Some []).

(** The state in which the loop over the three instances of
    [example_salt] starts (line 113). *)
Definition example_loop_state : state :=
  {| heap := [discovered "host1" 0 ["ABAP"; "GATEWAY"];
              discovered "host2" 1 ["MESSAGESERVER"; "ENQUE"];
              discovered "host3" 2 ["ABAP"; "ICMAN"]];
     cur := no_instance;
     system_data := set_sd_instances [] empty_system_data;
     parameters := None; trace := [] |}.

Definition is_request (e : event) : bool :=
  match e with
  | Call_requests_get _ _ => true
  | _ => false
  end.

(** An object the loop is done with: it has no key [instance] any more
    and its [fqdn] is its hostname with the domain. *)
Definition settled (domain : string) (st : state) (r : loc) : Prop :=
  exists i, heap st !! r = Some i /\ i_instance i = None /\
            i_fqdn i = Some (i_hostname i ++ "." ++ domain).

(** Every registered reference stands for a settled object. *)
Definition registered_ok (domain : string) (st : state) : Prop :=
  forall k r, (k, r) ∈ registered st -> settled domain st r.

(** ** Further properties: the specification's side *)

(** A collaborator call made the way [get_system_data sid username
    password verify] makes it: with the credentials and the [verify] flag
    it was given, asking for all parameters, grepping the service-name
    database for [sapms<sid>]. *)
Definition called_as_given (sid username password : string) (verify : bool) (e : event)
  : Prop :=
  match e with
  | Log _ _ => True
  | Call_list_instances s u p f =>
      s = sid /\ u = username /\ p = password /\ f = negb verify
  | Call_get_system_instance_list _ _ u p v => u = username /\ p = password /\ v = verify
  | Call_parameter_value _ parameter _ u p v =>
      parameter = "" /\ u = username /\ p = password /\ v = verify
  | Call_get_abap_component_list _ _ u p v => u = username /\ p = password /\ v = verify
  | Call_file_grep path pattern => path = "/etc/services" /\ pattern = "sapms" ++ sid
  | Call_requests_get _ v => v = verify
  | Call_get_instance_properties _ _ u p v => u = username /\ p = password /\ v = verify
  end.

(** The key and the value of a sub-field [KEY=VALUE] of a port value:
    the trimmed text before the first [=] and the trimmed text between
    the first and the second. *)
Definition sub_field_key (param : string) : string :=
  PyStr.strip (before_first "=" param).

Definition sub_field_value (param : string) : string :=
  PyStr.strip (before_first "=" (after_first "=" param)).

(** The value of the last sub-field with key [key], [init] if there is
    none. *)
Definition last_field (key : string) (params : list string) (init : option string)
  : option string :=
  fold_left
    (fun acc param =>
       if bool_decide (sub_field_key param = key) then Some (sub_field_value param) else acc)
    params init.

(** What a port entry [PROT=protocol,PORT=n] does to an instance. *)
Definition store_port (protocol : string) (n : Z) (i : InstanceRecord) : InstanceRecord :=
  if bool_decide (PyStr.upper protocol = "HTTPS") then set_httpsport n i
  else if bool_decide (PyStr.upper protocol = "HTTP") then set_httpport n i
  else i.

(** The port of a line of the service-name database: the second
    tab-delimited field, up to its [/]. *)
Definition services_port (stdout : string) : string :=
  before_first "/" (before_first "009" (after_first "009" stdout)).

(** [example_salt] on a host whose service-name database has the line of
    the message server (the line quoted at line 232 of the source, for
    the system S4H). *)
Definition services_salt : Salt :=
  {| sap_hostctrl_list_instances := sap_hostctrl_list_instances (example_salt no_dump []);
     sap_control_get_system_instance_list :=
       sap_control_get_system_instance_list (example_salt no_dump []);
     sap_control_parameter_value := sap_control_parameter_value (example_salt no_dump []);
     sap_control_get_abap_component_list :=
       sap_control_get_abap_component_list (example_salt no_dump []);
     file_grep := fun _ _ =>
       (0, "sapmsS4H" ++ String "009" ("3620" ++ String "/" ("tcp" ++ String "009"
             "# SAP System Message Server Port")));
     sap_control_get_instance_properties :=
       sap_control_get_instance_properties (example_salt no_dump []);
     requests_get := requests_get (example_salt no_dump []);
     grains_fqdn := "host1.example.org";
     grains_domain := "example.org" |}.

(** The loop body at the ABAP instance 0 of [host1], with the parameter
    dict [p]. *)
Definition abap_state (p : list (string * string)) : state :=
  at_instance (set_fqdn "host1.example.org" (discovered "host1" 0 ["ABAP"; "GATEWAY"]))
              (Some p).

(** What the loop makes of a discovered instance dict [i0] numbered [k]:
    the record [i] it leaves in the store. *)
Definition finished (salt : Salt) (username password : string) (verify : bool)
    (domain fqdn : string) (i0 i : InstanceRecord) (k : Z) : Prop :=
  i_instance i0 = Some k /\
  i_instance i = None /\
  i_hostname i = i_hostname i0 /\
  i_features i = i_features i0 /\
  i_fqdn i = Some (i_hostname i0 ++ "." ++ domain) /\
  i_type i = Some (classify (i_features i0)) /\
  i_name i = Some (default "UNKOWN_INSTANCE_NAME"
                     (dict_get "INSTANCE_NAME"
                        (sap_control_get_instance_properties salt k fqdn
                           username password verify))).

(** The state of the loop after the references [seen], all processed
    without an exception, over the store [heap0] of discovered objects:
    the objects not yet met are as discovered, the ones met are finished
    and their numbers are keys of the instances mapping, which holds
    references that were met, each under the number its object had. *)
Definition loop_invariant (salt : Salt) (username password : string) (verify : bool)
    (domain fqdn : string) (heap0 : list InstanceRecord) (st : state) (seen : list loc)
  : Prop :=
  NoDup seen /\
  (forall r, r ∉ seen -> heap st !! r = heap0 !! r) /\
  (forall r, r ∈ seen ->
     exists i0 i k, heap0 !! r = Some i0 /\ heap st !! r = Some i /\
       finished salt username password verify domain fqdn i0 i k /\
       k ∈ (registered st).*1) /\
  (forall k r, (k, r) ∈ registered st ->
     r ∈ seen /\ exists i0, heap0 !! r = Some i0 /\ i_instance i0 = Some k).

(** ** Loading the module *)

(** [__virtual__] (lines 37-43): the name the module loads under, or
    [False] with a reason when the [requests] library could not be
    imported ([REQUESTSLIB], lines 24-29). *)
Definition virtualname : string := "sap".

Definition virtual (REQUESTSLIB : bool) : string + bool * string :=
  if negb REQUESTSLIB
  then inr (false, "Could not load module, requests unavailable")
  else inl virtualname.

(** ** The state at the head of the loop *)

(** The state in which the loop starts (line 113) in a run whose
    discovery gave [hostname] with the number [n] first: the discovered
    instance dicts are in the store, [instances] is empty, [parameters]
    is unbound, and the log and the two calls of lines 78-112 are on the
    trace. *)
Definition loop_start (salt : Salt) (sid username password : string) (verify : bool)
    (hostname : string) (n : Z) : state :=
  let fqdn := hostname ++ "." ++ grains_domain salt in
  {| heap := objects (sap_control_get_system_instance_list salt n fqdn
                        username password verify);
     cur := no_instance;
     system_data := set_sd_instances [] empty_system_data;
     parameters := None;
     trace := [Log DEBUG "Running function";
               Log DEBUG ("Getting instances for system " ++ sid);
               Call_list_instances sid username password (negb verify);
               Log DEBUG "Got instances";
               Log DEBUG ("Got Hostname: " ++ hostname);
               Log DEBUG ("Got FQDN: " ++ fqdn);
               Log DEBUG ("Getting instance details for system " ++ sid);
               Call_get_system_instance_list n fqdn username password verify;
               Log DEBUG "Got instance details";
               Log DEBUG "Loop instances"] |}.

(** * Properties *)

(** ** The string operations on examples *)

Example strip_ex : PyStr.strip "  a b	 " = "a b".
Proof. reflexivity. Qed.
Example split_ex : PyStr.split "," "a,,b," = ["a"; ""; "b"; ""].
Proof. reflexivity. Qed.
Example split1_ex : PyStr.split1 "=" "k=v=w" = ["k"; "v=w"].
Proof. reflexivity. Qed.
Example to_int_ex :
  PyStr.to_int " 8_000 " = inl 8000 /\ PyStr.to_int "-12" = inl (-12) /\
  PyStr.to_int "+1" = inl 1 /\ PyStr.to_int "0_0" = inl 0 /\
  PyStr.to_int "" = inr "invalid literal for int() with base 10: ''" /\
  PyStr.to_int "8__0" = inr "invalid literal for int() with base 10: '8__0'" /\
  PyStr.to_int "80_" = inr "invalid literal for int() with base 10: '80_'" /\
  PyStr.to_int "_1" = inr "invalid literal for int() with base 10: '_1'" /\
  PyStr.to_int "+ 1" = inr "invalid literal for int() with base 10: '+ 1'" /\
  PyStr.to_int " 8000x " = inr "invalid literal for int() with base 10: ' 8000x '".
Proof. repeat split; reflexivity. Qed.
(** The separators 28-31 are trimmed by [str.strip] and refused by
    [int()]; [repr] escapes them and chooses its quotes. *)
Example to_int_repr_ex :
  PyStr.strip (String "028" ("1" ++ String "031" "")) = "1" /\
  PyStr.to_int (String "028" ("1" ++ String "031" ""))
    = inr "invalid literal for int() with base 10: '\x1c1\x1f'" /\
  PyStr.to_int (String "011" (String "012" "1")) = inl 1 /\
  PyStr.to_int (String "a" (String "009" "b\"))
    = inr "invalid literal for int() with base 10: 'a\tb\\'" /\
  PyStr.to_int "ab'c"
    = inr ("invalid literal for int() with base 10: "
           ++ String "034" ("ab'c" ++ String "034" "")) /\
  PyStr.to_int ("a'b" ++ String "034" "c")
    = inr ("invalid literal for int() with base 10: 'a\'b" ++ String "034" "c'").
Proof. repeat split; reflexivity. Qed.
(** The limit on the digits: 4300 digits are read, with whitespace, a
    sign or underscores besides; one digit more is refused, before the
    text after the digits is looked at; an invalid literal is shown by
    its first 200 characters. *)
Example to_int_limit_ex :
  let ones (n : nat) := String.concat "" (List.repeat "1" n) in
  (exists n, PyStr.to_int (ones 4300%nat) = inl n) /\
  (exists n, PyStr.to_int (" -" ++ ones 4300%nat ++ " ") = inl n) /\
  (exists n, PyStr.to_int (String.concat "_" (List.repeat "1" 4300%nat)) = inl n) /\
  PyStr.to_int (ones 4301%nat)
    = inr "Exceeds the limit (4300 digits) for integer string conversion: value has 4301 digits; use sys.set_int_max_str_digits() to increase the limit" /\
  PyStr.to_int (ones 4301%nat ++ " x") = PyStr.to_int (ones 4301%nat) /\
  PyStr.to_int (ones 4301%nat ++ "__1")
    = inr ("invalid literal for int() with base 10: '" ++ ones 199%nat).
Proof. vm_compute. repeat split; try reflexivity; eexists; reflexivity. Qed.
Example format_02d_ex : PyStr.format_02d 1 = "01" /\ PyStr.format_02d 42 = "42"
  /\ PyStr.format_02d 100 = "100" /\ PyStr.format_02d (-1) = "-1" /\ PyStr.format_02d 0 = "00".
Proof. repeat split; reflexivity. Qed.
Example upper_ex : PyStr.upper "Https_1" = "HTTPS_1".
Proof. reflexivity. Qed.

(** ** Running computations *)

Lemma bind_run {A B : Type} (m : M A) (f : A -> M B) (st : state) :
  (m ≫= f) st =
  match m st with
  | (st', Ok a) => f a st'
  | (st', Raise e) => (st', Raise e)
  end.
Proof. reflexivity. Qed.

Lemma bind_run_ok {A B : Type} (m : M A) (f : A -> M B) (st st' : state) (a : A) :
  m st = (st', Ok a) -> (m ≫= f) st = f a st'.
Proof. intros H. rewrite bind_run, H. reflexivity. Qed.

Lemma bind_run_raise {A B : Type} (m : M A) (f : A -> M B) (st st' : state) (e : exn) :
  m st = (st', Raise e) -> (m ≫= f) st = (st', Raise e).
Proof. intros H. rewrite bind_run, H. reflexivity. Qed.

(** Unfolds the operations of [M] and reduces, leaving the program's own
    functions folded. *)
Ltac run :=
  cbv [mbind M_bind mret M_ret raise emit log call get_cur modify_cur
       get_system_data_var modify_system_data set_heap set_parameters
       get_parameters index getitem instance_instance instance_fqdn
       sd_get_instances sd_get_message_servers sd_get_logon_groups];
  cbn [heap cur system_data parameters trace fst snd
       i_hostname i_instance i_features i_fqdn i_type i_name i_httpport i_httpsport
       sd_instances sd_db_host sd_db_instance sd_software_components
       sd_message_servers sd_logon_groups].

Lemma contains_prefix (p s : string) : PyStr.contains p (p ++ s) = true.
Proof.
  assert (H : String.prefix p (p ++ s) = true).
  { induction p as [|c p IH]; simpl.
    - destruct s; reflexivity.
    - destruct (ascii_dec c c) as [_|Hc]; [exact IH | congruence]. }
  revert H. generalize (p ++ s). intros t Ht. destruct t; cbn [PyStr.contains]; rewrite Ht; reflexivity.
Qed.

Lemma append_empty (s : string) : s ++ "" = s.
Proof. induction s as [|c s IH]; [reflexivity | exact (f_equal (String c) IH)]. Qed.

Lemma contains_app (p a s : string) :
  PyStr.contains p s = true -> PyStr.contains p (a ++ s) = true.
Proof.
  intros H. induction a as [|c a IH]; simpl; [exact H|].
  rewrite IH. apply orb_true_r.
Qed.

(** ** Discovery (C5, C4) *)

(** C5: when the instance lister returns nothing, [get_system_data] logs
    one warning and returns the empty mapping [{}]; it does not raise and
    calls no other collaborator. *)
Theorem get_system_data_no_instances
    (salt : Salt) (sid username password : string) (verify : bool) (st : state) :
  sap_hostctrl_list_instances salt sid username password (negb verify) = [] ->
  exists st',
    get_system_data salt sid username password verify st = (st', Ok empty_system_data) /\
    trace st' =
      (trace st ++
       [Log DEBUG "Running function";
        Log DEBUG ("Getting instances for system " ++ sid);
        Call_list_instances sid username password (negb verify);
        Log WARNING ("No instances found for " ++ sid ++ " on " ++ grains_fqdn salt)])%list.
Proof.
  intros Hnone. unfold get_system_data.
  eexists. split.
  - run. rewrite Hnone. reflexivity.
  - cbn [trace]. repeat rewrite <- app_assoc. reflexivity.
Qed.

Lemma get_system_data_no_instances_witness :
  exists st',
    get_system_data absent_salt "S4H" "sapadm" "secret" true initial_state
      = (st', Ok empty_system_data) /\
    trace st' =
      [Log DEBUG "Running function";
       Log DEBUG "Getting instances for system S4H";
       Call_list_instances "S4H" "sapadm" "secret" false;
       Log WARNING "No instances found for S4H on host1.example.org"].
Proof.
  apply (get_system_data_no_instances absent_salt "S4H" "sapadm" "secret" true initial_state).
  reflexivity.
Defined.

(** C4: when the discovery names a first host and the instance-detail
    fetch for it returns nothing, [get_system_data] raises an exception
    whose message contains the system id and the FQDN derived from that
    host. *)
Theorem get_system_data_no_details
    (salt : Salt) (sid username password : string) (verify : bool) (st : state)
    (hostname : string) (n : Z) (more : list (string * Z)) (others : list (list (string * Z))) :
  sap_hostctrl_list_instances salt sid username password (negb verify)
    = ((hostname, n) :: more) :: others ->
  items (sap_control_get_system_instance_list salt n
           (hostname ++ "." ++ grains_domain salt) username password verify) = [] ->
  exists msg,
    (get_system_data salt sid username password verify st).2 = Raise (Exception msg) /\
    PyStr.contains sid msg = true /\
    PyStr.contains (hostname ++ "." ++ grains_domain salt) msg = true.
Proof.
  intros Hfound Hnone.
  exists ("No instances found for " ++ sid ++ " on " ++ (hostname ++ "." ++ grains_domain salt)).
  split; [|split].
  - unfold get_system_data. run. rewrite Hfound. cbn [dict_get].
    destruct (decide (hostname = hostname)) as [_|Hne]; [|congruence].
    rewrite Hnone. reflexivity.
  - apply (contains_app sid "No instances found for "). apply contains_prefix.
  - apply (contains_app _ "No instances found for ").
    apply contains_app. apply (contains_app _ " on ").
    rewrite <- (append_empty (hostname ++ "." ++ grains_domain salt)) at 2.
    apply contains_prefix.
Qed.

Lemma get_system_data_no_details_witness :
  exists msg,
    (get_system_data (example_salt no_dump []) "S4H" "sapadm" "secret" true
       initial_state).2 = Raise (Exception msg) /\
    PyStr.contains "S4H" msg = true /\
    PyStr.contains ("host1" ++ "." ++ "example.org") msg = true.
Proof.
  apply (get_system_data_no_details (example_salt no_dump []) "S4H" "sapadm" "secret"
           true initial_state "host1" 0 [] []); reflexivity.
Defined.

(** ** The parameter dump (C7) *)

Lemma split1_first (c : ascii) (s : string) :
  PyStr.contains_char c s = true ->
  PyStr.split1 c s = [before_first c s; after_first c s].
Proof.
  induction s as [|d s IH]; simpl; [discriminate|].
  destruct (Ascii.eqb c d); [reflexivity|].
  intros H. rewrite (IH H). reflexivity.
Qed.

Lemma parameter_line_run (line : string) (st : state) (d : list (string * string)) :
  parameters st = Some d ->
  exists st',
    parameter_line line st = (st', Ok tt) /\
    parameters st' = Some (bind_line d line) /\
    trace st' = (trace st ++ spec_warnings [line])%list /\
    same_objects st st'.
Proof.
  intros Hd. unfold parameter_line, bind_line, spec_warnings. cbn [List.filter].
  destruct (PyStr.contains_char "=" line) eqn:Heq.
  - rewrite (split1_first _ _ Heq). run. rewrite Hd.
    eexists. split; [reflexivity|]. cbn. rewrite app_nil_r. repeat split; done.
  - cbn [negb andb]. case_bool_decide as Hline; run.
    + eexists. split; [reflexivity|]. cbn. repeat split; done.
    + exists st. cbn. rewrite app_nil_r. repeat split; done.
Qed.

Lemma spec_warnings_cons (line : string) (lines : list string) :
  spec_warnings (line :: lines) = (spec_warnings [line] ++ spec_warnings lines)%list.
Proof.
  unfold spec_warnings. cbn [List.filter].
  destruct (negb _ && _); reflexivity.
Qed.

Lemma parameter_lines_run (lines : list string) (st : state) (d : list (string * string)) :
  parameters st = Some d ->
  exists st',
    for_each lines parameter_line st = (st', Ok tt) /\
    parameters st' = Some (fold_left bind_line lines d) /\
    trace st' = (trace st ++ spec_warnings lines)%list /\
    same_objects st st'.
Proof.
  revert st d. induction lines as [|line lines IH]; intros st d Hd.
  - exists st. unfold spec_warnings. simpl. rewrite app_nil_r.
    repeat split; done.
  - destruct (parameter_line_run line st d Hd) as (st1 & Hrun1 & Hp1 & Ht1 & Hh1 & Hc1 & Hs1).
    destruct (IH st1 _ Hp1) as (st' & Hrun & Hp & Ht & Hh & Hc & Hs).
    exists st'. cbn [for_each fold_left]. rewrite (bind_run_ok _ _ _ _ _ Hrun1).
    split; [exact Hrun|]. split; [exact Hp|]. split.
    + rewrite Ht, Ht1, (spec_warnings_cons line lines), app_assoc. reflexivity.
    + repeat split; congruence.
Qed.

(** C7: a successfully fetched dump is split on newlines and each line on
    its first [=], key and value trimmed; a non-empty line without [=]
    gives one warning and parsing goes on: parsing never raises, the
    parameters are those of the specification, the warnings are the ones
    of the malformed lines, and nothing else changes.  The dump of the
    specification's example gives the two parameters and one warning. *)
Theorem parse_parameters_spec :
  (forall (dump : string) (st : state),
     exists st',
       parse_parameters true dump st = (st', Ok tt) /\
       parameters st' = Some (spec_parameters (PyStr.split "010" dump)) /\
       trace st' = (trace st ++ spec_warnings (PyStr.split "010" dump))%list /\
       same_objects st st') /\
  (let dump := "SAPDBHOST=host1
foo
rsdb/dbid=T01" in
   let st' := (parse_parameters true dump initial_state).1 in
   (parse_parameters true dump initial_state).2 = Ok tt /\
   parameters st' = Some [("SAPDBHOST", "host1"); ("rsdb/dbid", "T01")] /\
   trace st' = [Log WARNING "Cannot determine key/value of parameter 'foo'"]).
Proof.
  split.
  - intros dump st. unfold parse_parameters. cbn [negb]. rewrite bind_run. run.
    match goal with |- context [for_each _ parameter_line ?s] =>
      destruct (parameter_lines_run (PyStr.split "010" dump) s []) as
        (st' & Hrun & Hp & Ht & Hh & Hc & Hs)
    end; [reflexivity|].
    exists st'. rewrite Hrun. repeat split; done.
  - vm_compute. repeat split; reflexivity.
Qed.

(** ** What the blocks of the loop body leave untouched *)

Section FollowsStructure.

Variable R : relation state.
Context `{!PreOrder R}.

Lemma follows_ret {A : Type} (a : A) : follows R (mret a).
Proof. intros st. reflexivity. Qed.

Lemma follows_raise {A : Type} (e : exn) : follows R (@raise A e).
Proof. intros st. reflexivity. Qed.

Lemma follows_same {A : Type} (m : M A) :
  (forall st, (m st).1 = st) -> follows R m.
Proof. intros H st. rewrite H. reflexivity. Qed.

Lemma follows_bind {A B : Type} (m : M A) (f : A -> M B) :
  follows R m -> (forall a, follows R (f a)) -> follows R (m ≫= f).
Proof.
  intros Hm Hf st. rewrite bind_run. specialize (Hm st).
  destruct (m st) as [st' [a|e]]; cbn [fst] in *; [|exact Hm].
  etransitivity; [exact Hm | apply Hf].
Qed.

Lemma follows_for_each {A : Type} (l : list A) (body : A -> M unit) :
  (forall x, follows R (body x)) -> follows R (for_each l body).
Proof.
  intros Hbody. induction l as [|x l IH]; cbn [for_each].
  - apply follows_ret.
  - apply follows_bind; [apply Hbody | intros _; exact IH].
Qed.

(** A call returns the collaborator's answer. *)
Lemma follows_call {A B : Type} (e : event) (answer : A) (f : A -> M B) :
  follows R (emit e) -> follows R (f answer) -> follows R (call e answer ≫= f).
Proof.
  intros He Hf st. unfold call. rewrite !bind_run. specialize (He st).
  destruct (emit e st) as [st' [[]|x]] eqn:Hemit; cbn [fst] in *.
  - cbn. etransitivity; [exact He | apply Hf].
  - exact He.
Qed.

Lemma follows_ret_bind {A B : Type} (a : A) (f : A -> M B) :
  follows R (f a) -> follows R (mret a ≫= f).
Proof. intros Hf st. apply Hf. Qed.

Lemma follows_raise_bind {A B : Type} (e : exn) (f : A -> M B) :
  follows R (raise e ≫= f).
Proof. intros st. reflexivity. Qed.

End FollowsStructure.

(** Reads leave the state as it is. *)
Ltac reads :=
  apply follows_same; [apply _ | intros ?; run; repeat case_match; reflexivity].

(** One step along the structure of a computation. *)
Ltac follows_struct :=
  lazymatch goal with
  | |- follows _ (mret _) => apply follows_ret; apply _
  | |- follows _ (raise _) => apply follows_raise; apply _
  | |- follows _ (call _ _) => unfold call
  | |- follows _ (log _ _) => unfold log
  | |- follows _ (for_each _ _) => apply follows_for_each; [apply _ | intros ?]
  | |- follows _ (call _ _ ≫= _) => apply follows_call; [apply _ | | ]
  | |- follows _ (mret _ ≫= _) => apply follows_ret_bind
  | |- follows _ (raise _ ≫= _) => apply follows_raise_bind; apply _
  | |- follows _ (mbind _ _) => apply follows_bind; [apply _ | | intros ?]
  | |- follows _ (if ?b then _ else _) => destruct b
  | |- follows _ (match ?x with _ => _ end) => destruct x
  | |- follows _ get_cur => reads
  | |- follows _ get_parameters => reads
  | |- follows _ get_system_data_var => reads
  | |- follows _ instance_instance => reads
  | |- follows _ instance_fqdn => reads
  | |- follows _ sd_get_instances => reads
  | |- follows _ sd_get_message_servers => reads
  | |- follows _ sd_get_logon_groups => reads
  | |- follows _ (index _ _) => reads
  | |- follows _ (getitem _ _) => reads
  end.

Section Follows.

Variable R : relation state.
Context `{!PreOrder R}.

(** The relation is not disturbed by the trace (instance-properties
    calls apart), by the local [parameters], by the ports of the
    current instance, or by the keys of [system_data] other than
    [instances]. *)
Hypothesis R_emit : forall e, is_properties_call e = false -> follows R (emit e).
Hypothesis R_parameters : forall p, follows R (set_parameters p).
Hypothesis R_httpport : forall n, follows R (modify_cur (set_httpport n)).
Hypothesis R_httpsport : forall n, follows R (modify_cur (set_httpsport n)).
Hypothesis R_db_host : forall v, follows R (modify_system_data (set_sd_db_host v)).
Hypothesis R_db_instance : forall v, follows R (modify_system_data (set_sd_db_instance v)).
Hypothesis R_software_components :
  forall v, follows R (modify_system_data (set_sd_software_components v)).
Hypothesis R_message_servers :
  forall v, follows R (modify_system_data (set_sd_message_servers v)).
Hypothesis R_logon_groups :
  forall v, follows R (modify_system_data (set_sd_logon_groups v)).
Hypothesis R_type : forall t, follows R (modify_cur (set_type t)).

Local Ltac follows_step :=
  first [ follows_struct
        | apply R_emit; reflexivity
        | apply R_parameters ].

Lemma follows_parse_parameters (success : bool) (parameters_str : string) :
  follows R (parse_parameters success parameters_str).
Proof. unfold parse_parameters, parameter_line. repeat follows_step. Qed.

Lemma follows_port_sub_fields (icm_k : string) (params : list string)
    (protocol port : option string) :
  follows R (port_sub_fields icm_k params protocol port).
Proof.
  revert protocol port. induction params as [|param params IH]; intros protocol port;
    cbn [port_sub_fields]; repeat follows_step; apply IH.
Qed.

Lemma follows_server_port (prefix what icm_k icm_v : string) :
  follows R (server_port prefix what icm_k icm_v).
Proof.
  unfold server_port, int_of_port.
  repeat first [ apply follows_port_sub_fields | apply R_httpport | apply R_httpsport
               | follows_step ].
Qed.

Lemma follows_server_ports (prefix what : string) :
  follows R (server_ports prefix what).
Proof. unfold server_ports. repeat first [apply follows_server_port | follows_step]. Qed.

Lemma follows_fetch_parameters (salt : Salt) (username password : string) (verify : bool) :
  follows R (fetch_parameters salt username password verify).
Proof.
  unfold fetch_parameters. repeat first [apply follows_parse_parameters | follows_step].
Qed.

Lemma follows_abap_extraction (salt : Salt) (username password : string) (verify : bool) :
  follows R (abap_extraction salt username password verify).
Proof.
  unfold abap_extraction.
  repeat first [ apply follows_server_ports | apply R_db_host | apply R_db_instance
               | apply R_software_components | follows_step ].
Qed.

Lemma follows_message_server_ports (salt : Salt) (sid : string) :
  follows R (message_server_ports salt sid).
Proof.
  unfold message_server_ports, message_server_msport, message_server_httpport.
  repeat first [ apply follows_server_ports | apply R_message_servers | follows_step ].
Qed.

Lemma follows_probe_message_servers (salt : Salt) (verify : bool)
    (l : list (gmap string string)) :
  follows R (probe_message_servers salt verify l).
Proof.
  induction l as [|message_server l IH]; cbn [probe_message_servers];
    repeat first [ apply IH | follows_step ].
Qed.

Lemma follows_logon_groups (salt : Salt) (verify : bool) :
  follows R (logon_groups salt verify).
Proof.
  unfold logon_groups, logon_group_line.
  repeat first [ apply follows_probe_message_servers | apply R_logon_groups | follows_step ].
Qed.

Lemma follows_messageserver_extraction (salt : Salt) (sid : string) (verify : bool) :
  follows R (messageserver_extraction salt sid verify).
Proof.
  unfold messageserver_extraction.
  repeat first [ apply follows_message_server_ports | apply follows_logon_groups
               | follows_step ].
Qed.

Lemma follows_process_type (salt : Salt) (sid username password : string) (verify : bool) :
  follows R (process_type salt sid username password verify).
Proof.
  unfold process_type, process_abap, process_messageserver.
  repeat first [ apply follows_abap_extraction | apply follows_messageserver_extraction
               | apply R_type | follows_step ].
Qed.

End Follows.

(** *** The relations are preorders *)

#[global] Instance keeps_type_preorder (t : string) : PreOrder (keeps_type t).
Proof.
  split.
  - intros st H. exact H.
  - intros st1 st2 st3 H12 H23 H. apply H23, H12, H.
Qed.

#[global] Instance keeps_identity_preorder : PreOrder keeps_identity.
Proof.
  split.
  - intros st. repeat split.
  - intros st1 st2 st3 (H1 & H2 & H3 & H4 & H5 & H6) (K1 & K2 & K3 & K4 & K5 & K6).
    repeat split; congruence.
Qed.

#[global] Instance keeps_servers_preorder : PreOrder keeps_servers.
Proof.
  split.
  - intros st. repeat split.
  - intros st1 st2 st3 (H1 & H2 & H3 & H4) (K1 & K2 & K3 & K4).
    repeat split; congruence.
Qed.

#[global] Instance emits_preorder (P : event -> Prop) : PreOrder (emits P).
Proof.
  split.
  - intros st. exists []. rewrite app_nil_r. split; [reflexivity | constructor].
  - intros st1 st2 st3 (evs & H1 & H2) (evs' & K1 & K2).
    exists (evs ++ evs')%list. rewrite K1, H1, app_assoc. split; [reflexivity|].
    apply Forall_app. split; assumption.
Qed.

Create HintDb respects.

(** Closes [follows R m] for an operation [m] that touches nothing [R]
    speaks of. *)
Ltac untouched :=
  intros ?; unfold keeps_type, keeps_identity, keeps_servers; run;
  repeat split; try done.

Lemma keeps_type_emit (t : string) (e : event) : follows (keeps_type t) (emit e).
Proof. untouched. Qed.
Lemma keeps_type_parameters (t : string) p : follows (keeps_type t) (set_parameters p).
Proof. untouched. Qed.
Lemma keeps_type_cur (t : string) (f : InstanceRecord -> InstanceRecord) :
  (forall i, i_type (f i) = i_type i) -> follows (keeps_type t) (modify_cur f).
Proof. intros Hf st. unfold keeps_type. run. rewrite Hf. done. Qed.
Lemma keeps_type_system_data (t : string) (f : SystemData -> SystemData) :
  follows (keeps_type t) (modify_system_data f).
Proof. untouched. Qed.

Lemma keeps_identity_emit (e : event) : follows keeps_identity (emit e).
Proof. untouched. Qed.
Lemma keeps_identity_parameters p : follows keeps_identity (set_parameters p).
Proof. untouched. Qed.
Lemma keeps_identity_cur (f : InstanceRecord -> InstanceRecord) :
  (forall i, i_hostname (f i) = i_hostname i /\ i_instance (f i) = i_instance i /\
             i_fqdn (f i) = i_fqdn i /\ i_features (f i) = i_features i) ->
  follows keeps_identity (modify_cur f).
Proof.
  intros Hf st. destruct (Hf (cur st)) as (H1 & H2 & H3 & H4).
  unfold keeps_identity. run. repeat split; done.
Qed.
Lemma keeps_identity_system_data (f : SystemData -> SystemData) :
  (forall d, sd_instances (f d) = sd_instances d) ->
  follows keeps_identity (modify_system_data f).
Proof.
  intros Hf st. specialize (Hf (system_data st)).
  unfold keeps_identity. run. repeat split; done.
Qed.

Lemma keeps_servers_emit (e : event) : follows keeps_servers (emit e).
Proof. untouched. Qed.
Lemma keeps_servers_cur (f : InstanceRecord -> InstanceRecord) :
  (forall i, i_instance (f i) = i_instance i /\ i_fqdn (f i) = i_fqdn i) ->
  follows keeps_servers (modify_cur f).
Proof.
  intros Hf st. destruct (Hf (cur st)) as (H1 & H2). unfold keeps_servers. run.
  repeat split; done.
Qed.

Lemma emits_emit (P : event -> Prop) (e : event) : P e -> follows (emits P) (emit e).
Proof. intros He st. exists [e]. split; [reflexivity | repeat constructor; exact He]. Qed.
Lemma emits_silent (P : event -> Prop) {A : Type} (m : M A) :
  (forall st, trace (m st).1 = trace st) -> follows (emits P) m.
Proof.
  intros Hm st. exists []. rewrite app_nil_r. split; [apply Hm | constructor].
Qed.

#[global] Hint Resolve keeps_type_emit keeps_type_parameters keeps_type_system_data
  keeps_identity_emit keeps_identity_parameters
  keeps_servers_emit : respects.

(** Closes the side conditions of the lemmas of section [Follows]. *)
Ltac respects :=
  first
    [ solve [eauto with respects]
    | solve [apply _]
    | intros; apply keeps_type_cur; intros []; reflexivity
    | intros; apply keeps_identity_cur; intros []; repeat split
    | intros; apply keeps_identity_system_data; intros []; reflexivity
    | intros; apply keeps_servers_cur; intros []; repeat split
    | intros; apply emits_emit;
      match goal with e : event |- _ => destruct e; try discriminate; exact I end
    | intros; apply emits_silent; intros; reflexivity ].

(** ** Classification (C6) *)

Lemma classify_first (features : list string) :
  classify features =
    if bool_decide ("ABAP" ∈ features) then "ABAP"
    else if bool_decide ("WEBDISP" ∈ features) then "WEBDISP"
    else if bool_decide ("J2EE" ∈ features) then "JAVA"
    else if bool_decide ("TREX" ∈ features) then "TREX"
    else if bool_decide ("HDB" ∈ features) then "HDB"
    else if bool_decide ("MESSAGESERVER" ∈ features) then "ASCS"
    else "UNKNOWN".
Proof.
  unfold classify, precedence. cbn [List.find fst snd].
  repeat (case_bool_decide; [reflexivity|]). reflexivity.
Qed.

(** C6: whatever else happens while an instance is processed, its type is
    the one the precedence list ABAP, WEBDISP, J2EE (JAVA), TREX, HDB,
    MESSAGESERVER (ASCS), else UNKNOWN gives for its features, the first
    match deciding; with both ABAP and MESSAGESERVER among the features
    the type is ABAP. *)
Theorem process_type_classifies
    (salt : Salt) (sid username password : string) (verify : bool) (st : state) :
  let st' := (process_type salt sid username password verify st).1 in
  i_type (cur st') = Some (classify (i_features (cur st))) /\
  ("ABAP" ∈ i_features (cur st) -> "MESSAGESERVER" ∈ i_features (cur st) ->
   i_type (cur st') = Some "ABAP").
Proof.
  assert (Hmain : i_type (cur (process_type salt sid username password verify st).1)
                  = Some (classify (i_features (cur st)))).
  { rewrite classify_first. unfold process_type, has_feature. run.
    repeat case_bool_decide; run; try reflexivity.
    - unfold process_abap. run.
      match goal with |- context [abap_extraction _ _ _ _ ?s] =>
        apply (follows_abap_extraction (keeps_type "ABAP")) with (st := s)
      end; try respects; reflexivity.
    - unfold process_messageserver. run.
      match goal with |- context [messageserver_extraction _ _ _ ?s] =>
        apply (follows_messageserver_extraction (keeps_type "ASCS")) with (st := s)
      end; try respects; reflexivity. }
  split; [exact Hmain|].
  intros Habap _. cbv zeta. rewrite Hmain, classify_first.
  rewrite bool_decide_eq_true_2 by exact Habap. reflexivity.
Qed.

(** ** The calls of the instance-properties collaborator *)

Section PropertiesCall.

Variable salt : Salt.
Variables sid username password : string.
Variable verify : bool.
Variable fqdn : string.

(** The events allowed in a run that uses [fqdn] as management FQDN. *)
Let P : event -> Prop := properties_called_with (Some fqdn).

Lemma emits_other (e : event) : is_properties_call e = false -> follows (emits P) (emit e).
Proof.
  intros He. apply emits_emit. destruct e; try discriminate; exact I.
Qed.

Local Ltac emits_step :=
  first [ follows_struct
        | apply emits_other; reflexivity
        | apply emits_emit; reflexivity
        | apply emits_silent; intros; reflexivity ].

Lemma emits_register_instance (this : loc) :
  follows (emits P) (register_instance salt username password verify fqdn this).
Proof. unfold register_instance. repeat emits_step. Qed.

Lemma emits_loop_body (domain : string) (this : loc) :
  follows (emits P) (loop_body salt sid username password verify domain fqdn this).
Proof.
  unfold loop_body.
  repeat first
    [ apply emits_register_instance
    | apply follows_fetch_parameters; try (intros; emits_step); try apply emits_other
    | apply follows_process_type; try (intros; emits_step); try apply emits_other
    | emits_step ];
    apply _.
Qed.

Lemma emits_iteration (domain : string) (this : loc) :
  follows (emits P) (iteration salt sid username password verify domain fqdn this).
Proof.
  intros st. unfold iteration.
  destruct (heap st !! this) as [i|]; [|reflexivity].
  match goal with |- context [loop_body _ _ _ _ _ _ _ _ ?s] =>
    pose proof (emits_loop_body domain this s) as H;
    destruct (loop_body salt sid username password verify domain fqdn this s) as [st' r]
  end.
  exact H.
Qed.

Lemma emits_loop_instances (domain : string) (l : list loc) :
  follows (emits P) (loop_instances salt sid username password verify domain fqdn l).
Proof.
  unfold loop_instances. apply follows_for_each; [apply _|].
  intros this. apply emits_iteration.
Qed.

End PropertiesCall.

(** Every call of the instance-properties collaborator in a run,
    returning or raising, is made with the FQDN of the management host,
    the first discovered hostname with the domain grain. *)
Lemma properties_calls_to_management_host
    (salt : Salt) (sid username password : string) (verify : bool) :
  Forall (properties_called_with (management_fqdn salt sid username password verify))
         (trace (get_system_data salt sid username password verify initial_state).1).
Proof.
  assert (H : follows (emits (properties_called_with
                               (management_fqdn salt sid username password verify)))
                      (get_system_data salt sid username password verify)).
  { unfold get_system_data, management_fqdn.
    destruct (sap_hostctrl_list_instances salt sid username password (negb verify))
      as [|[|[hostname n] more] others]; cbv beta iota zeta;
      repeat first [ apply emits_loop_instances | follows_struct
                   | apply emits_emit; exact I
                   | apply emits_silent; intros; reflexivity ]. }
  destruct (H initial_state) as (evs & Htrace & Hevs).
  rewrite Htrace. exact Hevs.
Qed.

(** The management host and the host of the instance differ in this run:
    the instance is on [host3], the properties are asked of [host1]. *)
Example management_host_run :
  let st := (get_system_data (example_salt (same_dump "") [2%nat]) "S4H" "sapadm" "secret" true
               initial_state).1 in
  heap st !! 2%nat ≫= i_fqdn = Some "host3.example.org" /\
  List.filter is_properties_call (trace st)
    = [Call_get_instance_properties 2 "host1.example.org" "sapadm" "secret" true].
Proof. vm_compute. split; reflexivity. Qed.

(** ** The ports of the message server (C8) *)

Lemma format_02d_two_digits (n : Z) :
  0 <= n < 100 -> PyStr.format_02d n = two_digits n.
Proof.
  intros Hn.
  assert (Hall : forallb (fun k => String.eqb (PyStr.format_02d (Z.of_nat k))
                                     (two_digits (Z.of_nat k)))
                         (seq 0 100) = true) by (vm_compute; reflexivity).
  rewrite forallb_forall in Hall.
  specialize (Hall (Z.to_nat n)).
  rewrite Z2Nat.id in Hall by lia.
  apply String.eqb_eq, Hall, in_seq. lia.
Qed.

Lemma server_ports_skip (prefix what : string) (st : state) (ps : list (string * string)) :
  parameters st = Some ps ->
  Forall (fun kv => PyStr.startswith prefix kv.1 = false) ps ->
  server_ports prefix what st = (st, Ok tt).
Proof.
  intros Hps Hnone. unfold server_ports. rewrite bind_run.
  unfold get_parameters. rewrite Hps. clear Hps.
  induction Hnone as [|kv ps Hkv _ IH]; [reflexivity|].
  cbn [for_each]. rewrite bind_run. unfold server_port. rewrite Hkv. exact IH.
Qed.

Lemma set_sd_message_servers_same (d : SystemData) (l : list (gmap string string)) :
  sd_message_servers d = Some l -> set_sd_message_servers l d = d.
Proof. destruct d. cbn. intros ->. reflexivity. Qed.

Lemma message_server_msport_run
    (salt : Salt) (sid : string) (message_server : gmap string string) (st : state) :
  let r := message_server_msport salt sid message_server st in
  keeps_servers st r.1 /\
  (forall m, r.2 = Ok m ->
     exists v, m = <[ "msport" := v ]> message_server /\
       ((file_grep salt "/etc/services" ("sapms" ++ sid)).1 <> 0 ->
        exists n, i_instance (cur st) = Some n /\ v = "36" ++ PyStr.format_02d n)) /\
  ((file_grep salt "/etc/services" ("sapms" ++ sid)).1 <> 0 ->
   is_Some (i_instance (cur st)) -> exists m, r.2 = Ok m).
Proof.
  unfold message_server_msport, keeps_servers. run.
  case_bool_decide as Hret; run.
  - repeat (case_match; run); simplify_eq; run;
      (split; [repeat split | split; [|intros Hne; contradiction]]);
      intros m Hm; try discriminate;
      injection Hm as <-; eexists; (split; [reflexivity | intros; contradiction]).
  - destruct (i_instance (cur st)) as [n|] eqn:Hn; run;
      (split; [repeat split; done|split]).
    + intros m [= <-]. eexists. split; [reflexivity|]. intros _. exists n. done.
    + intros _ _. eexists. reflexivity.
    + intros m [=].
    + intros _ [? [=]].
Qed.

(** Lines 220-278 as a whole: when the block completes, the record it has
    appended to [system_data["message_servers"]] has the keys [host],
    [msport] and [httpport], the last with the default value, and
    nothing else of [system_data] has changed. *)
Lemma message_server_ports_run (salt : Salt) (sid : string) (st : state) :
  let r := message_server_ports salt sid st in
  (r.2 = Ok tt ->
   exists n fq v,
     i_instance (cur st) = Some n /\ i_fqdn (cur st) = Some fq /\
     system_data r.1 =
       set_sd_message_servers
         (default [] (sd_message_servers (system_data st)) ++
          [<[ "httpport" := "81" ++ PyStr.format_02d n ]>
             (<[ "msport" := v ]> {[ "host" := fq ]})])
         (system_data st) /\
     Log WARNING ("Could not determine HTTP / HTTPS port of message server, "
                  ++ "setting to default " ++ ("81" ++ PyStr.format_02d n)) ∈ trace r.1 /\
     ((file_grep salt "/etc/services" ("sapms" ++ sid)).1 <> 0 ->
      v = "36" ++ PyStr.format_02d n)) /\
  (is_Some (i_instance (cur st)) ->
   is_Some (i_fqdn (cur st)) ->
   (exists ps, parameters st = Some ps /\
      Forall (fun kv => PyStr.startswith "ms/server_port_" kv.1 = false) ps) ->
   (file_grep salt "/etc/services" ("sapms" ++ sid)).1 <> 0 ->
   r.2 = Ok tt).
Proof.
  unfold message_server_ports. run.
  set (s0 := {| heap := heap st; cur := cur st; system_data := system_data st;
                parameters := parameters st;
                trace := (trace st ++ [Log DEBUG "Retrieving Ports"])%list |}).
  (* system_data["message_servers"] is there from here on *)
  assert (Hstart : exists s1,
             (if bool_decide (sd_message_servers (system_data st) = None)
              then modify_system_data (set_sd_message_servers [])
              else mret tt) s0 = (s1, Ok tt) /\
             system_data s1 =
               set_sd_message_servers (default [] (sd_message_servers (system_data st)))
                 (system_data st) /\
             cur s1 = cur st /\ parameters s1 = parameters st).
  { case_bool_decide as Hms.
    - eexists. run. rewrite Hms. repeat split.
    - destruct (sd_message_servers (system_data st)) as [l|] eqn:Hl; [|done].
      exists s0. repeat split. cbn [default system_data s0].
      symmetry. apply set_sd_message_servers_same, Hl. }
  destruct Hstart as (s1 & Hs1 & Hsd & Hcur & Hps).
  cbv [mret M_ret modify_system_data] in Hs1. rewrite Hs1. clear Hs1 s0.
  rewrite Hcur. destruct (i_fqdn (cur st)) as [fq|] eqn:Hfq.
  2:{ cbn [fst snd]. split; [discriminate | intros _ [? [=]]]. }
  destruct (message_server_msport_run salt sid {[ "host" := fq ]} s1)
    as ((K1 & K2 & K3 & K4) & Hok & Htotal).
  destruct (message_server_msport salt sid {[ "host" := fq ]} s1) as [s2 [m2|e]];
    cbn [fst snd] in *.
  2:{ split; [discriminate|]. intros Hnum _ _ Hgrep. rewrite Hcur in Htotal.
      destruct (Htotal Hgrep Hnum) as [m [=]]. }
  destruct (Hok m2 eq_refl) as (v & -> & Hv). clear Hok Htotal.
  assert (Hkeep : follows keeps_servers (server_ports "ms/server_port_" "MS"))
    by (apply follows_server_ports; respects).
  destruct (Hkeep s2) as (L1 & L2 & L3 & L4).
  assert (Hskip : forall ps,
             parameters st = Some ps ->
             Forall (fun kv => PyStr.startswith "ms/server_port_" kv.1 = false) ps ->
             server_ports "ms/server_port_" "MS" s2 = (s2, Ok tt)).
  { intros ps Hp. apply server_ports_skip. congruence. }
  destruct (server_ports "ms/server_port_" "MS" s2) as [s3 [[]|e]]; cbn [fst snd] in *.
  2:{ split; [discriminate|]. intros _ _ (ps & Hp & Hnone) _.
      specialize (Hskip ps Hp Hnone). discriminate. }
  unfold message_server_httpport.
  rewrite bool_decide_eq_true_2
    by (rewrite lookup_insert_ne by done; apply lookup_singleton_ne; done).
  run. rewrite L1, K1, Hcur.
  destruct (i_instance (cur st)) as [n|] eqn:Hn; run.
  2:{ split; [discriminate | intros [? [=]]]. }
  rewrite L4, K4, Hsd. cbn [sd_message_servers set_sd_message_servers]. run.
  split; [|reflexivity].
  intros _. exists n, fq, v. split; [reflexivity|]. split; [reflexivity|].
  split; [|split].
  - reflexivity.
  - apply elem_of_app. right. apply list_elem_of_singleton. reflexivity.
  - intros Hgrep. destruct (Hv Hgrep) as (n' & Hn' & ->). rewrite Hcur in Hn'.
    congruence.
Qed.

(** C8: for an instance numbered [n] between 0 and 99, whenever the
    message-server record is built and appended its [httpport] is ["81"]
    followed by the two digits of [n], with a warning, and if the grep of
    the service-name database failed its [msport] is ["36"] followed by
    the two digits of [n]; and the record is built and appended when the
    grep failed and there is no [ms/server_port_] parameter. *)
Theorem message_server_default_ports
    (salt : Salt) (sid : string) (st : state) (n : Z) :
  i_instance (cur st) = Some n ->
  0 <= n < 100 ->
  let r := message_server_ports salt sid st in
  (r.2 = Ok tt ->
   exists l message_server,
     sd_message_servers (system_data r.1) = Some (l ++ [message_server])%list /\
     message_server !! "httpport" = Some ("81" ++ two_digits n) /\
     Log WARNING ("Could not determine HTTP / HTTPS port of message server, "
                  ++ "setting to default " ++ ("81" ++ two_digits n)) ∈ trace r.1 /\
     ((file_grep salt "/etc/services" ("sapms" ++ sid)).1 <> 0 ->
      message_server !! "msport" = Some ("36" ++ two_digits n))) /\
  (is_Some (i_fqdn (cur st)) ->
   (exists ps, parameters st = Some ps /\
      Forall (fun kv => PyStr.startswith "ms/server_port_" kv.1 = false) ps) ->
   (file_grep salt "/etc/services" ("sapms" ++ sid)).1 <> 0 ->
   r.2 = Ok tt).
Proof.
  intros Hn Hrange. rewrite <- (format_02d_two_digits n Hrange).
  destruct (message_server_ports_run salt sid st) as [Hbuilt Hruns].
  cbv zeta. split.
  - intros Hok. destruct (Hbuilt Hok) as (n' & fq & v & Hn' & _ & Hsd & Hwarn & Hv).
    assert (n' = n) as -> by congruence.
    eexists _, _. rewrite Hsd. split; [reflexivity|]. split; [|split].
    + apply lookup_insert_eq.
    + exact Hwarn.
    + intros Hgrep. rewrite lookup_insert_ne by done. rewrite (Hv Hgrep).
      apply lookup_insert_eq.
  - intros Hfq Hps Hgrep. apply Hruns; try assumption. rewrite Hn. eexists; reflexivity.
Qed.

Lemma message_server_default_ports_witness :
  let r := message_server_ports (example_salt no_dump []) "S4H" ascs_state in
  r.2 = Ok tt /\
  exists l message_server,
    sd_message_servers (system_data r.1) = Some (l ++ [message_server])%list /\
    message_server !! "httpport" = Some "8101" /\
    message_server !! "msport" = Some "3601".
Proof.
  destruct (message_server_default_ports (example_salt no_dump []) "S4H" ascs_state 1
              eq_refl ltac:(lia)) as [Hbuilt Hruns].
  assert (Hgrep : (file_grep (example_salt no_dump []) "/etc/services" ("sapms" ++ "S4H")).1
                  <> 0) by discriminate.
  assert (Hok : (message_server_ports (example_salt no_dump []) "S4H" ascs_state).2 = Ok tt).
  { apply Hruns; [eexists; reflexivity | | exact Hgrep].
    exists []. split; [reflexivity | constructor]. }
  split; [exact Hok|].
  destruct (Hbuilt Hok) as (l & message_server & Hl & Hhttp & _ & Hms).
  exists l, message_server. split; [exact Hl|]. split; [exact Hhttp | exact (Hms Hgrep)].
Defined.

Lemma process_type_classifies_witness :
  i_type (cur (process_type (example_salt no_dump []) "S4H" "sapadm" "secret" true
                 (at_instance (discovered "host1" 0 ["ABAP"; "MESSAGESERVER"]) (Some [])
              )).1) = Some "ABAP".
Proof.
  apply (process_type_classifies (example_salt no_dump []) "S4H" "sapadm" "secret" true
           (at_instance (discovered "host1" 0 ["ABAP"; "MESSAGESERVER"]) (Some []))).
  - apply list_elem_of_here.
  - apply list_elem_of_further, list_elem_of_here.
Defined.

(** ** Logon groups (C1) *)

(** A candidate without the key [httpsport] is never asked: building its
    URL raises. *)
Lemma probe_message_servers_raises
    (salt : Salt) (verify : bool) (message_server : gmap string string)
    (l : list (gmap string string)) (st : state) :
  message_server !! "httpsport" = None ->
  exists key,
    probe_message_servers salt verify (message_server :: l) st = (st, Raise (KeyError key)).
Proof.
  intros Hnone. cbn [probe_message_servers].
  rewrite (bool_decide_eq_false_2 (is_Some (message_server !! "httpsport"))), andb_false_r
    by (rewrite Hnone; intros [? [=]]).
  run. rewrite Hnone.
  destruct (message_server !! "host"); eexists; reflexivity.
Qed.

(** With such a candidate first, the logon groups are never set. *)
Lemma logon_groups_raises
    (salt : Salt) (verify : bool) (st : state)
    (message_server : gmap string string) (l : list (gmap string string)) :
  sd_message_servers (system_data st) = Some (message_server :: l) ->
  message_server !! "httpsport" = None ->
  exists key,
    (logon_groups salt verify st).2 = Raise (KeyError key) /\
    sd_logon_groups (system_data (logon_groups salt verify st).1)
      = sd_logon_groups (system_data st).
Proof.
  intros Hl Hnone. unfold logon_groups.
  rewrite !bind_run. run. rewrite Hl.
  match goal with |- context [probe_message_servers salt verify _ ?s] =>
    destruct (probe_message_servers_raises salt verify message_server l s Hnone)
      as [key Hkey]
  end.
  exists key. rewrite Hkey. split; reflexivity.
Qed.

(** The block of a message-server instance never completes when no
    candidate has the key [httpsport], and none ever has: the record the
    block itself appends has the keys [host], [msport] and [httpport]. *)
Lemma messageserver_extraction_raises
    (salt : Salt) (sid : string) (verify : bool) (st : state) :
  Forall (fun m : gmap string string => m !! "httpsport" = None)
         (default [] (sd_message_servers (system_data st))) ->
  (messageserver_extraction salt sid verify st).2 <> Ok tt.
Proof.
  intros Hall. unfold messageserver_extraction. rewrite bind_run.
  destruct (message_server_ports_run salt sid st) as [Hbuilt _].
  destruct (message_server_ports salt sid st) as [s1 [[]|e]]; [|discriminate].
  destruct (Hbuilt eq_refl) as (n & fq & v & _ & _ & Hsd & _).
  cbn [fst] in Hsd.
  assert (Hfirst : exists m l,
             sd_message_servers (system_data s1) = Some (m :: l) /\
             m !! "httpsport" = None).
  { rewrite Hsd. cbn [sd_message_servers set_sd_message_servers].
    destruct (default [] (sd_message_servers (system_data st))) as [|m l].
    - eexists _, []. split; [reflexivity|].
      rewrite !lookup_insert_ne by done. apply lookup_singleton_ne. done.
    - eexists m, _.
      split; [reflexivity|]. apply Forall_cons in Hall as [Hm _]. exact Hm. }
  destruct Hfirst as (m & l & Hl & Hm).
  destruct (logon_groups_raises salt verify s1 m l Hl Hm) as (key & Hkey & _).
  rewrite Hkey. discriminate.
Qed.

Lemma keeps_groups_preorder : PreOrder keeps_groups.
Proof.
  split.
  - intros st. split; reflexivity.
  - intros st1 st2 st3 [H1 H2] [K1 K2]. split; congruence.
Qed.

Section Groups.

Variable salt : Salt.
Variables sid username password : string.
Variable verify : bool.

Local Existing Instance keeps_groups_preorder.

Local Ltac groups_step :=
  first [ follows_struct
        | intros ?; unfold keeps_groups; run; split; reflexivity ].

Lemma keeps_groups_fetch_parameters :
  follows keeps_groups (fetch_parameters salt username password verify).
Proof. apply follows_fetch_parameters; [apply _ | intros; groups_step ..]. Qed.

Lemma keeps_groups_process_abap :
  follows keeps_groups (process_abap salt username password verify).
Proof.
  unfold process_abap.
  repeat first [ apply follows_abap_extraction; [apply _ | intros; groups_step ..]
               | groups_step ].
Qed.

Lemma keeps_groups_register_instance (fqdn : string) (this : loc) :
  follows keeps_groups (register_instance salt username password verify fqdn this).
Proof. unfold register_instance. repeat groups_step. Qed.

(** A run of the loop body that completes has not been through the
    message-server block. *)
Lemma loop_body_groups (domain fqdn : string) (this : loc) (st : state) :
  sd_message_servers (system_data st) = None ->
  let r := loop_body salt sid username password verify domain fqdn this st in
  r.2 = Ok tt -> keeps_groups st r.1.
Proof.
  intros Hnone. unfold loop_body. run.
  match goal with |- context [fetch_parameters _ _ _ _ ?s] =>
    pose proof (keeps_groups_fetch_parameters s) as [F1 F2];
    destruct (fetch_parameters salt username password verify s) as [s2 [[]|e]]
  end; cbn [fst snd system_data] in *; [|discriminate].
  unfold process_type, has_feature. run.
  assert (Hreg : forall s3 : state,
            keeps_groups st s3 ->
            keeps_groups st
              (register_instance salt username password verify fqdn this s3).1).
  { intros s3 [G1 G2].
    pose proof (keeps_groups_register_instance fqdn this s3) as [R1 R2].
    split; congruence. }
  repeat case_bool_decide; run.
  - (* ABAP *)
    match goal with |- context [process_abap _ _ _ _ ?s] =>
      pose proof (keeps_groups_process_abap s) as [A1 A2];
      destruct (process_abap salt username password verify s) as [s3 [[]|e]]
    end; cbn [fst snd system_data] in *; [|discriminate].
    intros _. apply Hreg. split; congruence.
  - intros _. apply Hreg. split; assumption.
  - intros _. apply Hreg. split; assumption.
  - intros _. apply Hreg. split; assumption.
  - intros _. apply Hreg. split; assumption.
  - (* MESSAGESERVER *)
    unfold process_messageserver. run.
    match goal with |- context [messageserver_extraction _ _ _ ?s] =>
      pose proof (messageserver_extraction_raises salt sid verify s) as Hraise;
      destruct (messageserver_extraction salt sid verify s) as [s3 [[]|e]]
    end; cbn [fst snd system_data] in *; [|discriminate].
    exfalso. apply Hraise; [|reflexivity].
    rewrite F1, Hnone. constructor.
  - intros _. apply Hreg. split; assumption.
Qed.

End Groups.

(** C1, as the code has it: for a system whose only instance is a
    central-services instance (grep of the service-name database failing,
    no message-server port parameter) the run does not reach any HTTP
    request and no logon group is set: building the URL of the first
    candidate raises [KeyError], with and without [verify]. *)
Theorem logon_groups_key_error (verify : bool) :
  let r := get_system_data (example_salt (same_dump "") [1%nat]) "S4H" "sapadm" "secret"
             verify initial_state in
  r.2 = Raise (KeyError "httpsport") /\
  List.filter is_request (trace r.1) = [] /\
  sd_logon_groups (system_data r.1) = None /\
  (sd_message_servers (system_data r.1) ≫= head) ≫= (fun m => m !! "httpport")
    = Some "8101".
Proof. destruct verify; vm_compute; repeat split; reflexivity. Qed.

(** ** Port parameters (C2) *)

(** The examples of the specification: an HTTP and an HTTPS port are
    stored, an unknown sub-field is warned about and ignored, an unknown
    protocol is logged as an error and skipped. *)
Example icm_ports_run :
  let r := get_system_data
             (example_salt (same_dump "icm/server_port_0 = PROT=HTTP,PORT=8000,TIMEOUT=30
icm/server_port_1 = PROT=HTTPS,PORT=8001
icm/server_port_2 = PROT=FTP,PORT=21
icm/server_port_3 = PORT=25") [0%nat])
             "S4H" "sapadm" "secret" true initial_state in
  (exists d, r.2 = Ok d) /\
  (heap r.1 !! 0%nat ≫= i_httpport) = Some 8000 /\
  (heap r.1 !! 0%nat ≫= i_httpsport) = Some 8001 /\
  List.filter (fun e => match e with Log WARNING _ | Log ERROR _ => true | _ => false end)
              (trace r.1)
    = [Log WARNING "Parameter SAPDBHOST does not exist";
       Log WARNING "Parameter rsdb/dbid does not exist";
       Log WARNING "Unknown parameter TIMEOUT=30 for icm/server_port_0";
       Log ERROR "Unknown protocol 'FTP', skipping";
       Log WARNING "Protocol or port not defined for icm/server_port_3"].
Proof. vm_compute. repeat split; try reflexivity. eexists; reflexivity. Qed.

(** C2, as the code has it: a port value without a [PORT] sub-field is
    not skipped with a warning; [int(port)] is reached with [port] still
    [None] and the run ends in a [TypeError]. *)
Theorem port_entry_without_port_raises :
  let r := get_system_data
             (example_salt (same_dump "icm/server_port_0 = PROT=HTTP") [0%nat])
             "S4H" "sapadm" "secret" true initial_state in
  r.2 = Raise (TypeError "int() argument must be a string, a bytes-like object or a real number, not 'NoneType'") /\
  Log WARNING "Protocol or port not defined for icm/server_port_0" ∉ trace r.1.
Proof.
  vm_compute. split; [reflexivity|].
  intros H. repeat (apply elem_of_cons in H as [H|H]; [discriminate|]).
  inversion H.
Qed.

(** In general: whenever the sub-fields of a port value are read without
    finding a [PORT], the entry raises instead of being skipped. *)
Lemma server_port_without_port
    (prefix what icm_k icm_v : string) (st st1 : state) (protocol : option string) :
  PyStr.startswith prefix icm_k = true ->
  port_sub_fields icm_k (PyStr.split "," icm_v) None None
    {| heap := heap st; cur := cur st; system_data := system_data st;
       parameters := parameters st;
       trace := (trace st ++ [Log DEBUG ("Got data for " ++ icm_k ++ ": " ++ icm_v)])%list |}
    = (st1, Ok (protocol, None)) ->
  server_port prefix what icm_k icm_v st =
    (st1, Raise (TypeError "int() argument must be a string, a bytes-like object or a real number, not 'NoneType'")).
Proof.
  intros Hprefix Hfields. unfold server_port. rewrite Hprefix.
  cbv [mbind M_bind log emit]. rewrite Hfields. reflexivity.
Qed.

(** The same for a message-server port, for a sub-field without [=] and
    for a port that is not a number. *)
Example port_entry_malformed_raises :
  (server_port "ms/server_port_" "MS" "ms/server_port_0" "PROT=HTTPS" ascs_state).2
    = Raise (TypeError "int() argument must be a string, a bytes-like object or a real number, not 'NoneType'") /\
  (server_port "icm/server_port_" "ICM" "icm/server_port_0" "PROT=HTTP,8000" ascs_state).2
    = Raise IndexError /\
  (server_port "icm/server_port_" "ICM" "icm/server_port_0" "PROT=HTTP,PORT=http" ascs_state).2
    = Raise (ValueError "invalid literal for int() with base 10: 'http'").
Proof. vm_compute. repeat split; reflexivity. Qed.

(** ** A failed parameter call (C3) *)

(** A failed call leaves the local [parameters] as it was: unbound for
    the first instance, the previous instance's dict later. *)
Lemma parse_parameters_failed (parameters_str : string) (st : state) :
  parse_parameters false parameters_str st =
    ({| heap := heap st; cur := cur st; system_data := system_data st;
        parameters := parameters st;
        trace := (trace st ++ [Log WARNING "Could not retrieve parameters"])%list |},
     Ok tt).
Proof. reflexivity. Qed.

(** With [parameters] unbound, the block of an ABAP instance raises. *)
Lemma process_abap_unbound
    (salt : Salt) (username password : string) (verify : bool) (st : state) :
  parameters st = None ->
  (process_abap salt username password verify st).2
    = Raise (UnboundLocalError "parameters").
Proof.
  intros Hnone. unfold process_abap, abap_extraction. run. rewrite Hnone. reflexivity.
Qed.

(** C3, as the code has it: when the parameter call fails for the first
    instance, an ABAP instance, the warning is logged and [parameters] is
    left unbound; the extraction that follows raises. *)
Theorem failed_parameters_unbound :
  let r := get_system_data (example_salt no_dump [0%nat]) "S4H" "sapadm" "secret" true
             initial_state in
  r.2 = Raise (UnboundLocalError "parameters") /\
  Log WARNING "Could not retrieve parameters" ∈ trace r.1 /\
  parameters r.1 = None.
Proof.
  vm_compute. split; [reflexivity|]. split; [|reflexivity].
  repeat first [apply list_elem_of_here | apply list_elem_of_further].
Qed.

(** When the call fails for a later instance, the extraction works on the
    parameters of the instance before it: the port of instance 0 is
    stored for instance 2 as well. *)
Example failed_parameters_stale :
  let r := get_system_data
             (example_salt (first_dump "icm/server_port_0 = PROT=HTTP,PORT=8000")
                [0%nat; 2%nat])
             "S4H" "sapadm" "secret" true initial_state in
  (exists d, r.2 = Ok d) /\
  (heap r.1 !! 2%nat ≫= i_httpport) = Some 8000 /\
  parameters r.1 = Some [("icm/server_port_0", "PROT=HTTP,PORT=8000")].
Proof. vm_compute. repeat split; try reflexivity. eexists; reflexivity. Qed.

(** ** The instances mapping *)

Section DictFacts.
Context {K V : Type} `{EqDecision K}.
Implicit Types (d : list (K * V)).

Lemma dict_set_elem k v d kv : kv ∈ dict_set k v d -> kv = (k, v) \/ kv ∈ d.
Proof.
  induction d as [|[k' v'] d IH]; cbn [dict_set].
  - intros ->%list_elem_of_singleton. left. reflexivity.
  - case_decide as Hk.
    + intros [->|H]%elem_of_cons; [left; reflexivity|].
      right. apply list_elem_of_further, H.
    + intros [->|H]%elem_of_cons; [right; apply list_elem_of_here|].
      destruct (IH H) as [->|H']; [left; reflexivity|].
      right. apply list_elem_of_further, H'.
Qed.

Lemma dict_set_key k v d x : x ∈ (dict_set k v d).*1 -> x = k \/ x ∈ d.*1.
Proof.
  intros ([k' v'] & -> & H)%list_elem_of_fmap.
  destruct (dict_set_elem _ _ _ _ H) as [[= -> ->]|H']; [left; reflexivity|].
  right. apply list_elem_of_fmap. exists (k', v'). split; [reflexivity | exact H'].
Qed.

Lemma dict_set_get k v d : dict_get k (dict_set k v d) = Some v.
Proof.
  induction d as [|[k' v'] d IH]; cbn [dict_set dict_get].
  - rewrite decide_True by reflexivity. reflexivity.
  - case_decide as Hk; cbn [dict_get].
    + rewrite decide_True by reflexivity. reflexivity.
    + rewrite decide_False by exact Hk. exact IH.
Qed.

(** The keys of a dict stay pairwise different. *)
Lemma dict_set_NoDup k v d : NoDup d.*1 -> NoDup (dict_set k v d).*1.
Proof.
  induction d as [|[k' v'] d IH]; cbn [dict_set].
  - intros _. apply NoDup_singleton.
  - cbn [fmap list_fmap fst]. intros [Hnotin Hd]%NoDup_cons.
    case_decide as Hk; cbn [fmap list_fmap fst].
    + subst k'. apply NoDup_cons. split; assumption.
    + apply NoDup_cons. split; [|apply IH, Hd].
      intros [->|Hin]%dict_set_key; [congruence | exact (Hnotin Hin)].
Qed.
End DictFacts.

Lemma set_fqdn_same (i : InstanceRecord) (v : string) :
  i_fqdn i = Some v -> set_fqdn v i = i.
Proof. destruct i. cbn. intros ->. reflexivity. Qed.

(** What one run of the loop body does to the current instance and to
    [system_data["instances"]]. *)
Lemma loop_body_run
    (salt : Salt) (sid username password : string) (verify : bool)
    (domain fqdn : string) (this : loc) (st : state) :
  let r := loop_body salt sid username password verify domain fqdn this st in
  heap r.1 = heap st /\
  i_hostname (cur r.1) = i_hostname (cur st) /\
  (i_instance (cur st) = None ->
   cur r.1 = set_fqdn (i_hostname (cur st) ++ "." ++ domain) (cur st) /\
   r.2 <> Ok tt) /\
  (r.2 = Ok tt ->
   exists n l,
     i_instance (cur st) = Some n /\
     sd_instances (system_data st) = Some l /\
     sd_instances (system_data r.1) = Some (dict_set n this l) /\
     i_instance (cur r.1) = None /\
     i_fqdn (cur r.1) = Some (i_hostname (cur st) ++ "." ++ domain)) /\
  (r.2 <> Ok tt -> sd_instances (system_data r.1) = sd_instances (system_data st)).
Proof.
  unfold loop_body. run.
  set (s1 := {| heap := heap st;
                cur := set_fqdn (i_hostname (cur st) ++ "." ++ domain) (cur st);
                system_data := system_data st; parameters := parameters st;
                trace := ((trace st ++ [Log DEBUG "Current instance"]) ++
                          [Log DEBUG "Setting FQDN"])%list |}).
  destruct (i_instance (cur st)) as [n|] eqn:Hn.
  - (* the instance has its number *)
    assert (HF : follows keeps_identity (fetch_parameters salt username password verify))
      by (apply follows_fetch_parameters; respects).
    pose proof (HF s1) as (F1 & F2 & F3 & F4 & F5 & F6).
    destruct (fetch_parameters salt username password verify s1) as [s2 [[]|e]];
      unfold s1 in *; clear s1;
      cbn [fst snd heap cur system_data set_fqdn
           i_hostname i_instance i_fqdn i_features] in *.
    2:{ repeat split; try done; try congruence. }
    assert (HP : follows keeps_identity (process_type salt sid username password verify))
      by (apply follows_process_type; respects).
    pose proof (HP s2) as (P1 & P2 & P3 & P4 & P5 & P6).
    destruct (process_type salt sid username password verify s2) as [s3 [[]|e]];
      cbn [fst snd] in *.
    2:{ repeat split; try done; try congruence. }
    unfold register_instance. run.
    rewrite P3, F3, Hn. run. cbn [set_name i_instance]. rewrite P3, F3, Hn. run.
    rewrite P6, F6.
    destruct (sd_instances (system_data st)) as [l|] eqn:Hl; run;
      cbn [set_sd_instances sd_instances del_instance set_name
           i_hostname i_instance i_fqdn].
    + repeat split; try done; try congruence.
      intros _. exists n, l. repeat split.
      rewrite P4, F4. reflexivity.
    + repeat split; try done; try congruence.
  - (* the key is gone: line 121 raises *)
    unfold fetch_parameters, s1. run. cbn [set_fqdn i_instance]. rewrite Hn. run.
    repeat split; try done; try congruence.
Qed.

(** One iteration: the settled objects keep their content, the registered
    references stay settled and the keys stay pairwise different. *)
Lemma iteration_run
    (salt : Salt) (sid username password : string) (verify : bool)
    (domain fqdn : string) (this : loc) (st : state) :
  let r := iteration salt sid username password verify domain fqdn this st in
  (forall x, settled domain st x -> heap r.1 !! x = heap st !! x) /\
  (registered_ok domain st -> registered_ok domain r.1) /\
  (NoDup (registered st).*1 -> NoDup (registered r.1).*1).
Proof.
  unfold iteration. destruct (heap st !! this) as [i|] eqn:Hi; [|done].
  pose proof (loop_body_run salt sid username password verify domain fqdn this
                {| heap := heap st; cur := i; system_data := system_data st;
                   parameters := parameters st; trace := trace st |})
    as (B1 & B2 & B3 & B4 & B5).
  destruct (loop_body salt sid username password verify domain fqdn this _) as [st' res].
  cbn [fst snd heap cur system_data] in *.
  assert (Hkept : forall x, settled domain st x ->
            (<[this:=cur st']> (heap st') : list InstanceRecord) !! x = heap st !! x).
  { intros x (j & Hj & Hnum & Hfq). rewrite B1.
    destruct (decide (x = this)) as [->|Hne];
      [|apply list_lookup_insert_ne; congruence].
    assert (j = i) as -> by congruence.
    destruct (B3 Hnum) as [-> _].
    rewrite (set_fqdn_same _ _ Hfq), list_insert_id by exact Hi. reflexivity. }
  split; [exact Hkept|].
  unfold registered_ok, registered. cbn [heap system_data].
  destruct res as [[]|e].
  - destruct (B4 eq_refl) as (n & l & Hn & Hl & Hl' & Hnum & Hfq).
    rewrite Hl, Hl'. cbn [default]. split.
    + intros Hok k x [[= -> ->]|Hin]%dict_set_elem.
      * exists (cur st'). rewrite B1, B2.
        split; [|split; [exact Hnum | exact Hfq]].
        apply list_lookup_insert_eq. eapply lookup_lt_Some, Hi.
      * destruct (Hok k x Hin) as (j & Hj & Hj'). exists j.
        split; [|exact Hj']. cbn [heap]. rewrite Hkept; [exact Hj|].
        exists j. split; [exact Hj | exact Hj'].
    + apply dict_set_NoDup.
  - rewrite (B5 ltac:(discriminate)). split; [|done].
    intros Hok k x Hin. destruct (Hok k x Hin) as (j & Hj & Hj'). exists j.
    split; [|exact Hj']. cbn [heap]. rewrite Hkept; [exact Hj|].
    exists j. split; [exact Hj | exact Hj'].
Qed.

Lemma settled_kept (domain : string) (st st' : state) (x : loc) :
  heap st' !! x = heap st !! x -> settled domain st x -> settled domain st' x.
Proof. intros Heq (j & Hj & Hj'). exists j. split; [congruence | exact Hj']. Qed.

(** The same for the rest of a run of the loop. *)
Lemma loop_instances_run
    (salt : Salt) (sid username password : string) (verify : bool)
    (domain fqdn : string) (l : list loc) (st : state) :
  let r := loop_instances salt sid username password verify domain fqdn l st in
  (forall x, settled domain st x -> heap r.1 !! x = heap st !! x) /\
  (registered_ok domain st -> registered_ok domain r.1) /\
  (NoDup (registered st).*1 -> NoDup (registered r.1).*1).
Proof.
  unfold loop_instances. revert st. induction l as [|this l IH]; intros st; [done|].
  cbn [for_each]. rewrite bind_run.
  pose proof (iteration_run salt sid username password verify domain fqdn this st)
    as (I1 & I2 & I3).
  destruct (iteration salt sid username password verify domain fqdn this st)
    as [st1 [[]|e]]; cbn [fst snd] in *; [|done].
  destruct (IH st1) as (J1 & J2 & J3).
  split; [|split].
  - intros x Hx. rewrite J1, I1; [reflexivity | exact Hx |].
    apply (settled_kept domain st); [apply I1, Hx | exact Hx].
  - intros H. apply J2, I2, H.
  - intros H. apply J3, I3, H.
Qed.

(** The loop of a run starts with an empty instances mapping and the
    objects of the instance-detail fetch in the store. *)
Lemma get_system_data_loop
    (salt : Salt) (sid username password : string) (verify : bool)
    (hostname : string) (n : Z) (more : list (string * Z)) (others : list (list (string * Z)))
    (first : loc) (l : list loc) :
  sap_hostctrl_list_instances salt sid username password (negb verify)
    = ((hostname, n) :: more) :: others ->
  items (sap_control_get_system_instance_list salt n
           (hostname ++ "." ++ grains_domain salt) username password verify) = first :: l ->
  exists st0,
    registered st0 = [] /\
    get_system_data salt sid username password verify initial_state =
      (loop_instances salt sid username password verify (grains_domain salt)
         (hostname ++ "." ++ grains_domain salt) (first :: l) ;;
       log TRACE "system_data" ;;
       get_system_data_var) st0.
Proof.
  intros Hfound Hitems. eexists. split; [|].
  2:{ unfold get_system_data.
      cbv [mbind M_bind mret M_ret raise emit log call modify_system_data set_heap].
      cbn [heap cur system_data parameters trace initial_state].
      rewrite Hfound. cbn [dict_get]. rewrite decide_True by reflexivity.
      rewrite Hitems. reflexivity. }
  reflexivity.
Qed.

(** What a run returns: the keys of [instances] are pairwise different
    and every record under them is without the raw [instance] field. *)
Lemma get_system_data_instances
    (salt : Salt) (sid username password : string) (verify : bool)
    (st' : state) (d : SystemData) :
  get_system_data salt sid username password verify initial_state = (st', Ok d) ->
  NoDup (resolve_instances st' d).*1 /\
  forall k o, (k, o) ∈ resolve_instances st' d ->
    exists i, o = Some i /\ i_instance i = None.
Proof.
  intros Hrun.
  destruct (sap_hostctrl_list_instances salt sid username password (negb verify))
    as [|[|[hostname n] more] others] eqn:Hfound.
  - revert Hrun. unfold get_system_data. run. rewrite Hfound. intros [= <- <-].
    split; [constructor | intros k o H; inversion H].
  - exfalso. revert Hrun. unfold get_system_data. run. rewrite Hfound. discriminate.
  - destruct (items (sap_control_get_system_instance_list salt n
                       (hostname ++ "." ++ grains_domain salt) username password verify))
      as [|first l] eqn:Hitems.
    + exfalso. revert Hrun. unfold get_system_data. run. rewrite Hfound.
      cbn [dict_get]. rewrite decide_True by reflexivity. rewrite Hitems. discriminate.
    + destruct (get_system_data_loop salt sid username password verify hostname n more
                  others first l Hfound Hitems) as (st0 & Hempty & Heq).
      rewrite Heq, bind_run in Hrun.
      pose proof (loop_instances_run salt sid username password verify
                    (grains_domain salt) (hostname ++ "." ++ grains_domain salt)
                    (first :: l) st0) as (_ & Hok & Hkeys).
      destruct (loop_instances salt sid username password verify _ _ (first :: l) st0)
        as [st1 [[]|e]]; [|discriminate].
      cbn [fst] in Hok, Hkeys. revert Hrun. run. intros [= <- <-].
      unfold resolve_instances. cbn [heap].
      specialize (Hok ltac:(intros ? ? H; rewrite Hempty in H; inversion H)).
      specialize (Hkeys ltac:(rewrite Hempty; constructor)).
      unfold registered_ok, registered in Hok, Hkeys.
      destruct (sd_instances (system_data st1)) as [regs|]; cbn [default] in *.
      2:{ split; [constructor | intros k o H; inversion H]. }
      split.
      * rewrite <- list_fmap_compose. exact Hkeys.
      * intros k o ([k' r] & [= -> ->] & Hin)%list_elem_of_fmap.
        destruct (Hok _ _ Hin) as (i & Hi & Hnum & _).
        exists i. split; [exact Hi | exact Hnum].
Qed.

(** ** No run returns logon groups (C1, continued) *)

Lemma iteration_groups
    (salt : Salt) (sid username password : string) (verify : bool)
    (domain fqdn : string) (this : loc) (st : state) :
  sd_message_servers (system_data st) = None ->
  let r := iteration salt sid username password verify domain fqdn this st in
  r.2 = Ok tt -> keeps_groups st r.1.
Proof.
  intros Hnone. unfold iteration.
  destruct (heap st !! this) as [i|]; [|discriminate].
  pose proof (loop_body_groups salt sid username password verify domain fqdn this
                {| heap := heap st; cur := i; system_data := system_data st;
                   parameters := parameters st; trace := trace st |} Hnone) as Hbody.
  destruct (loop_body salt sid username password verify domain fqdn this _) as [st' res].
  cbn [fst snd] in *. intros Hok. exact (Hbody Hok).
Qed.

Lemma loop_instances_groups
    (salt : Salt) (sid username password : string) (verify : bool)
    (domain fqdn : string) (l : list loc) (st : state) :
  sd_message_servers (system_data st) = None ->
  let r := loop_instances salt sid username password verify domain fqdn l st in
  r.2 = Ok tt -> keeps_groups st r.1.
Proof.
  unfold loop_instances. revert st.
  induction l as [|this l IH]; intros st Hnone; [split; reflexivity|].
  cbn [for_each]. rewrite bind_run.
  pose proof (iteration_groups salt sid username password verify domain fqdn this st Hnone)
    as Hthis.
  destruct (iteration salt sid username password verify domain fqdn this st)
    as [st1 [[]|e]]; cbn [fst snd] in *; [|discriminate].
  destruct (Hthis eq_refl) as [H1 H2].
  intros Hok. destruct (IH st1 ltac:(congruence) Hok) as [J1 J2].
  split; congruence.
Qed.

(** Whatever the collaborators answer, a run that returns has neither
    message servers nor logon groups in its result: a run that reaches
    the message-server block does not return. *)
Lemma get_system_data_no_logon_groups
    (salt : Salt) (sid username password : string) (verify : bool)
    (st' : state) (d : SystemData) :
  get_system_data salt sid username password verify initial_state = (st', Ok d) ->
  sd_message_servers d = None /\ sd_logon_groups d = None.
Proof.
  intros Hrun.
  destruct (sap_hostctrl_list_instances salt sid username password (negb verify))
    as [|[|[hostname n] more] others] eqn:Hfound.
  - revert Hrun. unfold get_system_data. run. rewrite Hfound. intros [= <- <-].
    split; reflexivity.
  - exfalso. revert Hrun. unfold get_system_data. run. rewrite Hfound. discriminate.
  - destruct (items (sap_control_get_system_instance_list salt n
                       (hostname ++ "." ++ grains_domain salt) username password verify))
      as [|first l] eqn:Hitems.
    + exfalso. revert Hrun. unfold get_system_data. run. rewrite Hfound.
      cbn [dict_get]. rewrite decide_True by reflexivity. rewrite Hitems. discriminate.
    + revert Hrun. unfold get_system_data.
      cbv [mbind M_bind mret M_ret raise emit log call modify_system_data set_heap].
      cbn [heap cur system_data parameters trace initial_state].
      rewrite Hfound. cbn [dict_get]. rewrite decide_True by reflexivity.
      rewrite Hitems.
      match goal with |- context [loop_instances _ _ _ _ _ _ _ _ ?s] =>
        pose proof (loop_instances_groups salt sid username password verify
                      (grains_domain salt) (hostname ++ "." ++ grains_domain salt)
                      (first :: l) s eq_refl) as Hloop;
        destruct (loop_instances salt sid username password verify (grains_domain salt)
                    (hostname ++ "." ++ grains_domain salt) (first :: l) s)
          as [st1 [[]|e]]
      end; [|discriminate].
      destruct (Hloop eq_refl) as [H1 H2]. cbn [fst system_data] in H1, H2.
      run. intros [= <- <-]. split; [exact H1 | exact H2].
Qed.

(** * Further properties *)

(** ** The events of the blocks *)

Section Events.

Variable P : event -> Prop.
Variable salt : Salt.
Variables sid username password : string.
Variable verify : bool.

Hypothesis P_log : forall lvl msg, P (Log lvl msg).
Hypothesis P_parameter_value :
  forall n fq, P (Call_parameter_value n "" fq username password verify).
Hypothesis P_components :
  forall n fq, P (Call_get_abap_component_list n fq username password verify).
Hypothesis P_grep : P (Call_file_grep "/etc/services" ("sapms" ++ sid)).
Hypothesis P_request : forall url, P (Call_requests_get url verify).
Hypothesis P_properties :
  forall n fq, P (Call_get_instance_properties n fq username password verify).

Local Ltac events_step :=
  first [ follows_struct
        | apply emits_emit; solve [auto]
        | apply emits_silent; intros; reflexivity ].

Lemma events_parse_parameters (success : bool) (parameters_str : string) :
  follows (emits P) (parse_parameters success parameters_str).
Proof. unfold parse_parameters, parameter_line. repeat events_step. Qed.

Lemma events_fetch_parameters :
  follows (emits P) (fetch_parameters salt username password verify).
Proof.
  unfold fetch_parameters. repeat first [apply events_parse_parameters | events_step].
Qed.

Lemma events_port_sub_fields (icm_k : string) (params : list string)
    (protocol port : option string) :
  follows (emits P) (port_sub_fields icm_k params protocol port).
Proof.
  revert protocol port. induction params as [|param params IH]; intros protocol port;
    cbn [port_sub_fields]; repeat first [apply IH | events_step].
Qed.

Lemma events_server_ports (prefix what : string) :
  follows (emits P) (server_ports prefix what).
Proof.
  unfold server_ports, server_port, int_of_port.
  repeat first [apply events_port_sub_fields | events_step].
Qed.

Lemma events_process_abap :
  follows (emits P) (process_abap salt username password verify).
Proof.
  unfold process_abap, abap_extraction.
  repeat first [apply events_server_ports | events_step].
Qed.

Lemma events_message_server_ports :
  follows (emits P) (message_server_ports salt sid).
Proof.
  unfold message_server_ports, message_server_msport, message_server_httpport.
  repeat first [apply events_server_ports | events_step].
Qed.

Lemma events_probe_message_servers (l : list (gmap string string)) :
  follows (emits P) (probe_message_servers salt verify l).
Proof.
  induction l as [|message_server l IH]; cbn [probe_message_servers];
    repeat first [apply IH | events_step].
Qed.

Lemma events_logon_groups : follows (emits P) (logon_groups salt verify).
Proof.
  unfold logon_groups, logon_group_line.
  repeat first [apply events_probe_message_servers | events_step].
Qed.

Lemma events_process_type :
  follows (emits P) (process_type salt sid username password verify).
Proof.
  unfold process_type, process_messageserver, messageserver_extraction.
  repeat first [ apply events_process_abap | apply events_message_server_ports
               | apply events_logon_groups | events_step ].
Qed.

Lemma events_register_instance (fqdn : string) (this : loc) :
  follows (emits P) (register_instance salt username password verify fqdn this).
Proof. unfold register_instance. repeat events_step. Qed.

Lemma events_loop_body (domain fqdn : string) (this : loc) :
  follows (emits P) (loop_body salt sid username password verify domain fqdn this).
Proof.
  unfold loop_body.
  repeat first [ apply events_fetch_parameters | apply events_process_type
               | apply events_register_instance | events_step ].
Qed.

Lemma events_iteration (domain fqdn : string) (this : loc) :
  follows (emits P) (iteration salt sid username password verify domain fqdn this).
Proof.
  intros st. unfold iteration.
  destruct (heap st !! this) as [i|]; [|reflexivity].
  match goal with |- context [loop_body _ _ _ _ _ _ _ _ ?s] =>
    pose proof (events_loop_body domain fqdn this s) as H;
    destruct (loop_body salt sid username password verify domain fqdn this s) as [st' r]
  end.
  exact H.
Qed.

Lemma events_loop_instances (domain fqdn : string) (l : list loc) :
  follows (emits P) (loop_instances salt sid username password verify domain fqdn l).
Proof.
  unfold loop_instances. apply follows_for_each; [apply _|].
  intros this. apply events_iteration.
Qed.

Hypothesis P_list_instances :
  P (Call_list_instances sid username password (negb verify)).
Hypothesis P_instance_list :
  forall n fq, P (Call_get_system_instance_list n fq username password verify).

Lemma events_get_system_data :
  follows (emits P) (get_system_data salt sid username password verify).
Proof.
  unfold get_system_data.
  repeat first [ apply events_loop_instances | events_step ].
Qed.

End Events.

(** Every call of a collaborator in a run, returning or raising, is made
    with the system id, the credentials and the [verify] flag the
    function was given: the discovery with [fallback = not verify], the
    parameter fetch for all parameters, the grep on [/etc/services] for
    [sapms<sid>]. *)
Theorem calls_as_given
    (salt : Salt) (sid username password : string) (verify : bool) :
  Forall (called_as_given sid username password verify)
         (trace (get_system_data salt sid username password verify initial_state).1).
Proof.
  assert (H : follows (emits (called_as_given sid username password verify))
                      (get_system_data salt sid username password verify)).
  { apply events_get_system_data; intros; cbn; auto. }
  destruct (H initial_state) as (evs & Htrace & Hevs).
  rewrite Htrace. exact Hevs.
Qed.

(** ** No HTTP request is ever made *)

(** Traces that are extended by events other than HTTP requests. *)
Abbreviation no_request := (emits (fun e => is_request e = false)).

(** Closes [no_request st st'] when the trace of [st'] is that of [st]
    with explicit events appended. *)
Ltac explicit_events :=
  solve
    [ exists []; split; [cbn [trace]; rewrite app_nil_r; reflexivity | constructor]
    | eexists; split;
      [ cbn [trace]; rewrite <- ?app_assoc; reflexivity
      | cbn [app]; repeat constructor ] ].

(** With a first candidate without the key [httpsport], the logon-group
    block stops at its first step. *)
Lemma logon_groups_stops
    (salt : Salt) (verify : bool) (st : state)
    (message_server : gmap string string) (l : list (gmap string string)) :
  sd_message_servers (system_data st) = Some (message_server :: l) ->
  message_server !! "httpsport" = None ->
  exists key,
    logon_groups salt verify st =
      ({| heap := heap st; cur := cur st; system_data := system_data st;
          parameters := parameters st;
          trace := (trace st ++ [Log DEBUG "Retrieving Logon Groups"])%list |},
       Raise (KeyError key)).
Proof.
  intros Hl Hnone. unfold logon_groups.
  rewrite !bind_run. run. rewrite Hl.
  match goal with |- context [probe_message_servers salt verify _ ?s] =>
    destruct (probe_message_servers_raises salt verify message_server l s Hnone)
      as [key Hkey]
  end.
  exists key. rewrite Hkey. reflexivity.
Qed.

Section NoRequest.

Variable salt : Salt.
Variables sid username password : string.
Variable verify : bool.

Lemma messageserver_extraction_no_request (st : state) :
  sd_message_servers (system_data st) = None ->
  no_request st (messageserver_extraction salt sid verify st).1 /\
  (messageserver_extraction salt sid verify st).2 <> Ok tt.
Proof.
  intros Hnone. unfold messageserver_extraction. rewrite bind_run.
  assert (Hev : no_request st (message_server_ports salt sid st).1)
    by (apply events_message_server_ports; intros; reflexivity).
  destruct (message_server_ports_run salt sid st) as [Hbuilt _].
  destruct (message_server_ports salt sid st) as [s1 [[]|e]]; cbn [fst snd] in *.
  2:{ split; [exact Hev | discriminate]. }
  destruct (Hbuilt eq_refl) as (n & fq & v & _ & _ & Hsd & _).
  rewrite Hnone in Hsd. cbn [default app] in Hsd.
  destruct (logon_groups_stops salt verify s1
              (<[ "httpport" := "81" ++ PyStr.format_02d n ]>
                 (<[ "msport" := v ]> {[ "host" := fq ]})) [])
    as [key Hkey].
  { rewrite Hsd. reflexivity. }
  { rewrite !lookup_insert_ne by done. apply lookup_singleton_ne. done. }
  rewrite Hkey. cbn [fst snd]. split; [|discriminate].
  etransitivity; [exact Hev | explicit_events].
Qed.

Lemma process_type_no_request (st : state) :
  sd_message_servers (system_data st) = None ->
  let r := process_type salt sid username password verify st in
  no_request st r.1 /\ (r.2 = Ok tt -> keeps_groups st r.1).
Proof.
  intros Hnone. unfold process_type, has_feature. run.
  repeat case_bool_decide; run;
    try (split; [explicit_events | intros _; split; reflexivity]).
  - (* ABAP *)
    match goal with |- context [process_abap _ _ _ _ ?s] =>
      pose proof (keeps_groups_process_abap salt username password verify s) as Hkeep;
      assert (Hev : no_request s (process_abap salt username password verify s).1)
        by (apply events_process_abap; intros; reflexivity)
    end.
    split; [|intros _; exact Hkeep].
    etransitivity; [|exact Hev]. explicit_events.
  - (* MESSAGESERVER *)
    unfold process_messageserver. run.
    match goal with |- context [messageserver_extraction _ _ _ ?s] =>
      destruct (messageserver_extraction_no_request s Hnone) as [Hev Hraise]
    end.
    split; [|intros Hok; contradiction].
    etransitivity; [|exact Hev]. explicit_events.
Qed.

Lemma loop_body_no_request (domain fqdn : string) (this : loc) (st : state) :
  sd_message_servers (system_data st) = None ->
  no_request st (loop_body salt sid username password verify domain fqdn this st).1.
Proof.
  intros Hnone. unfold loop_body. run.
  match goal with |- context [fetch_parameters _ _ _ _ ?s] =>
    assert (Hstart : no_request st s) by explicit_events;
    pose proof (keeps_groups_fetch_parameters salt username password verify s) as [F1 _];
    assert (Hfetch : no_request s (fetch_parameters salt username password verify s).1)
      by (apply events_fetch_parameters; intros; reflexivity);
    destruct (fetch_parameters salt username password verify s) as [s2 [[]|e]]
  end; cbn [fst snd system_data] in *.
  2:{ etransitivity; eassumption. }
  assert (Hnone2 : sd_message_servers (system_data s2) = None) by congruence.
  destruct (process_type_no_request s2 Hnone2) as [Htype _].
  destruct (process_type salt sid username password verify s2) as [s3 [[]|e]];
    cbn [fst snd] in *.
  2:{ etransitivity; [exact Hstart|]. etransitivity; eassumption. }
  assert (Hreg : no_request s3
                   (register_instance salt username password verify fqdn this s3).1)
    by (apply events_register_instance; intros; reflexivity).
  etransitivity; [exact Hstart|]. etransitivity; [exact Hfetch|].
  etransitivity; eassumption.
Qed.

Lemma iteration_no_request (domain fqdn : string) (this : loc) (st : state) :
  sd_message_servers (system_data st) = None ->
  no_request st (iteration salt sid username password verify domain fqdn this st).1.
Proof.
  intros Hnone. unfold iteration.
  destruct (heap st !! this) as [i|]; [|reflexivity].
  pose proof (loop_body_no_request domain fqdn this
                {| heap := heap st; cur := i; system_data := system_data st;
                   parameters := parameters st; trace := trace st |} Hnone) as H.
  destruct (loop_body salt sid username password verify domain fqdn this _) as [st' r].
  exact H.
Qed.

Lemma loop_instances_no_request (domain fqdn : string) (l : list loc) (st : state) :
  sd_message_servers (system_data st) = None ->
  no_request st (loop_instances salt sid username password verify domain fqdn l st).1.
Proof.
  unfold loop_instances. revert st.
  induction l as [|this l IH]; intros st Hnone; [reflexivity|].
  cbn [for_each]. rewrite bind_run.
  pose proof (iteration_no_request domain fqdn this st Hnone) as Hthis.
  pose proof (iteration_groups salt sid username password verify domain fqdn this st Hnone)
    as Hkeep.
  destruct (iteration salt sid username password verify domain fqdn this st)
    as [st1 [[]|e]]; cbn [fst snd] in *; [|exact Hthis].
  destruct (Hkeep eq_refl) as [H1 _].
  etransitivity; [exact Hthis | apply IH; congruence].
Qed.

End NoRequest.

(** No run of [get_system_data], returning or raising, makes an HTTP
    request: the message-server record never has the key [httpsport]
    that the URL of the request is built from. *)
Theorem no_http_request
    (salt : Salt) (sid username password : string) (verify : bool)
    (url : string) (v : bool) :
  Call_requests_get url v ∉
    trace (get_system_data salt sid username password verify initial_state).1.
Proof.
  assert (H : follows no_request (get_system_data salt sid username password verify)).
  { intros st. unfold get_system_data. run.
    destruct (sap_hostctrl_list_instances salt sid username password (negb verify))
      as [|[|[hostname n] more] others]; run; try explicit_events.
    cbn [dict_get]. rewrite decide_True by reflexivity. run.
    destruct (items (sap_control_get_system_instance_list salt n
                       (hostname ++ "." ++ grains_domain salt) username password verify))
      as [|first l]; run; [explicit_events|].
    match goal with |- context [loop_instances _ _ _ _ _ _ _ _ ?s] =>
      pose proof (loop_instances_no_request salt sid username password verify
                    (grains_domain salt) (hostname ++ "." ++ grains_domain salt)
                    (first :: l) s eq_refl) as Hloop;
      assert (Hstart : no_request st s) by explicit_events;
      destruct (loop_instances salt sid username password verify (grains_domain salt)
                  (hostname ++ "." ++ grains_domain salt) (first :: l) s)
        as [st1 [[]|e]]
    end; cbn [fst snd] in *; run.
    - etransitivity; [exact Hstart|]. etransitivity; [exact Hloop | explicit_events].
    - etransitivity; eassumption. }
  destruct (H initial_state) as (evs & Htrace & Hevs).
  rewrite Htrace. cbn [trace initial_state app].
  intros Hin. rewrite Forall_forall in Hevs. specialize (Hevs _ Hin). discriminate.
Qed.

(** ** Splitting text *)

Lemma split_cons (c : ascii) (s : string) :
  PyStr.split c s =
    before_first c s ::
    (if PyStr.contains_char c s then PyStr.split c (after_first c s) else []).
Proof.
  induction s as [|d s IH]; [reflexivity|].
  cbn [PyStr.split before_first after_first PyStr.contains_char].
  destruct (Ascii.eqb c d); [reflexivity|]. rewrite IH. reflexivity.
Qed.

Lemma split_first_field (c : ascii) (s : string) :
  PyStr.split c s !! 0%nat = Some (before_first c s).
Proof. rewrite split_cons. reflexivity. Qed.

Lemma split_second_field (c : ascii) (s : string) :
  PyStr.split c s !! 1%nat =
    if PyStr.contains_char c s then Some (before_first c (after_first c s)) else None.
Proof.
  rewrite split_cons. destruct (PyStr.contains_char c s); [|reflexivity].
  cbn [lookup list_lookup]. apply split_first_field.
Qed.

Lemma before_first_absent (c : ascii) (s : string) :
  PyStr.contains_char c s = false -> before_first c s = s.
Proof.
  induction s as [|d s IH]; [reflexivity|].
  cbn [PyStr.contains_char before_first]. destruct (Ascii.eqb c d); [discriminate|].
  intros H. rewrite (IH H). reflexivity.
Qed.

Lemma before_first_app (c : ascii) (a b : string) :
  PyStr.contains_char c a = false -> before_first c (a ++ String c b) = a.
Proof.
  induction a as [|d a IH]; simpl.
  - rewrite Ascii.eqb_refl. reflexivity.
  - destruct (Ascii.eqb c d); [discriminate|]. intros H. rewrite (IH H). reflexivity.
Qed.

Lemma after_first_app (c : ascii) (a b : string) :
  PyStr.contains_char c a = false -> after_first c (a ++ String c b) = b.
Proof.
  induction a as [|d a IH]; simpl.
  - rewrite Ascii.eqb_refl. reflexivity.
  - destruct (Ascii.eqb c d); [discriminate|]. exact IH.
Qed.

Lemma contains_char_app (c : ascii) (a b : string) :
  PyStr.contains_char c (a ++ b) = PyStr.contains_char c a || PyStr.contains_char c b.
Proof.
  induction a as [|d a IH]; simpl; [reflexivity|].
  destruct (Ascii.eqb c d); [reflexivity | exact IH].
Qed.

(** ** The sub-fields of a port value *)

Lemma port_sub_fields_run
    (icm_k : string) (params : list string) (protocol port : option string) (st : state) :
  let r := port_sub_fields icm_k params protocol port st in
  r.2 = (if forallb (PyStr.contains_char "=") params
         then Ok (last_field "PROT" params protocol, last_field "PORT" params port)
         else Raise IndexError) /\
  cur r.1 = cur st /\ system_data r.1 = system_data st /\ parameters r.1 = parameters st.
Proof.
  revert protocol port st.
  induction params as [|param params IH]; intros protocol port st; [done|].
  cbn [port_sub_fields forallb]. run.
  rewrite split_first_field, split_second_field.
  destruct (PyStr.contains_char "=" param) eqn:Hparam; run; [|done].
  unfold last_field. cbn [fold_left]. fold (sub_field_key param) (sub_field_value param).
  case_bool_decide as Hprot.
  - match goal with |- context [port_sub_fields icm_k params ?a ?b ?s] =>
      destruct (IH a b s) as (H1 & H2 & H3 & H4)
    end.
    rewrite H1. rewrite (bool_decide_eq_false_2 (sub_field_key param = "PORT"))
      by (rewrite Hprot; discriminate).
    done.
  - case_bool_decide as Hport; run;
      match goal with |- context [port_sub_fields icm_k params ?a ?b ?s] =>
        destruct (IH a b s) as (H1 & H2 & H3 & H4)
      end; rewrite H1; done.
Qed.

(** The scan of the sub-fields of a port value (lines 181-191) raises
    [IndexError] as soon as a sub-field has no [=]; otherwise it returns
    the values of the last [PROT] and the last [PORT] sub-field, and in
    both cases it leaves the instance and [system_data] alone. *)
Theorem port_sub_fields_scan
    (icm_k : string) (params : list string) (protocol port : option string) (st : state) :
  let r := port_sub_fields icm_k params protocol port st in
  r.2 = (if forallb (PyStr.contains_char "=") params
         then Ok (last_field "PROT" params protocol, last_field "PORT" params port)
         else Raise IndexError) /\
  cur r.1 = cur st /\ system_data r.1 = system_data st /\ parameters r.1 = parameters st.
Proof. apply port_sub_fields_run. Qed.

(** ** A well-formed port entry *)

Lemma split_two (c : ascii) (a b : string) :
  PyStr.contains_char c a = false -> PyStr.contains_char c b = false ->
  PyStr.split c (a ++ String c b) = [a; b].
Proof.
  intros Ha Hb. rewrite split_cons, before_first_app, after_first_app by exact Ha.
  rewrite contains_char_app, Ha. simpl. rewrite Ascii.eqb_refl.
  rewrite split_cons, Hb, before_first_absent by exact Hb. reflexivity.
Qed.

(** A port parameter [PROT=p,PORT=d] whose trimmed port [int()] reads as
    a number other than 0 (so of at most 4300 digits) and whose protocol
    is not blank is never an error: the protocol is trimmed and compared
    without regard to case, HTTPS stores the number as [httpsport], HTTP
    as [httpport], any other protocol stores nothing; [system_data] is
    not touched. *)
Theorem server_port_well_formed
    (prefix what icm_k p d : string) (n : Z) (st : state) :
  PyStr.startswith prefix icm_k = true ->
  PyStr.contains_char "," p = false -> PyStr.contains_char "=" p = false ->
  PyStr.contains_char "," d = false -> PyStr.contains_char "=" d = false ->
  PyStr.strip p <> "" ->
  PyStr.to_int (PyStr.strip d) = inl n -> n <> 0 ->
  let r := server_port prefix what icm_k (("PROT=" ++ p) ++ "," ++ ("PORT=" ++ d)) st in
  r.2 = Ok tt /\
  cur r.1 = store_port (PyStr.strip p) n (cur st) /\
  system_data r.1 = system_data st.
Proof.
  intros Hprefix Hp1 Hp2 Hd1 Hd2 Hblank Hint Hn.
  unfold server_port. rewrite Hprefix.
  change ("," ++ ("PORT=" ++ d)) with (String "," ("PORT=" ++ d)).
  rewrite split_two
    by (rewrite contains_char_app; first [rewrite Hp1 | rewrite Hd1]; reflexivity).
  rewrite bind_run. cbv [log emit]. rewrite bind_run.
  match goal with |- context [port_sub_fields ?k ?l ?a ?b ?s] =>
    destruct (port_sub_fields_run k l a b s) as (Hscan & Hcur & Hsd & _);
    destruct (port_sub_fields k l a b s) as [s1 r1]
  end.
  cbn [fst snd cur system_data] in Hscan, Hcur, Hsd. subst r1.
  assert (Hfields :
            forallb (PyStr.contains_char "=") ["PROT=" ++ p; "PORT=" ++ d] = true)
    by reflexivity.
  rewrite Hfields.
  assert (Hkp : sub_field_key ("PROT=" ++ p) = "PROT") by reflexivity.
  assert (Hkd : sub_field_key ("PORT=" ++ d) = "PORT") by reflexivity.
  assert (Hvp : sub_field_value ("PROT=" ++ p) = PyStr.strip p).
  { unfold sub_field_value. change (after_first "=" ("PROT=" ++ p)) with p.
    rewrite (before_first_absent "=" p Hp2). reflexivity. }
  assert (Hvd : sub_field_value ("PORT=" ++ d) = PyStr.strip d).
  { unfold sub_field_value. change (after_first "=" ("PORT=" ++ d)) with d.
    rewrite (before_first_absent "=" d Hd2). reflexivity. }
  assert (Hprot : last_field "PROT" ["PROT=" ++ p; "PORT=" ++ d] None
                  = Some (PyStr.strip p)).
  { unfold last_field. cbn [fold_left]. rewrite Hkp, Hkd, Hvp. reflexivity. }
  assert (Hport : last_field "PORT" ["PROT=" ++ p; "PORT=" ++ d] None
                  = Some (PyStr.strip d)).
  { unfold last_field. cbn [fold_left]. rewrite Hkp, Hkd, Hvd. reflexivity. }
  rewrite Hprot, Hport. unfold int_of_port. rewrite Hint. run.
  rewrite (bool_decide_eq_false_2 (PyStr.strip p = "")) by exact Hblank.
  rewrite (proj2 (Z.eqb_neq n 0) Hn). cbn [orb].
  unfold store_port. rewrite <- Hcur, <- Hsd.
  repeat case_bool_decide; run; done.
Qed.

Lemma server_port_well_formed_witness :
  let r := server_port "icm/server_port_" "ICM" "icm/server_port_1"
             (("PROT=" ++ " https ") ++ "," ++ ("PORT=" ++ " 8_001 ")) ascs_state in
  r.2 = Ok tt /\
  cur r.1 = set_httpsport 8001 (cur ascs_state) /\
  system_data r.1 = system_data ascs_state.
Proof.
  apply (server_port_well_formed "icm/server_port_" "ICM" "icm/server_port_1"
           " https " " 8_001 " 8001 ascs_state); try reflexivity; discriminate.
Defined.

Lemma append_assoc (x y z : string) : (x ++ y) ++ z = x ++ (y ++ z).
Proof. induction x as [|c x IH]; [reflexivity | exact (f_equal (String c) IH)]. Qed.

(** ** The message-server port of the service-name database *)

(** When the grep of the service-name database succeeds, the
    message-server port is the second tab-delimited field of the line
    found, up to its [/]; a line without a tab raises [IndexError].  For
    a line [name<TAB>port/rest] that field is [port]. *)
Theorem msport_from_services
    (salt : Salt) (sid : string) (message_server : gmap string string) (st : state) :
  (file_grep salt "/etc/services" ("sapms" ++ sid)).1 = 0 ->
  let stdout := (file_grep salt "/etc/services" ("sapms" ++ sid)).2 in
  (message_server_msport salt sid message_server st).2 =
    (if PyStr.contains_char "009" stdout
     then Ok (<[ "msport" := services_port stdout ]> message_server)
     else Raise IndexError) /\
  forall name port rest,
    PyStr.contains_char "009" name = false ->
    PyStr.contains_char "009" port = false ->
    PyStr.contains_char "/" port = false ->
    services_port (name ++ String "009" (port ++ String "/" rest)) = port.
Proof.
  intros Hret. split.
  - unfold message_server_msport. run.
    rewrite bool_decide_eq_true_2 by exact Hret. run.
    rewrite split_second_field.
    destruct (PyStr.contains_char "009" _); run; [|reflexivity].
    rewrite split_first_field. run. reflexivity.
  - intros name port rest Hname Hport Hslash. unfold services_port.
    rewrite after_first_app by exact Hname.
    destruct (PyStr.contains_char "009" rest) eqn:Hrest.
    + (* a third field: the second one ends at the next tab *)
      assert (Hsplit : exists a b,
                 rest = a ++ String "009" b /\ PyStr.contains_char "009" a = false).
      { clear -Hrest. induction rest as [|c r IH]; [discriminate|].
        cbn [PyStr.contains_char] in Hrest.
        destruct (Ascii.eqb "009" c) eqn:Hc.
        - apply Ascii.eqb_eq in Hc as <-. exists "", r. split; reflexivity.
        - destruct (IH Hrest) as (a & b & -> & Ha). exists (String c a), b.
          split; [reflexivity|]. cbn [PyStr.contains_char]. rewrite Hc. exact Ha. }
      destruct Hsplit as (a & b & -> & Ha).
      change (port ++ String "/" (a ++ String "009" b))
        with (port ++ (String "/" a ++ String "009" b)).
      rewrite <- append_assoc, (before_first_app "009").
      * apply before_first_app, Hslash.
      * rewrite contains_char_app, Hport. simpl. exact Ha.
    + rewrite (before_first_absent "009" (port ++ String "/" rest)).
      * apply before_first_app, Hslash.
      * rewrite contains_char_app, Hport. simpl. exact Hrest.
Qed.

Lemma msport_from_services_witness :
  (message_server_msport services_salt "S4H" {[ "host" := "host2.example.org" ]}
     ascs_state).2
  = Ok (<[ "msport" := "3620" ]> {[ "host" := "host2.example.org" ]}).
Proof.
  destruct (msport_from_services services_salt "S4H" {[ "host" := "host2.example.org" ]}
              ascs_state eq_refl) as [Hrun Hport].
  rewrite Hrun. cbn [file_grep services_salt snd].
  rewrite (Hport "sapmsS4H" "3620"
             ("tcp" ++ String "009" "# SAP System Message Server Port")
             eq_refl eq_refl eq_refl).
  reflexivity.
Defined.

(** ** The database of an ABAP instance *)

(** Whatever the rest of the ABAP block does, returning or raising, it
    leaves [db_host] and [db_instance] as the parameters [SAPDBHOST] and
    [rsdb/dbid] give them (as they were, when the parameter is missing),
    and [software_components] as the component list, when the call for it
    succeeded with a non-empty list (as it was, otherwise). *)
Theorem abap_extraction_database
    (salt : Salt) (username password : string) (verify : bool) (st : state)
    (ps : list (string * string)) (n : Z) (fq : string) :
  parameters st = Some ps ->
  i_instance (cur st) = Some n ->
  i_fqdn (cur st) = Some fq ->
  let d := system_data (abap_extraction salt username password verify st).1 in
  let answer := sap_control_get_abap_component_list salt n fq username password verify in
  sd_db_host d = from_option Some (sd_db_host (system_data st)) (dict_get "SAPDBHOST" ps) /\
  sd_db_instance d
    = from_option Some (sd_db_instance (system_data st)) (dict_get "rsdb/dbid" ps) /\
  sd_software_components d
    = (if answer.1 && negb (bool_decide (answer.2 = []))
       then Some answer.2 else sd_software_components (system_data st)) /\
  sd_instances d = sd_instances (system_data st) /\
  sd_message_servers d = sd_message_servers (system_data st) /\
  sd_logon_groups d = sd_logon_groups (system_data st).
Proof.
  intros Hps Hn Hfq.
  assert (Hkeep : follows keeps_servers (server_ports "icm/server_port_" "ICM"))
    by (apply follows_server_ports; respects).
  unfold abap_extraction. run. rewrite Hps.
  destruct (dict_get "SAPDBHOST" ps) as [host|];
    repeat (progress (run; rewrite ?Hps, ?Hn, ?Hfq));
    (destruct (dict_get "rsdb/dbid" ps) as [dbid|];
     repeat (progress (run; rewrite ?Hps, ?Hn, ?Hfq)));
    (destruct (sap_control_get_abap_component_list salt n fq username password verify)
       as [success comps]; destruct success; cbn [negb]; run;
     try case_bool_decide; run);
    match goal with |- context [server_ports _ _ ?s] =>
      destruct (Hkeep s) as (_ & _ & _ & Hsd); rewrite Hsd
    end; cbn [fst snd andb negb from_option]; done.
Qed.

Lemma abap_extraction_database_witness :
  let d := system_data (abap_extraction (example_salt no_dump []) "sapadm" "secret" true
                          (abap_state [("SAPDBHOST", "db1")])).1 in
  sd_db_host d = Some "db1" /\ sd_db_instance d = None /\
  sd_software_components d = Some [[("name", "SAP_BASIS")]].
Proof.
  destruct (abap_extraction_database (example_salt no_dump []) "sapadm" "secret" true
              (abap_state [("SAPDBHOST", "db1")]) [("SAPDBHOST", "db1")] 0
              "host1.example.org" eq_refl eq_refl eq_refl)
    as (Hhost & Hdb & Hcomp & _).
  split; [exact Hhost|]. split; [exact Hdb | exact Hcomp].
Defined.

(** ** The last binding of a parameter *)

Lemma dict_get_set_ne {V : Type} (k k' : string) (v : V) (d : list (string * V)) :
  k <> k' -> dict_get k (dict_set k' v d) = dict_get k d.
Proof.
  intros Hne. induction d as [|[k0 v0] d IH]; cbn [dict_set dict_get].
  - rewrite decide_False by exact Hne. reflexivity.
  - destruct (decide (k' = k0)) as [->|Hk]; cbn [dict_get].
    + rewrite !decide_False by exact Hne. reflexivity.
    + destruct (decide (k = k0)); [reflexivity | exact IH].
Qed.

Lemma bind_lines_other (key : string) (lines : list string) (d : list (string * string)) :
  Forall (fun l => PyStr.contains_char "=" l = true ->
                   PyStr.strip (before_first "=" l) <> key) lines ->
  dict_get key (fold_left bind_line lines d) = dict_get key d.
Proof.
  intros Hother. revert d. induction Hother as [|l lines Hl _ IH]; intros d; [reflexivity|].
  cbn [fold_left]. rewrite IH. unfold bind_line.
  destruct (PyStr.contains_char "=" l) eqn:Heq; [|reflexivity].
  apply dict_get_set_ne. intros ->. exact (Hl eq_refl eq_refl).
Qed.

(** In a parsed dump, a parameter has the value of the last line that
    binds it: a line [key=value] after which no line binds the same
    trimmed key gives [parameters[key] == value], both trimmed. *)
Theorem parse_last_binding
    (dump : string) (before : list string) (line : string) (after : list string)
    (st : state) :
  PyStr.split "010" dump = (before ++ line :: after)%list ->
  PyStr.contains_char "=" line = true ->
  Forall (fun l => PyStr.contains_char "=" l = true ->
                   PyStr.strip (before_first "=" l) <> PyStr.strip (before_first "=" line))
         after ->
  parameters (parse_parameters true dump st).1
    ≫= dict_get (PyStr.strip (before_first "=" line))
  = Some (PyStr.strip (after_first "=" line)).
Proof.
  intros Hsplit Hline Hafter. unfold parse_parameters. cbn [negb]. rewrite bind_run. run.
  match goal with |- context [for_each _ parameter_line ?s] =>
    destruct (parameter_lines_run (PyStr.split "010" dump) s []) as
      (st' & Hrun & Hp & _)
  end; [reflexivity|].
  rewrite Hrun. cbn [fst]. rewrite Hp, Hsplit, fold_left_app. cbn [fold_left mbind option_bind].
  rewrite bind_lines_other by exact Hafter.
  unfold bind_line at 1. rewrite Hline. apply dict_set_get.
Qed.

Lemma parse_last_binding_witness :
  parameters (parse_parameters true "a=1
b=2
a = 3" initial_state).1 ≫= dict_get "a" = Some "3".
Proof.
  apply (parse_last_binding "a=1
b=2
a = 3" ["a=1"; "b=2"] "a = 3" [] initial_state); [reflexivity | reflexivity | constructor].
Defined.

(** ** A discovery without a host *)

(** When the first entry of the discovery is an empty dict, there is no
    hostname to take: the function raises [StopIteration] after the
    discovery, before any other collaborator is called. *)
Theorem discovery_without_host
    (salt : Salt) (sid username password : string) (verify : bool) (st : state)
    (others : list (list (string * Z))) :
  sap_hostctrl_list_instances salt sid username password (negb verify) = [] :: others ->
  let r := get_system_data salt sid username password verify st in
  r.2 = Raise StopIteration /\
  trace r.1 =
    (trace st ++
     [Log DEBUG "Running function";
      Log DEBUG ("Getting instances for system " ++ sid);
      Call_list_instances sid username password (negb verify);
      Log DEBUG "Got instances"])%list.
Proof.
  intros Hfound. unfold get_system_data. run. rewrite Hfound. run.
  split; [reflexivity|]. rewrite <- !app_assoc. reflexivity.
Qed.

Lemma discovery_without_host_witness :
  (get_system_data
     {| sap_hostctrl_list_instances := fun _ _ _ _ => [[]];
        sap_control_get_system_instance_list :=
          sap_control_get_system_instance_list absent_salt;
        sap_control_parameter_value := sap_control_parameter_value absent_salt;
        sap_control_get_abap_component_list :=
          sap_control_get_abap_component_list absent_salt;
        file_grep := file_grep absent_salt;
        sap_control_get_instance_properties :=
          sap_control_get_instance_properties absent_salt;
        requests_get := requests_get absent_salt;
        grains_fqdn := "host1.example.org";
        grains_domain := "example.org" |}
     "S4H" "sapadm" "secret" true initial_state).2 = Raise StopIteration.
Proof.
  eapply proj1.
  apply (discovery_without_host _ "S4H" "sapadm" "secret" true initial_state []).
  reflexivity.
Defined.

(** ** A run that returns, on an example *)

Lemma get_system_data_no_logon_groups_witness :
  let r := get_system_data (example_salt (same_dump "") [0%nat; 2%nat])
             "S4H" "sapadm" "secret" true initial_state in
  sd_message_servers (system_data r.1) = None /\ sd_logon_groups (system_data r.1) = None.
Proof.
  apply (get_system_data_no_logon_groups (example_salt (same_dump "") [0%nat; 2%nat])
           "S4H" "sapadm" "secret" true
           (get_system_data (example_salt (same_dump "") [0%nat; 2%nat])
              "S4H" "sapadm" "secret" true initial_state).1
           (system_data
              (get_system_data (example_salt (same_dump "") [0%nat; 2%nat])
                 "S4H" "sapadm" "secret" true initial_state).1)).
  vm_compute. reflexivity.
Defined.

(** ** The records of a returned result *)

Lemma dict_set_key_new {V : Type} (k : Z) (v : V) (d : list (Z * V)) :
  k ∈ (dict_set k v d).*1.
Proof.
  induction d as [|[k' v'] d IH]; cbn [dict_set].
  - apply list_elem_of_here.
  - case_decide; cbn [fmap list_fmap fst].
    + apply list_elem_of_here.
    + apply list_elem_of_further, IH.
Qed.

Lemma dict_set_key_old {V : Type} (k x : Z) (v : V) (d : list (Z * V)) :
  x ∈ d.*1 -> x ∈ (dict_set k v d).*1.
Proof.
  induction d as [|[k' v'] d IH]; cbn [dict_set fmap list_fmap fst].
  - intros H. inversion H.
  - intros [->|H]%elem_of_cons; case_decide as Hk; cbn [fmap list_fmap fst].
    + subst. apply list_elem_of_here.
    + apply list_elem_of_here.
    + apply list_elem_of_further, H.
    + apply list_elem_of_further, IH, H.
Qed.

(** The type block writes the type of the classification. *)
Lemma process_type_type
    (salt : Salt) (sid username password : string) (verify : bool) (st : state) :
  i_type (cur (process_type salt sid username password verify st).1)
    = Some (classify (i_features (cur st))).
Proof.
  rewrite classify_first. unfold process_type, has_feature. run.
  repeat case_bool_decide; run; try reflexivity.
  - unfold process_abap. run.
    match goal with |- context [abap_extraction _ _ _ _ ?s] =>
      apply (follows_abap_extraction (keeps_type "ABAP")) with (st := s)
    end; try respects; reflexivity.
  - unfold process_messageserver. run.
    match goal with |- context [messageserver_extraction _ _ _ ?s] =>
      apply (follows_messageserver_extraction (keeps_type "ASCS")) with (st := s)
    end; try respects; reflexivity.
Qed.

(** A completed run of the loop body finishes the current instance. *)
Lemma loop_body_finished
    (salt : Salt) (sid username password : string) (verify : bool)
    (domain fqdn : string) (this : loc) (st : state) :
  let r := loop_body salt sid username password verify domain fqdn this st in
  r.2 = Ok tt ->
  exists k l,
    finished salt username password verify domain fqdn (cur st) (cur r.1) k /\
    sd_instances (system_data st) = Some l /\
    sd_instances (system_data r.1) = Some (dict_set k this l) /\
    heap r.1 = heap st.
Proof.
  unfold loop_body. run.
  set (s1 := {| heap := heap st;
                cur := set_fqdn (i_hostname (cur st) ++ "." ++ domain) (cur st);
                system_data := system_data st; parameters := parameters st;
                trace := ((trace st ++ [Log DEBUG "Current instance"]) ++
                          [Log DEBUG "Setting FQDN"])%list |}).
  assert (HF : follows keeps_identity (fetch_parameters salt username password verify))
    by (apply follows_fetch_parameters; respects).
  pose proof (HF s1) as (F1 & F2 & F3 & F4 & F5 & F6).
  destruct (fetch_parameters salt username password verify s1) as [s2 [[]|e]];
    unfold s1 in *; clear s1;
    cbn [fst snd heap cur system_data set_fqdn
         i_hostname i_instance i_fqdn i_features] in *; [|discriminate].
  assert (HP : follows keeps_identity (process_type salt sid username password verify))
    by (apply follows_process_type; respects).
  pose proof (HP s2) as (P1 & P2 & P3 & P4 & P5 & P6).
  pose proof (process_type_type salt sid username password verify s2) as Htype.
  destruct (process_type salt sid username password verify s2) as [s3 [[]|e]];
    cbn [fst snd] in *; [|discriminate].
  unfold register_instance. run.
  rewrite P3, F3. destruct (i_instance (cur st)) as [k|] eqn:Hk; run; [|discriminate].
  cbn [set_name i_instance]. rewrite P3, F3, ?Hk. run.
  rewrite P6, F6.
  destruct (sd_instances (system_data st)) as [l|] eqn:Hl; run; [|discriminate].
  intros _. exists k, l. unfold finished.
  cbn [set_sd_instances sd_instances del_instance set_name
       i_hostname i_instance i_fqdn i_features i_type i_name].
  rewrite Htype, P2, F2, P4, F4, P5, F5, P1, F1, ?Hk, ?Hl. repeat split; reflexivity.
Qed.

(** One completed iteration keeps the invariant of the loop. *)
Lemma iteration_finished
    (salt : Salt) (sid username password : string) (verify : bool)
    (domain fqdn : string) (heap0 : list InstanceRecord) (this : loc)
    (st st1 : state) (seen : list loc) :
  loop_invariant salt username password verify domain fqdn heap0 st seen ->
  iteration salt sid username password verify domain fqdn this st = (st1, Ok tt) ->
  loop_invariant salt username password verify domain fqdn heap0 st1 (seen ++ [this]).
Proof.
  intros (Hnodup & Hfresh & Hseen & Hreg). unfold iteration.
  destruct (heap st !! this) as [i|] eqn:Hi; [|discriminate].
  pose proof (loop_body_finished salt sid username password verify domain fqdn this
                {| heap := heap st; cur := i; system_data := system_data st;
                   parameters := parameters st; trace := trace st |}) as Hbody.
  destruct (loop_body salt sid username password verify domain fqdn this _) as [st' res].
  cbn [fst snd heap cur system_data] in Hbody. intros [= <- ->].
  destruct (Hbody eq_refl) as (k & l & Hfin & Hl & Hl' & Hheap). clear Hbody.
  assert (Hnew : this ∉ seen).
  { intros Hin. destruct (Hseen this Hin) as (i0 & j & k' & _ & Hj & Hj' & _).
    assert (j = i) as -> by congruence.
    destruct Hj' as (_ & Hnone & _). destruct Hfin as (Hsome & _). congruence. }
  assert (Hi0 : heap0 !! this = Some i) by (rewrite <- (Hfresh this Hnew); exact Hi).
  assert (Hregs : registered
                    {| heap := <[this:=cur st']> (heap st'); cur := cur st';
                       system_data := system_data st'; parameters := parameters st';
                       trace := trace st' |} = dict_set k this l).
  { unfold registered. cbn [system_data]. rewrite Hl'. reflexivity. }
  assert (Hold : registered st = l) by (unfold registered; rewrite Hl; reflexivity).
  unfold loop_invariant. rewrite Hregs. cbn [heap]. rewrite Hheap.
  split; [|split; [|split]].
  - apply NoDup_app. split; [exact Hnodup|]. split; [|apply NoDup_singleton].
    intros x Hx ->%list_elem_of_singleton. exact (Hnew Hx).
  - intros r Hr. rewrite list_lookup_insert_ne; [apply Hfresh|].
    + intros Hin. apply Hr. apply elem_of_app. left. exact Hin.
    + intros ->. apply Hr. apply elem_of_app. right. apply list_elem_of_here.
  - intros r [Hr| ->%list_elem_of_singleton]%elem_of_app.
    + destruct (Hseen r Hr) as (i0 & j & k' & H0 & Hj & Hj' & Hkey).
      exists i0, j, k'. split; [exact H0|]. split; [|split; [exact Hj'|]].
      * rewrite list_lookup_insert_ne; [exact Hj|]. intros ->. exact (Hnew Hr).
      * apply dict_set_key_old. rewrite <- Hold. exact Hkey.
    + exists i, (cur st'), k. split; [exact Hi0|]. split; [|split; [exact Hfin|]].
      * apply list_lookup_insert_eq. eapply lookup_lt_Some, Hi.
      * apply dict_set_key_new.
  - intros k' r [[= -> ->]|Hin]%dict_set_elem.
    + split; [apply elem_of_app; right; apply list_elem_of_here|].
      exists i. split; [exact Hi0 | apply Hfin].
    + rewrite <- Hold in Hin. destruct (Hreg k' r Hin) as [Hr H0].
      split; [apply elem_of_app; left; exact Hr | exact H0].
Qed.

Lemma loop_instances_finished
    (salt : Salt) (sid username password : string) (verify : bool)
    (domain fqdn : string) (heap0 : list InstanceRecord) (l : list loc)
    (st st1 : state) (seen : list loc) :
  loop_invariant salt username password verify domain fqdn heap0 st seen ->
  loop_instances salt sid username password verify domain fqdn l st = (st1, Ok tt) ->
  loop_invariant salt username password verify domain fqdn heap0 st1 (seen ++ l).
Proof.
  unfold loop_instances. revert st seen.
  induction l as [|this l IH]; intros st seen Hinv.
  - intros [= <-]. rewrite app_nil_r. exact Hinv.
  - cbn [for_each]. rewrite bind_run.
    pose proof (iteration_finished salt sid username password verify domain fqdn heap0
                  this st) as Hthis.
    destruct (iteration salt sid username password verify domain fqdn this st)
      as [s [[]|e]]; [|discriminate].
    intros Hrest. specialize (Hthis s seen Hinv eq_refl).
    rewrite (app_assoc seen [this] l : (seen ++ this :: l = (seen ++ [this]) ++ l)%list).
    exact (IH s _ Hthis Hrest).
Qed.

(** The state a returned run ends in satisfies the invariant of the loop
    for the whole list of instances. *)
Lemma get_system_data_finished
    (salt : Salt) (sid username password : string) (verify : bool)
    (hostname : string) (n : Z) (more : list (string * Z)) (others : list (list (string * Z)))
    (st' : state) (d : SystemData) :
  sap_hostctrl_list_instances salt sid username password (negb verify)
    = ((hostname, n) :: more) :: others ->
  get_system_data salt sid username password verify initial_state = (st', Ok d) ->
  let fqdn := hostname ++ "." ++ grains_domain salt in
  let found := sap_control_get_system_instance_list salt n fqdn username password verify in
  d = system_data st' /\
  loop_invariant salt username password verify (grains_domain salt) fqdn
    (objects found) st' (items found).
Proof.
  intros Hfound Hrun. cbv zeta.
  destruct (items (sap_control_get_system_instance_list salt n
                     (hostname ++ "." ++ grains_domain salt) username password verify))
    as [|first l] eqn:Hitems.
  - exfalso. revert Hrun. unfold get_system_data. run. rewrite Hfound.
    cbn [dict_get]. rewrite decide_True by reflexivity. rewrite Hitems. discriminate.
  - destruct (get_system_data_loop salt sid username password verify hostname n more
                others first l Hfound Hitems) as (st0 & Hempty & Heq).
    revert Hrun. unfold get_system_data.
    cbv [mbind M_bind mret M_ret raise emit log call modify_system_data set_heap].
    cbn [heap cur system_data parameters trace initial_state].
    rewrite Hfound. cbn [dict_get]. rewrite decide_True by reflexivity.
    rewrite Hitems.
    match goal with |- context [loop_instances _ _ _ _ _ _ _ _ ?s] =>
      pose proof (loop_instances_finished salt sid username password verify
                    (grains_domain salt) (hostname ++ "." ++ grains_domain salt)
                    (heap s) (first :: l) s) as Hloop;
      destruct (loop_instances salt sid username password verify (grains_domain salt)
                  (hostname ++ "." ++ grains_domain salt) (first :: l) s)
        as [st1 [[]|e]]
    end; [|discriminate].
    run. intros [= <- <-]. split; [reflexivity|].
    specialize (Hloop st1 []).
    cbn [heap app] in Hloop.
    assert (Hinv : loop_invariant salt username password verify (grains_domain salt)
                     (hostname ++ "." ++ grains_domain salt)
                     (objects (sap_control_get_system_instance_list salt n
                                 (hostname ++ "." ++ grains_domain salt)
                                 username password verify)) st1 (first :: l)).
    { apply Hloop; [|reflexivity].
      split; [constructor|]. split; [reflexivity|].
      split; [intros r Hx; inversion Hx | intros k r Hx; inversion Hx]. }
    destruct Hinv as (I1 & I2 & I3 & I4).
    split; [exact I1|]. split; [exact I2|]. split; [exact I3 | exact I4].
Qed.

(** Every record of a returned result is the discovered instance dict it
    is registered for, finished: under the instance number the dict had,
    without the raw [instance] field, with its hostname and features as
    discovered, [fqdn] the hostname with the domain, [type] the
    classification of the features and [name] the [INSTANCE_NAME]
    property fetched for that number from the management host, or the
    placeholder. *)
Theorem returned_records
    (salt : Salt) (sid username password : string) (verify : bool)
    (hostname : string) (n : Z) (more : list (string * Z)) (others : list (list (string * Z)))
    (st' : state) (d : SystemData) :
  sap_hostctrl_list_instances salt sid username password (negb verify)
    = ((hostname, n) :: more) :: others ->
  get_system_data salt sid username password verify initial_state = (st', Ok d) ->
  let fqdn := hostname ++ "." ++ grains_domain salt in
  let found := sap_control_get_system_instance_list salt n fqdn username password verify in
  forall k r, (k, r) ∈ default [] (sd_instances d) ->
    r ∈ items found /\
    exists i0 i,
      objects found !! r = Some i0 /\ heap st' !! r = Some i /\
      finished salt username password verify (grains_domain salt) fqdn i0 i k.
Proof.
  intros Hfound Hrun fqdn found k r Hin.
  destruct (get_system_data_finished salt sid username password verify hostname n more
              others st' d Hfound Hrun) as (-> & _ & _ & Hseen & Hreg).
  destruct (Hreg k r Hin) as (Hr & i0 & H0 & Hk).
  split; [exact Hr|].
  destruct (Hseen r Hr) as (j0 & j & k' & Hj0 & Hj & Hfin & _).
  exists j0, j. split; [exact Hj0|]. split; [exact Hj|].
  assert (j0 = i0) as -> by congruence.
  assert (k' = k) as -> by (destruct Hfin as (Hfin & _); congruence).
  exact Hfin.
Qed.

(** In a run that returns, no instance dict occurs twice in the list of
    instances, every one of them had an instance number, and that number
    is a key of the returned instances mapping. *)
Theorem returned_keys
    (salt : Salt) (sid username password : string) (verify : bool)
    (hostname : string) (n : Z) (more : list (string * Z)) (others : list (list (string * Z)))
    (st' : state) (d : SystemData) :
  sap_hostctrl_list_instances salt sid username password (negb verify)
    = ((hostname, n) :: more) :: others ->
  get_system_data salt sid username password verify initial_state = (st', Ok d) ->
  let fqdn := hostname ++ "." ++ grains_domain salt in
  let found := sap_control_get_system_instance_list salt n fqdn username password verify in
  NoDup (items found) /\
  forall r, r ∈ items found ->
    exists i0 k, objects found !! r = Some i0 /\ i_instance i0 = Some k /\
                 k ∈ (default [] (sd_instances d)).*1.
Proof.
  intros Hfound Hrun fqdn found.
  destruct (get_system_data_finished salt sid username password verify hostname n more
              others st' d Hfound Hrun) as (-> & Hnodup & _ & Hseen & _).
  split; [exact Hnodup|].
  intros r Hr. destruct (Hseen r Hr) as (i0 & i & k & H0 & _ & Hfin & Hkey).
  exists i0, k. split; [exact H0|]. split; [apply Hfin | exact Hkey].
Qed.

Lemma returned_records_witness :
  let salt := example_salt (same_dump "") [0%nat; 2%nat] in
  let r := get_system_data salt "S4H" "sapadm" "secret" true initial_state in
  let fqdn := "host1" ++ "." ++ grains_domain salt in
  let found := sap_control_get_system_instance_list salt 0 fqdn "sapadm" "secret" true in
  2%nat ∈ items found /\
  exists i0 i,
    objects found !! 2%nat = Some i0 /\ heap r.1 !! 2%nat = Some i /\
    finished salt "sapadm" "secret" true (grains_domain salt) fqdn i0 i 2.
Proof.
  cbv zeta.
  apply (returned_records (example_salt (same_dump "") [0%nat; 2%nat])
           "S4H" "sapadm" "secret" true "host1" 0 [] []
           (get_system_data (example_salt (same_dump "") [0%nat; 2%nat])
              "S4H" "sapadm" "secret" true initial_state).1
           (system_data
              (get_system_data (example_salt (same_dump "") [0%nat; 2%nat])
                 "S4H" "sapadm" "secret" true initial_state).1)
           eq_refl).
  - vm_compute. reflexivity.
  - vm_compute. apply list_elem_of_further, list_elem_of_here.
Defined.

Lemma returned_keys_witness :
  let salt := example_salt (same_dump "") [0%nat; 2%nat] in
  let r := get_system_data salt "S4H" "sapadm" "secret" true initial_state in
  let fqdn := "host1" ++ "." ++ grains_domain salt in
  let found := sap_control_get_system_instance_list salt 0 fqdn "sapadm" "secret" true in
  NoDup (items found) /\
  forall x, x ∈ items found ->
    exists i0 k, objects found !! x = Some i0 /\ i_instance i0 = Some k /\
                 k ∈ (default [] (sd_instances (system_data r.1))).*1.
Proof.
  cbv zeta.
  apply (returned_keys (example_salt (same_dump "") [0%nat; 2%nat])
           "S4H" "sapadm" "secret" true "host1" 0 [] []
           (get_system_data (example_salt (same_dump "") [0%nat; 2%nat])
              "S4H" "sapadm" "secret" true initial_state).1).
  - reflexivity.
  - vm_compute. reflexivity.
Defined.

(** What the example run returns, record by record. *)
Example returned_records_run :
  let r := get_system_data (example_salt (same_dump "") [0%nat; 2%nat])
             "S4H" "sapadm" "secret" true initial_state in
  resolve_instances r.1 (system_data r.1)
  = [(0, Some {| i_hostname := "host1"; i_instance := None;
                 i_features := ["ABAP"; "GATEWAY"];
                 i_fqdn := Some "host1.example.org"; i_type := Some "ABAP";
                 i_name := Some "D00"; i_httpport := None; i_httpsport := None |});
     (2, Some {| i_hostname := "host3"; i_instance := None;
                 i_features := ["ABAP"; "ICMAN"];
                 i_fqdn := Some "host3.example.org"; i_type := Some "ABAP";
                 i_name := Some "D00"; i_httpport := None; i_httpsport := None |})].
Proof. vm_compute. reflexivity. Qed.

(** ** A failed parameter call, in general *)

(** When the parameter call fails for an ABAP instance while
    [parameters] is unbound (the first instance of a run), the loop body
    logs the warning and raises [UnboundLocalError]: nothing is
    registered for the instance. *)
Theorem failed_fetch_raises
    (salt : Salt) (sid username password : string) (verify : bool)
    (domain fqdn : string) (this : loc) (st : state) (n : Z) :
  parameters st = None ->
  i_instance (cur st) = Some n ->
  "ABAP" ∈ i_features (cur st) ->
  (sap_control_parameter_value salt n "" (i_hostname (cur st) ++ "." ++ domain)
     username password verify).1 = false ->
  let r := loop_body salt sid username password verify domain fqdn this st in
  r.2 = Raise (UnboundLocalError "parameters") /\
  Log WARNING "Could not retrieve parameters" ∈ trace r.1 /\
  sd_instances (system_data r.1) = sd_instances (system_data st).
Proof.
  intros Hunbound Hn Habap Hfail.
  unfold loop_body, fetch_parameters. run. cbv [set_fqdn]. run.
  rewrite Hn. run.
  destruct (sap_control_parameter_value salt n "" _ username password verify)
    as [success dump]. cbn [fst] in Hfail. subst success.
  unfold parse_parameters. cbn [negb]. run.
  unfold process_type, has_feature. run.
  rewrite bool_decide_eq_true_2 by exact Habap.
  unfold process_abap, abap_extraction. run. rewrite Hunbound. run.
  split; [reflexivity|]. split; [|reflexivity].
  repeat first [ apply elem_of_app; right; apply list_elem_of_singleton; reflexivity
               | apply elem_of_app; left ].
Qed.

Lemma failed_fetch_raises_witness :
  let r := loop_body (example_salt no_dump []) "S4H" "sapadm" "secret" true
             "example.org" "host1.example.org" 0%nat
             (at_instance (discovered "host1" 0 ["ABAP"; "GATEWAY"]) None) in
  r.2 = Raise (UnboundLocalError "parameters") /\
  Log WARNING "Could not retrieve parameters" ∈ trace r.1 /\
  sd_instances (system_data r.1)
    = sd_instances (system_data (at_instance (discovered "host1" 0 ["ABAP"; "GATEWAY"]) None)).
Proof.
  apply (failed_fetch_raises (example_salt no_dump []) "S4H" "sapadm" "secret" true
           "example.org" "host1.example.org" 0%nat
           (at_instance (discovered "host1" 0 ["ABAP"; "GATEWAY"]) None) 0).
  - reflexivity.
  - reflexivity.
  - apply list_elem_of_here.
  - reflexivity.
Defined.

(** ** Loading the module *)

(** The module loads under the name [sap] exactly when [requests] could
    be imported. *)
Lemma virtual_loads (REQUESTSLIB : bool) :
  virtual REQUESTSLIB = inl "sap" <-> REQUESTSLIB = true.
Proof. destruct REQUESTSLIB; cbn; split; intros H; try reflexivity; discriminate. Qed.

(** ** Looking an instance up by its number *)

Lemma dict_get_elem {V : Type} (k : Z) (v : V) (d : list (Z * V)) :
  NoDup d.*1 -> (k, v) ∈ d -> dict_get k d = Some v.
Proof.
  induction d as [|[k' v'] d IH]; cbn [dict_get fmap list_fmap fst].
  - intros _ H. inversion H.
  - intros [Hnotin Hd]%NoDup_cons [[= -> ->]|Hin]%elem_of_cons.
    + rewrite decide_True by reflexivity. reflexivity.
    + destruct (decide (k = k')) as [->|Hne]; [|exact (IH Hd Hin)].
      exfalso. apply Hnotin. apply list_elem_of_fmap. exists (k', v). done.
Qed.

(** When the discovered instance dicts have pairwise different instance
    numbers, a run that returns has every one of them in the instances
    mapping under its number: looking the number up gives that dict. *)
Theorem returned_lookup
    (salt : Salt) (sid username password : string) (verify : bool)
    (hostname : string) (n : Z) (more : list (string * Z)) (others : list (list (string * Z)))
    (st' : state) (d : SystemData) :
  sap_hostctrl_list_instances salt sid username password (negb verify)
    = ((hostname, n) :: more) :: others ->
  get_system_data salt sid username password verify initial_state = (st', Ok d) ->
  let fqdn := hostname ++ "." ++ grains_domain salt in
  let found := sap_control_get_system_instance_list salt n fqdn username password verify in
  (forall r1 r2, r1 ∈ items found -> r2 ∈ items found ->
     objects found !! r1 ≫= i_instance = objects found !! r2 ≫= i_instance -> r1 = r2) ->
  forall r, r ∈ items found ->
    exists i0 k, objects found !! r = Some i0 /\ i_instance i0 = Some k /\
                 dict_get k (default [] (sd_instances d)) = Some r.
Proof.
  intros Hfound Hrun. cbv zeta. intros Hunique r Hr.
  destruct (get_system_data_finished salt sid username password verify hostname n more
              others st' d Hfound Hrun) as (-> & _ & _ & Hseen & Hreg).
  destruct (get_system_data_instances salt sid username password verify st'
              (system_data st') Hrun) as [Hkeys _].
  unfold resolve_instances, registered in *.
  destruct (sd_instances (system_data st')) as [regs|]; cbn [default] in *.
  2:{ destruct (Hseen r Hr) as (? & ? & ? & _ & _ & _ & Hkey). inversion Hkey. }
  rewrite <- list_fmap_compose in Hkeys.
  destruct (Hseen r Hr) as (i0 & i & k & H0 & _ & Hfin & Hkey).
  exists i0, k. split; [exact H0|]. split; [apply Hfin|].
  apply list_elem_of_fmap in Hkey as ([k' r'] & -> & Hin). cbn [fst] in *.
  destruct (Hreg k' r' Hin) as (Hr' & j0 & Hj0 & Hk').
  assert (r' = r) as ->.
  { apply Hunique; [exact Hr' | exact Hr|].
    rewrite Hj0, H0. cbn. destruct Hfin as (Hk & _). congruence. }
  apply dict_get_elem; [exact Hkeys | exact Hin].
Qed.

Lemma returned_lookup_witness :
  let salt := example_salt (same_dump "") [0%nat; 2%nat] in
  let r := get_system_data salt "S4H" "sapadm" "secret" true initial_state in
  let fqdn := "host1" ++ "." ++ grains_domain salt in
  let found := sap_control_get_system_instance_list salt 0 fqdn "sapadm" "secret" true in
  exists i0 k, objects found !! 2%nat = Some i0 /\ i_instance i0 = Some k /\
               dict_get k (default [] (sd_instances (system_data r.1))) = Some 2%nat.
Proof.
  cbv zeta.
  apply (returned_lookup (example_salt (same_dump "") [0%nat; 2%nat])
           "S4H" "sapadm" "secret" true "host1" 0 [] []
           (get_system_data (example_salt (same_dump "") [0%nat; 2%nat])
              "S4H" "sapadm" "secret" true initial_state).1
           (system_data
              (get_system_data (example_salt (same_dump "") [0%nat; 2%nat])
                 "S4H" "sapadm" "secret" true initial_state).1)
           eq_refl).
  - vm_compute. reflexivity.
  - intros r1 r2 H1 H2.
    apply elem_of_cons in H1 as [->|H1]; [|apply list_elem_of_singleton in H1 as ->];
      (apply elem_of_cons in H2 as [->|H2]; [|apply list_elem_of_singleton in H2 as ->]);
      vm_compute; intros H; first [reflexivity | discriminate].
  - apply list_elem_of_further, list_elem_of_here.
Defined.

(** ** A processed instance *)

(** The loop over a list in two parts. *)
Lemma loop_instances_app
    (salt : Salt) (sid username password : string) (verify : bool)
    (domain fqdn : string) (l1 l2 : list loc) (st : state) :
  loop_instances salt sid username password verify domain fqdn (l1 ++ l2) st =
  (loop_instances salt sid username password verify domain fqdn l1 ;;
   loop_instances salt sid username password verify domain fqdn l2) st.
Proof.
  unfold loop_instances. revert st. induction l1 as [|x l1 IH]; intros st.
  - reflexivity.
  - cbn [app for_each]. rewrite !bind_run.
    destruct (iteration salt sid username password verify domain fqdn x st)
      as [s [[]|e]]; [|reflexivity].
    rewrite IH, bind_run. reflexivity.
Qed.

Lemma loop_instances_last
    (salt : Salt) (sid username password : string) (verify : bool)
    (domain fqdn : string) (before : list loc) (this : loc) (st st1 : state) :
  loop_instances salt sid username password verify domain fqdn (before ++ [this]) st
    = (st1, Ok tt) ->
  exists s,
    loop_instances salt sid username password verify domain fqdn before st = (s, Ok tt) /\
    iteration salt sid username password verify domain fqdn this s = (st1, Ok tt).
Proof.
  rewrite loop_instances_app, bind_run.
  destruct (loop_instances salt sid username password verify domain fqdn before st)
    as [s [[]|e]] eqn:Hbefore; [|discriminate].
  unfold loop_instances at 1. cbn [for_each]. rewrite bind_run.
  destruct (iteration salt sid username password verify domain fqdn this s)
    as [s' [[]|e]] eqn:Hthis; [|discriminate].
  intros [= <-]. exists s. split; [reflexivity | exact Hthis].
Qed.

(** A completed run of the loop body has asked for the properties of the
    current instance, by its number, at [fqdn]. *)
Lemma loop_body_fetches
    (salt : Salt) (sid username password : string) (verify : bool)
    (domain fqdn : string) (this : loc) (st : state) :
  let r := loop_body salt sid username password verify domain fqdn this st in
  r.2 = Ok tt ->
  exists k, i_instance (cur st) = Some k /\
    Call_get_instance_properties k fqdn username password verify ∈ trace r.1.
Proof.
  unfold loop_body. run.
  set (s1 := {| heap := heap st;
                cur := set_fqdn (i_hostname (cur st) ++ "." ++ domain) (cur st);
                system_data := system_data st; parameters := parameters st;
                trace := ((trace st ++ [Log DEBUG "Current instance"]) ++
                          [Log DEBUG "Setting FQDN"])%list |}).
  assert (HF : follows keeps_identity (fetch_parameters salt username password verify))
    by (apply follows_fetch_parameters; respects).
  pose proof (HF s1) as (F1 & F2 & F3 & F4 & F5 & F6).
  destruct (fetch_parameters salt username password verify s1) as [s2 [[]|e]];
    unfold s1 in *; clear s1;
    cbn [fst snd heap cur system_data set_fqdn
         i_hostname i_instance i_fqdn i_features] in *; [|discriminate].
  assert (HP : follows keeps_identity (process_type salt sid username password verify))
    by (apply follows_process_type; respects).
  pose proof (HP s2) as (P1 & P2 & P3 & P4 & P5 & P6).
  destruct (process_type salt sid username password verify s2) as [s3 [[]|e]];
    cbn [fst snd] in *; [|discriminate].
  unfold register_instance. run.
  rewrite P3, F3. destruct (i_instance (cur st)) as [k|] eqn:Hk; run; [|discriminate].
  cbn [set_name i_instance]. rewrite P3, F3, ?Hk. run.
  rewrite P6, F6.
  destruct (sd_instances (system_data st)) as [l|] eqn:Hl; run; [|discriminate].
  intros _. exists k. split; [reflexivity|].
  repeat first [ apply elem_of_app; right; apply list_elem_of_singleton; reflexivity
               | apply elem_of_app; left ].
Qed.

(** A completed iteration: the object had a number, the reference is set
    under that number in the instances mapping, and the properties were
    asked for that number at [fqdn]. *)
Lemma iteration_registers
    (salt : Salt) (sid username password : string) (verify : bool)
    (domain fqdn : string) (this : loc) (s s1 : state) :
  iteration salt sid username password verify domain fqdn this s = (s1, Ok tt) ->
  exists i k l,
    heap s !! this = Some i /\ i_instance i = Some k /\
    sd_instances (system_data s) = Some l /\
    sd_instances (system_data s1) = Some (dict_set k this l) /\
    Call_get_instance_properties k fqdn username password verify ∈ trace s1.
Proof.
  unfold iteration. destruct (heap s !! this) as [i|] eqn:Hi; [|discriminate].
  pose proof (loop_body_finished salt sid username password verify domain fqdn this
                {| heap := heap s; cur := i; system_data := system_data s;
                   parameters := parameters s; trace := trace s |}) as Hbody.
  pose proof (loop_body_fetches salt sid username password verify domain fqdn this
                {| heap := heap s; cur := i; system_data := system_data s;
                   parameters := parameters s; trace := trace s |}) as Hcall.
  destruct (loop_body salt sid username password verify domain fqdn this _) as [st' res].
  cbn [fst snd heap cur system_data] in Hbody, Hcall. intros [= <- ->].
  destruct (Hbody eq_refl) as (k & l & Hfin & Hl & Hl' & _).
  destruct (Hcall eq_refl) as (k' & Hk' & Hin).
  assert (k' = k) as -> by (destruct Hfin as (Hfin & _); congruence).
  exists i, k, l. cbn [system_data trace].
  split; [reflexivity|]. split; [exact Hk'|]. split; [exact Hl|].
  split; [exact Hl' | exact Hin].
Qed.

(** The invariant of the loop holds when the loop starts with an empty
    instances mapping. *)
Lemma loop_invariant_start
    (salt : Salt) (username password : string) (verify : bool)
    (domain fqdn : string) (st : state) :
  registered st = [] ->
  loop_invariant salt username password verify domain fqdn (heap st) st [].
Proof.
  intros Hempty. split; [constructor|]. split; [reflexivity|].
  split; [intros r Hx; inversion Hx|].
  intros k r Hx. rewrite Hempty in Hx. inversion Hx.
Qed.

(** C9: when the loop, started with an empty instances mapping, has
    processed the instance dicts [before] and then [this], the keys of
    the instances mapping are pairwise different; [this] had an instance
    number and is what the mapping holds under that number; every dict
    processed had a number, and that number is a key; and every record
    in the mapping is a processed dict, under the number that dict was
    discovered with, its raw [instance] field removed, and with the
    content it keeps to the end of the run, whether the rest of the loop
    returns or raises. *)
Theorem instances_settled
    (salt : Salt) (sid username password : string) (verify : bool)
    (domain fqdn : string) (before rest : list loc) (this : loc) (st st1 : state) :
  registered st = [] ->
  loop_instances salt sid username password verify domain fqdn (before ++ [this]) st
    = (st1, Ok tt) ->
  let st2 := (loop_instances salt sid username password verify domain fqdn rest st1).1 in
  NoDup (registered st1).*1 /\
  (exists i0 k, heap st !! this = Some i0 /\ i_instance i0 = Some k /\
                dict_get k (registered st1) = Some this) /\
  (forall r, r ∈ (before ++ [this])%list ->
     exists i0 k, heap st !! r = Some i0 /\ i_instance i0 = Some k /\
                  k ∈ (registered st1).*1) /\
  (forall k r, (k, r) ∈ registered st1 ->
     r ∈ (before ++ [this])%list /\
     exists i0 i, heap st !! r = Some i0 /\ i_instance i0 = Some k /\
                  heap st1 !! r = Some i /\ i_instance i = None /\
                  heap st2 !! r = Some i).
Proof.
  intros Hempty Hrun.
  pose proof (loop_invariant_start salt username password verify domain fqdn st Hempty)
    as Hinv0.
  pose proof (loop_instances_finished salt sid username password verify domain fqdn
                (heap st) (before ++ [this]) st st1 [] Hinv0 Hrun) as Hinv1.
  cbn [app] in Hinv1. destruct Hinv1 as (_ & _ & Hseen & Hreg).
  pose proof (loop_instances_run salt sid username password verify domain fqdn
                (before ++ [this]) st) as (_ & _ & Hkeys).
  rewrite Hrun in Hkeys. cbn [fst] in Hkeys.
  split; [apply Hkeys; rewrite Hempty; constructor|].
  split; [|split].
  - destruct (loop_instances_last salt sid username password verify domain fqdn
                before this st st1 Hrun) as (s & Hbefore & Hthis).
    pose proof (loop_instances_finished salt sid username password verify domain fqdn
                  (heap st) before st s [] Hinv0 Hbefore) as Hinv.
    cbn [app] in Hinv. destruct Hinv as (_ & Hfresh & Hmet & _).
    destruct (iteration_registers salt sid username password verify domain fqdn
                this s st1 Hthis) as (i & k & l & Hi & Hk & _ & Hl & _).
    exists i, k. split; [|split; [exact Hk|]].
    + rewrite <- Hfresh; [exact Hi|].
      intros Hin. destruct (Hmet this Hin) as (j0 & j & k' & _ & Hj & Hfin & _).
      destruct Hfin as (_ & Hnone & _). congruence.
    + unfold registered. rewrite Hl. cbn [default]. apply dict_set_get.
  - intros r Hr. destruct (Hseen r Hr) as (i0 & i & k & H0 & _ & Hfin & Hkey).
    exists i0, k. split; [exact H0|]. split; [apply Hfin | exact Hkey].
  - intros k r Hin. destruct (Hreg k r Hin) as (Hr & i0 & H0 & Hk).
    split; [exact Hr|].
    destruct (Hseen r Hr) as (j0 & i & k' & Hj0 & Hi & Hfin & _).
    destruct Hfin as (_ & Hnone & Hhost & _ & Hfq & _).
    exists i0, i. split; [exact H0|]. split; [exact Hk|].
    split; [exact Hi|]. split; [exact Hnone|].
    pose proof (loop_instances_run salt sid username password verify domain fqdn rest st1)
      as (Hkept & _ & _).
    rewrite Hkept; [exact Hi|].
    exists i. split; [exact Hi|]. split; [exact Hnone|]. rewrite Hhost. exact Hfq.
Qed.

Lemma instances_settled_witness :
  let salt := example_salt (same_dump "") [0%nat; 2%nat; 1%nat] in
  let st1 := (loop_instances salt "S4H" "sapadm" "secret" true "example.org"
                "host1.example.org" ([0%nat] ++ [2%nat]) example_loop_state).1 in
  let st2 := (loop_instances salt "S4H" "sapadm" "secret" true "example.org"
                "host1.example.org" [1%nat] st1).1 in
  NoDup (registered st1).*1 /\
  (exists i0 k, heap example_loop_state !! 2%nat = Some i0 /\ i_instance i0 = Some k /\
                dict_get k (registered st1) = Some 2%nat) /\
  (forall r, r ∈ ([0%nat] ++ [2%nat])%list ->
     exists i0 k, heap example_loop_state !! r = Some i0 /\ i_instance i0 = Some k /\
                  k ∈ (registered st1).*1) /\
  (forall k r, (k, r) ∈ registered st1 ->
     r ∈ ([0%nat] ++ [2%nat])%list /\
     exists i0 i, heap example_loop_state !! r = Some i0 /\ i_instance i0 = Some k /\
                  heap st1 !! r = Some i /\ i_instance i = None /\
                  heap st2 !! r = Some i).
Proof.
  cbv zeta.
  apply (instances_settled (example_salt (same_dump "") [0%nat; 2%nat; 1%nat])
           "S4H" "sapadm" "secret" true "example.org" "host1.example.org"
           [0%nat] [1%nat] 2%nat example_loop_state).
  - reflexivity.
  - vm_compute. reflexivity.
Defined.

(** The run of the witness: both ABAP instances are registered under
    their numbers, the rest of the loop raises at the central-services
    instance and leaves them as they are. *)
Example instances_settled_run :
  let salt := example_salt (same_dump "") [0%nat; 2%nat; 1%nat] in
  let r1 := loop_instances salt "S4H" "sapadm" "secret" true "example.org"
              "host1.example.org" [0%nat; 2%nat] example_loop_state in
  let r2 := loop_instances salt "S4H" "sapadm" "secret" true "example.org"
              "host1.example.org" [1%nat] r1.1 in
  r1.2 = Ok tt /\ registered r1.1 = [(0, 0%nat); (2, 2%nat)] /\
  r2.2 = Raise (KeyError "httpsport") /\
  heap r2.1 !! 0%nat = heap r1.1 !! 0%nat /\ heap r2.1 !! 2%nat = heap r1.1 !! 2%nat.
Proof. vm_compute. repeat split; reflexivity. Qed.

(** ** The properties of a processed instance *)

(** C10: in a run whose discovery gave [hostname] first, when the loop
    has processed the instance dict [this] (after the dicts [before]),
    the instance-properties collaborator was called for the number of
    [this] with the FQDN of the management host, [hostname] with the
    domain grain; the name of the instance is taken from the answer of
    that call, while the [fqdn] the instance was given in the same
    iteration is its own hostname with the domain; and no call of the
    collaborator in the run is made with another FQDN than the
    management host's.  The loop of the run starts in [loop_start]. *)
Theorem properties_fetched_from_management_host
    (salt : Salt) (sid username password : string) (verify : bool)
    (hostname : string) (n : Z) (more : list (string * Z)) (others : list (list (string * Z)))
    (before after : list loc) (this : loc) (st1 : state) :
  sap_hostctrl_list_instances salt sid username password (negb verify)
    = ((hostname, n) :: more) :: others ->
  let domain := grains_domain salt in
  let fqdn := hostname ++ "." ++ domain in
  let found := sap_control_get_system_instance_list salt n fqdn username password verify in
  let st0 := loop_start salt sid username password verify hostname n in
  let run := get_system_data salt sid username password verify initial_state in
  items found = (before ++ this :: after)%list ->
  loop_instances salt sid username password verify domain fqdn (before ++ [this]) st0
    = (st1, Ok tt) ->
  run = (loop_instances salt sid username password verify domain fqdn (items found) ;;
         log TRACE "system_data" ;;
         get_system_data_var) st0 /\
  Forall (properties_called_with (Some fqdn)) (trace run.1) /\
  exists i0 i k,
    objects found !! this = Some i0 /\ i_instance i0 = Some k /\
    heap st1 !! this = Some i /\
    i_fqdn i = Some (i_hostname i0 ++ "." ++ domain) /\
    i_name i = Some (default "UNKOWN_INSTANCE_NAME"
                       (dict_get "INSTANCE_NAME"
                          (sap_control_get_instance_properties salt k fqdn
                             username password verify))) /\
    Call_get_instance_properties k fqdn username password verify ∈ trace st1 /\
    Call_get_instance_properties k fqdn username password verify ∈ trace run.1.
Proof.
  intros Hfound. cbv zeta. intros Hitems Hrun.
  assert (Heq : get_system_data salt sid username password verify initial_state
                = (loop_instances salt sid username password verify (grains_domain salt)
                     (hostname ++ "." ++ grains_domain salt)
                     (items (sap_control_get_system_instance_list salt n
                               (hostname ++ "." ++ grains_domain salt)
                               username password verify)) ;;
                   log TRACE "system_data" ;;
                   get_system_data_var)
                    (loop_start salt sid username password verify hostname n)).
  { unfold get_system_data.
    cbv [mbind M_bind mret M_ret raise emit log call modify_system_data set_heap].
    cbn [heap cur system_data parameters trace initial_state].
    rewrite Hfound. cbn [dict_get]. rewrite decide_True by reflexivity.
    rewrite Hitems. destruct before; reflexivity. }
  split; [exact Heq|]. split.
  { pose proof (properties_calls_to_management_host salt sid username password verify)
      as Hall.
    unfold management_fqdn in Hall. rewrite Hfound in Hall. exact Hall. }
  destruct (loop_instances_last salt sid username password verify (grains_domain salt)
              (hostname ++ "." ++ grains_domain salt) before this _ st1 Hrun)
    as (s & Hbefore & Hthis).
  pose proof (loop_invariant_start salt username password verify (grains_domain salt)
                (hostname ++ "." ++ grains_domain salt)
                (loop_start salt sid username password verify hostname n) eq_refl)
    as Hinv0.
  pose proof (loop_instances_finished salt sid username password verify
                (grains_domain salt) (hostname ++ "." ++ grains_domain salt)
                _ (before ++ [this]) _ st1 [] Hinv0 Hrun) as Hinv1.
  cbn [app] in Hinv1. destruct Hinv1 as (_ & _ & Hseen & _).
  destruct (Hseen this) as (i0 & i & k & H0 & Hi & Hfin & _).
  { apply elem_of_app. right. apply list_elem_of_here. }
  destruct (iteration_registers salt sid username password verify (grains_domain salt)
              (hostname ++ "." ++ grains_domain salt) this s st1 Hthis)
    as (j & k' & l & Hj & Hk' & _ & _ & Hcall).
  pose proof (loop_instances_finished salt sid username password verify
                (grains_domain salt) (hostname ++ "." ++ grains_domain salt)
                _ before _ s [] Hinv0 Hbefore) as Hinv.
  cbn [app] in Hinv. destruct Hinv as (_ & Hfresh & Hmet & _).
  assert (Hnew : this ∉ before).
  { intros Hin. destruct (Hmet this Hin) as (? & j' & ? & _ & Hj' & Hfin' & _).
    destruct Hfin' as (_ & Hnone & _). congruence. }
  assert (j = i0) as -> by (rewrite (Hfresh this Hnew) in Hj; congruence).
  assert (k' = k) as -> by (destruct Hfin as (Hfin & _); congruence).
  destruct Hfin as (Hk & _ & _ & _ & Hfq & _ & Hname).
  exists i0, i, k. cbn [loop_start heap] in H0.
  split; [exact H0|]. split; [exact Hk|]. split; [exact Hi|].
  split; [exact Hfq|]. split; [exact Hname|]. split; [exact Hcall|].
  rewrite Heq, Hitems.
  rewrite (cons_middle this before after), app_assoc.
  rewrite bind_run, loop_instances_app, bind_run, Hrun.
  assert (Hrest : follows (emits (properties_called_with
                                    (Some (hostname ++ "." ++ grains_domain salt))))
                    (loop_instances salt sid username password verify (grains_domain salt)
                       (hostname ++ "." ++ grains_domain salt) after))
    by apply emits_loop_instances.
  destruct (Hrest st1) as (evs & Htrace & _).
  destruct (loop_instances salt sid username password verify (grains_domain salt)
              (hostname ++ "." ++ grains_domain salt) after st1) as [s2 [[]|e]];
    cbn [fst] in Htrace; run; rewrite Htrace.
  - apply elem_of_app. left. apply elem_of_app. left. exact Hcall.
  - apply elem_of_app. left. exact Hcall.
Qed.

Lemma properties_fetched_from_management_host_witness :
  let salt := example_salt (same_dump "") [0%nat; 2%nat; 1%nat] in
  let st1 := (loop_instances salt "S4H" "sapadm" "secret" true "example.org"
                "host1.example.org" ([0%nat] ++ [2%nat])
                (loop_start salt "S4H" "sapadm" "secret" true "host1" 0)).1 in
  let found := sap_control_get_system_instance_list salt 0 "host1.example.org"
                 "sapadm" "secret" true in
  let run := get_system_data salt "S4H" "sapadm" "secret" true initial_state in
  exists i0 i k,
    objects found !! 2%nat = Some i0 /\ i_instance i0 = Some k /\
    heap st1 !! 2%nat = Some i /\
    i_fqdn i = Some (i_hostname i0 ++ "." ++ "example.org") /\
    i_name i = Some (default "UNKOWN_INSTANCE_NAME"
                       (dict_get "INSTANCE_NAME"
                          (sap_control_get_instance_properties salt k "host1.example.org"
                             "sapadm" "secret" true))) /\
    Call_get_instance_properties k "host1.example.org" "sapadm" "secret" true ∈ trace st1 /\
    Call_get_instance_properties k "host1.example.org" "sapadm" "secret" true
      ∈ trace run.1.
Proof.
  cbv zeta.
  apply (properties_fetched_from_management_host
           (example_salt (same_dump "") [0%nat; 2%nat; 1%nat])
           "S4H" "sapadm" "secret" true "host1" 0 [] [] [0%nat] [1%nat] 2%nat).
  - reflexivity.
  - reflexivity.
  - vm_compute. reflexivity.
Defined.
